(** * BirdGate: a shallow embedding of the stream pipeline and its properties

    The development follows the Python sources module by module:
    - [PyFloat]   : Python [float] (IEEE-754 binary64) and its comparisons;
    - [Py]        : the few Python built-ins the sources rely on (slices,
                    stable [list.sort], truthiness, [dict.get], exceptions);
    - [Gate]      : [gate.py];
    - [Numpy]     : the order in which numpy adds up a run of floats;
    - [Reader]    : [rtsp_reader.py] (framer and reconnect loop);
    - [BirdNET]   : [birdnet_client.py] (HTTP and CLI back ends);
    - [SQLiteLog] : [sqlite_log.py];
    - [JSONLLog]  : [jsonl_log.py];
    - [Features]  : [features.py] and the band check of [config.py];
    - [Pipeline]  : [pipeline.py].

    Definitions come first in every module, theorems after them. *)

From Stdlib Require Import ZArith List Bool String Ascii Lia.
From Stdlib Require Import QArith Qround Qabs Lqa.
From Stdlib Require Import Strings.Byte DecimalString.
From Stdlib Require Import Sorting.Sorted Sorting.Permutation.
From Stdlib Require Import Floats.SpecFloat.
Import ListNotations.

#[local] Set Warnings "-register-all".
Local Open Scope Z_scope.

(* ================================================================== *)
(** * Python floats *)
(* ================================================================== *)

Module PyFloat.

(** A Python [float] is an IEEE-754 binary64 value.  The model is the
    standard library's specification of binary floating point, which is
    executable and carries NaN, the infinities and both zeros. *)
Definition pyfloat : Type := spec_float.

Definition prec : Z := 53.
Definition emax : Z := 1024.

(** [a < b], [a <= b], [a >= b] on Python floats. *)
Definition flt (a b : pyfloat) : bool := SFltb a b.
Definition fle (a b : pyfloat) : bool := SFleb a b.
Definition fge (a b : pyfloat) : bool := SFleb b a.
Definition fgt (a b : pyfloat) : bool := SFltb b a.

Definition fmul (a b : pyfloat) : pyfloat := SFmul prec emax a b.
Definition fsub (a b : pyfloat) : pyfloat := SFsub prec emax a b.

Definition is_nan (a : pyfloat) : bool :=
  match a with S754_nan => true | _ => false end.

(** [float(n)] for a Python [int]: the nearest binary64, ties to even;
    Python raises [OverflowError] when the result would not be finite. *)
Definition of_int (n : Z) : option pyfloat :=
  match binary_normalize prec emax n 0 false with
  | S754_infinity _ => None
  | f => Some f
  end.

(** [int(x)]: truncation toward zero; NaN and the infinities raise. *)
Definition to_int (x : pyfloat) : option Z :=
  match x with
  | S754_zero _ => Some 0
  | S754_finite s m e =>
      let mag := if 0 <=? e then Zpos m * 2 ^ e else Zpos m / 2 ^ (- e) in
      Some (if s then - mag else mag)
  | _ => None
  end.

(** [round(x)] with one argument: the nearest integer, ties to even. *)
Definition round_half_even (x : pyfloat) : option Z :=
  match x with
  | S754_zero _ => Some 0
  | S754_finite s m e =>
      let mag :=
        if 0 <=? e then Zpos m * 2 ^ e
        else
          let d := 2 ^ (- e) in
          let q := Zpos m / d in
          let r := Zpos m mod d in
          match 2 * r ?= d with
          | Lt => q
          | Gt => q + 1
          | Eq => if Z.even q then q else q + 1
          end in
      Some (if s then - mag else mag)
  | _ => None
  end.

(** [x == n] between a float and an integer: exact comparison of values. *)
Definition eq_int (x : pyfloat) (n : Z) : bool :=
  match x with
  | S754_zero _ => n =? 0
  | S754_finite s m e =>
      if 0 <=? e then (if s then - (Zpos m * 2 ^ e) else Zpos m * 2 ^ e) =? n
      else ((Zpos m mod 2 ^ (- e)) =? 0)
           && ((if s then - (Zpos m / 2 ^ (- e)) else Zpos m / 2 ^ (- e)) =? n)
  | _ => false
  end.

(** Python's two-argument [min] and [max] keep the first argument unless
    the second is strictly better. *)
Definition pymin (a b : pyfloat) : pyfloat := if flt b a then b else a.
Definition pymax (a b : pyfloat) : pyfloat := if fgt b a then b else a.

(** The comparison of two non-NaN floats is the lexicographic comparison of
    these keys. *)
Definition key (x : pyfloat) : Z * Z * Z :=
  match x with
  | S754_infinity true => (-2, 0, 0)
  | S754_finite true m e => (-1, - e, Zneg m)
  | S754_zero _ => (0, 0, 0)
  | S754_nan => (0, 0, 0)
  | S754_finite false m e => (1, e, Zpos m)
  | S754_infinity false => (2, 0, 0)
  end.

Definition lexcmp (a b : Z * Z * Z) : comparison :=
  let '(a1, a2, a3) := a in
  let '(b1, b2, b3) := b in
  match a1 ?= b1 with
  | Eq => match a2 ?= b2 with Eq => a3 ?= b3 | c => c end
  | c => c
  end.

(** A few constants, written as their binary64 representation. *)
Definition f_zero : pyfloat := S754_zero false.
Definition f_one : pyfloat := S754_finite false 4503599627370496 (-52).
Definition f_two : pyfloat := S754_finite false 4503599627370496 (-51).
(** [0.25], [0.5], [1.75] *)
Definition f_0_25 : pyfloat := S754_finite false 4503599627370496 (-54).
Definition f_0_5 : pyfloat := S754_finite false 4503599627370496 (-53).
Definition f_1_75 : pyfloat := S754_finite false 7881299347898368 (-52).
(** [0.05], [0.1], [0.3], [0.9] (nearest binary64 values) *)
Definition f_0_05 : pyfloat := S754_finite false 7205759403792794 (-57).
Definition f_0_1 : pyfloat := S754_finite false 7205759403792794 (-56).
Definition f_0_3 : pyfloat := S754_finite false 5404319552844595 (-54).
Definition f_0_9 : pyfloat := S754_finite false 8106479329266893 (-53).
(** [3.0], [-60.0], [-200.0], [-10.0], [20.0], [1e-10] *)
Definition f_3 : pyfloat := S754_finite false 6755399441055744 (-51).
Definition f_m60 : pyfloat := S754_finite true 8444249301319680 (-47).
Definition f_m200 : pyfloat := S754_finite true 7036874417766400 (-45).
Definition f_m10 : pyfloat := S754_finite true 5629499534213120 (-49).
Definition f_20 : pyfloat := S754_finite false 5629499534213120 (-48).
Definition f_1em10 : pyfloat := S754_finite false 7737125245533627 (-86).
(** [0.001], [0.999], [20.0 Hz], [500.0], [2000.0], [9000.0] *)
Definition f_0_001 : pyfloat := S754_finite false 4611686018427388 (-62).
Definition f_0_999 : pyfloat := S754_finite false 8998192055486251 (-53).
Definition f_500 : pyfloat := S754_finite false 8796093022208000 (-44).
Definition f_2000 : pyfloat := S754_finite false 8796093022208000 (-42).
Definition f_9000 : pyfloat := S754_finite false 4947802324992000 (-39).

(** ** Order facts *)

Lemma compare_key (x y : pyfloat) :
  is_nan x = false -> is_nan y = false ->
  SFcompare x y = Some (lexcmp (key x) (key y)).
Proof.
  destruct x as [sx|sx| |sx mx ex], y as [sy|sy| |sy my ey];
    simpl; try discriminate; intros _ _;
    try (destruct sx; reflexivity); try (destruct sy; reflexivity);
    try (destruct sx, sy; reflexivity).
  destruct sx, sy; simpl; try reflexivity.
  rewrite Z.compare_opp, (Z.compare_antisym ex ey).
  destruct (ex ?= ey); reflexivity.
Qed.

Lemma lexcmp_le_trans (a b c : Z * Z * Z) :
  lexcmp a b <> Gt -> lexcmp b c <> Gt -> lexcmp a c <> Gt.
Proof.
  destruct a as [[a1 a2] a3], b as [[b1 b2] b3], c as [[c1 c2] c3].
  unfold lexcmp.
  destruct (Z.compare_spec a1 b1), (Z.compare_spec b1 c1),
    (Z.compare_spec a1 c1); try lia; try congruence;
  destruct (Z.compare_spec a2 b2), (Z.compare_spec b2 c2),
    (Z.compare_spec a2 c2); try lia; try congruence;
  destruct (Z.compare_spec a3 b3), (Z.compare_spec b3 c3),
    (Z.compare_spec a3 c3); try lia; congruence.
Qed.

Lemma lexcmp_antisym (a b : Z * Z * Z) : lexcmp b a = CompOpp (lexcmp a b).
Proof.
  destruct a as [[a1 a2] a3], b as [[b1 b2] b3]. unfold lexcmp.
  rewrite (Z.compare_antisym a1 b1), (Z.compare_antisym a2 b2),
    (Z.compare_antisym a3 b3).
  destruct (a1 ?= b1), (a2 ?= b2), (a3 ?= b3); reflexivity.
Qed.

Lemma fle_key (x y : pyfloat) :
  is_nan x = false -> is_nan y = false ->
  fle x y = true <-> lexcmp (key x) (key y) <> Gt.
Proof.
  intros Hx Hy. unfold fle, SFleb. rewrite (compare_key x y Hx Hy).
  destruct (lexcmp (key x) (key y)); split; congruence.
Qed.

Lemma fle_not_nan (x y : pyfloat) :
  fle x y = true -> is_nan x = false /\ is_nan y = false.
Proof. destruct x, y; simpl; auto; discriminate. Qed.

Lemma flt_not_nan (x y : pyfloat) :
  flt x y = true -> is_nan x = false /\ is_nan y = false.
Proof. destruct x, y; simpl; auto; discriminate. Qed.

Lemma fle_refl (x : pyfloat) : is_nan x = false -> fle x x = true.
Proof.
  intros Hx. apply (fle_key x x Hx Hx).
  destruct (key x) as [[a b] c]. unfold lexcmp.
  rewrite !Z.compare_refl. discriminate.
Qed.

Lemma fle_trans (x y z : pyfloat) :
  fle x y = true -> fle y z = true -> fle x z = true.
Proof.
  intros Hxy Hyz.
  destruct (fle_not_nan _ _ Hxy) as [Hx Hy].
  destruct (fle_not_nan _ _ Hyz) as [_ Hz].
  apply (fle_key x z Hx Hz).
  apply lexcmp_le_trans with (b := key y).
  - now apply (fle_key x y Hx Hy).
  - now apply (fle_key y z Hy Hz).
Qed.

Lemma flt_fle (x y : pyfloat) : flt x y = true -> fle x y = true.
Proof.
  unfold flt, fle, SFltb, SFleb.
  destruct (SFcompare x y) as [[]|]; congruence.
Qed.

Lemma flt_false_fle (x y : pyfloat) :
  is_nan x = false -> is_nan y = false ->
  flt x y = false -> fle y x = true.
Proof.
  intros Hx Hy. unfold flt, fle, SFltb, SFleb.
  rewrite (compare_key x y Hx Hy), (compare_key y x Hy Hx).
  rewrite (lexcmp_antisym (key x) (key y)).
  destruct (lexcmp (key x) (key y)); simpl; congruence.
Qed.

Lemma flt_fle_excl (x y : pyfloat) :
  flt x y = true -> fle y x = false.
Proof.
  intros H. destruct (flt_not_nan _ _ H) as [Hx Hy]. revert H.
  unfold flt, fle, SFltb, SFleb.
  rewrite (compare_key x y Hx Hy), (compare_key y x Hy Hx).
  rewrite (lexcmp_antisym (key x) (key y)).
  destruct (lexcmp (key x) (key y)); simpl; congruence.
Qed.

End PyFloat.

(* ================================================================== *)
(** * Python built-ins used by the sources *)
(* ================================================================== *)

Module Py.
Import PyFloat.

(** Exceptions, by class name. *)
Inductive exn : Type :=
  | OSError | ValueError | TypeError | AttributeError | OverflowError
  | ZeroDivisionError
  | RequestException | HTTPError | JSONDecodeError | TimeoutExpired
  | SqliteError.

(** The result of running a piece of Python: a value or a raised exception. *)
Inductive outcome (A : Type) : Type :=
  | Return (a : A)
  | Raise (e : exn).
Arguments Return {A} a.
Arguments Raise {A} e.

Definition bind {A B : Type} (m : outcome A) (k : A -> outcome B) : outcome B :=
  match m with
  | Return a => k a
  | Raise e => Raise e
  end.

Declare Scope py_scope.
Delimit Scope py_scope with py.
Notation "x <- m ;; k" := (bind m (fun x => k))
  (at level 61, m at next level, right associativity) : py_scope.

(** [try: body except Exception: handler] *)
Definition try_except {A : Type} (body : outcome A) (handler : exn -> outcome A)
  : outcome A :=
  match body with
  | Return a => Return a
  | Raise e => handler e
  end.

(** Python objects as [json.loads] produces them. *)
Inductive value : Type :=
  | VNone
  | VBool (b : bool)
  | VInt (n : Z)
  | VFloat (f : pyfloat)
  | VStr (s : string)
  | VList (l : list value)
  | VDict (kvs : list (string * value)).

(** Truth value of an object, as [or], [and] and [if] test it. *)
Definition truthy (v : value) : bool :=
  match v with
  | VNone => false
  | VBool b => b
  | VInt n => negb (n =? 0)
  | VFloat f => match f with S754_zero _ => false | _ => true end
  | VStr s => negb (String.eqb s EmptyString)
  | VList l => match l with [] => false | _ => true end
  | VDict kvs => match kvs with [] => false | _ => true end
  end.

(** [a or b] *)
Definition or_else (a b : value) : value := if truthy a then a else b.

(** A [dict] is kept as its list of items; keys are unique, so looking up
    the first matching item is [d[k]]. *)
Fixpoint lookup (kvs : list (string * value)) (k : string) : option value :=
  match kvs with
  | [] => None
  | (k', v) :: rest => if String.eqb k' k then Some v else lookup rest k
  end.

(** [k in d] *)
Definition contains (kvs : list (string * value)) (k : string) : bool :=
  match lookup kvs k with Some _ => true | None => false end.

(** [d.get(k)] and [d.get(k, default)] on a dict. *)
Definition dict_get (kvs : list (string * value)) (k : string) : value :=
  match lookup kvs k with Some v => v | None => VNone end.

Definition dict_get_default (kvs : list (string * value)) (k : string)
  (default : value) : value :=
  match lookup kvs k with Some v => v | None => default end.

(** [l[:n]] and [l[n:]] for a Python [int] [n]: a negative index counts from
    the end and is clipped at the start of the list. *)
Definition slice_to {A : Type} (l : list A) (n : Z) : list A :=
  if 0 <=? n then firstn (Z.to_nat n) l
  else firstn (Z.to_nat (Z.of_nat (List.length l) + n)) l.

Definition slice_from {A : Type} (l : list A) (n : Z) : list A :=
  if 0 <=? n then skipn (Z.to_nat n) l
  else skipn (Z.to_nat (Z.of_nat (List.length l) + n)) l.

(** [l.sort(key=k, reverse=True)]: a stable sort that only asks [<] of the
    keys.  On keys that contain no NaN, [<] is a strict weak order and the
    result of a stable sort is unique, so this insertion sort returns the
    list that Python's sort returns. *)
Section Sort.
Context {A : Type} (k : A -> pyfloat).

Fixpoint insert_desc (x : A) (l : list A) : list A :=
  match l with
  | [] => [x]
  | y :: rest =>
      if flt (k x) (k y) then y :: insert_desc x rest else x :: l
  end.

Definition sort_desc (l : list A) : list A :=
  fold_right insert_desc [] l.

(** Sorted by key, largest first. *)
Definition sorted_desc (l : list A) : Prop :=
  StronglySorted (fun a b => fle (k b) (k a) = true) l.
End Sort.

(** ** Facts about slices and the sort *)

Lemma slice_to_length {A : Type} (l : list A) (n : Z) :
  0 <= n -> (Z.of_nat (List.length (slice_to l n)) <= n).
Proof.
  intros Hn. unfold slice_to.
  destruct (Z.leb_spec 0 n); [|lia].
  rewrite length_firstn. lia.
Qed.

Lemma slice_to_incl {A : Type} (l : list A) (n : Z) (x : A) :
  In x (slice_to l n) -> In x l.
Proof.
  unfold slice_to. destruct (0 <=? n); intros H.
  - rewrite <- (firstn_skipn (Z.to_nat n) l); apply in_or_app; now left.
  - rewrite <- (firstn_skipn (Z.to_nat (Z.of_nat (List.length l) + n)) l).
    apply in_or_app; now left.
Qed.

Lemma slice_from_zero {A : Type} (l : list A) : slice_from l (- 0) = l.
Proof. reflexivity. Qed.

Lemma slice_from_neg_length {A : Type} (l : list A) (n : Z) :
  1 <= n -> (Z.of_nat (List.length (slice_from l (- n))) <= n).
Proof.
  intros Hn. unfold slice_from.
  destruct (Z.leb_spec 0 (- n)); [lia|].
  rewrite length_skipn. lia.
Qed.

Lemma StronglySorted_firstn {A : Type} (R : A -> A -> Prop) (l : list A) :
  StronglySorted R l -> forall n, StronglySorted R (firstn n l).
Proof.
  induction 1 as [|a l Hl IH Ha]; intros [|n]; simpl; try constructor.
  - apply IH.
  - rewrite Forall_forall in *. intros x Hx. apply Ha.
    rewrite <- (firstn_skipn n l). apply in_or_app. now left.
Qed.

Lemma sorted_desc_slice_to {A : Type} (k : A -> pyfloat) (l : list A) (n : Z) :
  sorted_desc k l -> sorted_desc k (slice_to l n).
Proof.
  intros H. unfold slice_to.
  destruct (0 <=? n); now apply StronglySorted_firstn.
Qed.

Lemma insert_desc_perm {A : Type} (k : A -> pyfloat) (x : A) (l : list A) :
  Permutation (x :: l) (insert_desc k x l).
Proof.
  induction l as [|y l IH]; simpl; [reflexivity|].
  destruct (flt (k x) (k y)); [|reflexivity].
  rewrite perm_swap. now constructor.
Qed.

Lemma sort_desc_perm {A : Type} (k : A -> pyfloat) (l : list A) :
  Permutation l (sort_desc k l).
Proof.
  induction l as [|x l IH]; simpl; [constructor|].
  rewrite <- insert_desc_perm. now constructor.
Qed.

Lemma insert_desc_sorted {A : Type} (k : A -> pyfloat) (x : A) (l : list A) :
  is_nan (k x) = false ->
  Forall (fun y => is_nan (k y) = false) l ->
  sorted_desc k l -> sorted_desc k (insert_desc k x l).
Proof.
  intros Hx Hl Hs. induction Hs as [|y l Hs IH Hy]; simpl.
  - repeat constructor.
  - inversion Hl as [|? ? Hny Hnl]; subst.
    destruct (flt (k x) (k y)) eqn:E.
    + constructor; [now apply IH|].
      apply (Permutation_Forall (insert_desc_perm k x l)).
      constructor; [now apply flt_fle | exact Hy].
    + assert (Hyx : fle (k y) (k x) = true) by now apply flt_false_fle.
      constructor; [now constructor|].
      constructor; [exact Hyx|].
      rewrite Forall_forall in *. intros z Hz.
      apply fle_trans with (y := k y); auto.
Qed.

Lemma sort_desc_sorted {A : Type} (k : A -> pyfloat) (l : list A) :
  Forall (fun y => is_nan (k y) = false) l -> sorted_desc k (sort_desc k l).
Proof.
  induction 1 as [|x l Hx Hl IH]; simpl; [constructor|].
  apply insert_desc_sorted; auto.
  apply (Permutation_Forall (sort_desc_perm k l)). exact Hl.
Qed.

Lemma sort_desc_Forall {A : Type} (k : A -> pyfloat) (P : A -> Prop) (l : list A) :
  Forall P l -> Forall P (sort_desc k l).
Proof. apply Permutation_Forall, sort_desc_perm. Qed.

(** ** The head of a sorted list dominates its tail *)

Lemma StronglySorted_app_dominates {A : Type} (R : A -> A -> Prop)
  (l1 l2 : list A) :
  StronglySorted R (l1 ++ l2) -> Forall (fun a => Forall (R a) l2) l1.
Proof.
  induction l1 as [|a l1 IH]; simpl; intros H; [constructor|].
  inversion H as [|? ? Hs Ha]; subst. constructor.
  - apply Forall_app in Ha. tauto.
  - now apply IH.
Qed.

(** [sort(key=k, reverse=True)] followed by [[:n]] keeps the [n] items of
    largest key: what is dropped is never above what is kept. *)
Lemma top_slice {A : Type} (k : A -> pyfloat) (l : list A) (n : Z) :
  0 <= n ->
  Forall (fun y => is_nan (k y) = false) l ->
  exists dropped,
    Permutation (slice_to (sort_desc k l) n ++ dropped) l
    /\ Z.of_nat (List.length (slice_to (sort_desc k l) n))
       = Z.min n (Z.of_nat (List.length l))
    /\ Forall (fun a => Forall (fun d => fle (k d) (k a) = true) dropped)
         (slice_to (sort_desc k l) n).
Proof.
  intros Hn Hl. unfold slice_to.
  destruct (Z.leb_spec 0 n) as [_|]; [|lia].
  exists (skipn (Z.to_nat n) (sort_desc k l)).
  pose proof (sort_desc_perm k l) as Hp.
  split; [|split].
  - rewrite firstn_skipn. now apply Permutation_sym.
  - rewrite length_firstn, <- (Permutation_length Hp). lia.
  - apply (StronglySorted_app_dominates
             (fun a b => fle (k b) (k a) = true)).
    rewrite firstn_skipn. now apply sort_desc_sorted.
Qed.

End Py.

(* ================================================================== *)
(** * gate.py *)
(* ================================================================== *)

Module Gate.
Import PyFloat.

(** [AudioFeatures] of features.py and [GatingThresholds] of config.py. *)
Record AudioFeatures : Type := {
  rms_total_db : pyfloat;
  rms_bird_band_db : pyfloat;
  rms_low_band_db : pyfloat;
  snr_bird_db : pyfloat
}.

Record GatingThresholds : Type := {
  min_overall_rms_db : pyfloat;
  min_bird_snr_db : pyfloat
}.

Inductive GateDecision : Type := SILENCE | TRASH | SEND_TO_BIRDNET.

Record GateResult : Type := {
  decision : GateDecision;
  reason : string
}.

Section Evaluate.
Local Open Scope string_scope.

(** [format(x, ".1f")], the one formatting the reasons use. *)
Variable fmt1 : pyfloat -> string.

Definition evaluate (thresholds : GatingThresholds) (features : AudioFeatures)
  : GateResult :=
  if flt (rms_total_db features) (min_overall_rms_db thresholds) then
    {| decision := SILENCE;
       reason := "RMS " ++ fmt1 (rms_total_db features) ++ " dB < threshold "
                 ++ fmt1 (min_overall_rms_db thresholds) ++ " dB" |}
  else if flt (snr_bird_db features) (min_bird_snr_db thresholds) then
    {| decision := TRASH;
       reason := "Bird SNR " ++ fmt1 (snr_bird_db features)
                 ++ " dB < threshold "
                 ++ fmt1 (min_bird_snr_db thresholds) ++ " dB" |}
  else
    {| decision := SEND_TO_BIRDNET;
       reason := "RMS " ++ fmt1 (rms_total_db features) ++ " dB, Bird SNR "
                 ++ fmt1 (snr_bird_db features) ++ " dB" |}.
End Evaluate.

(** C1. For every feature record [f] and thresholds [t], [evaluate] decides
    SILENCE when [f.rms_total_db < t.min_overall_rms_db]; otherwise TRASH
    when [f.snr_bird_db < t.min_bird_snr_db]; otherwise SEND_TO_BIRDNET. *)
Theorem evaluate_decision (fmt1 : pyfloat -> string)
  (t : GatingThresholds) (f : AudioFeatures) :
  decision (evaluate fmt1 t f) =
    if flt (rms_total_db f) (min_overall_rms_db t) then SILENCE
    else if flt (snr_bird_db f) (min_bird_snr_db t) then TRASH
    else SEND_TO_BIRDNET.
Proof.
  unfold evaluate.
  destruct (flt (rms_total_db f) (min_overall_rms_db t)); [reflexivity|].
  destruct (flt (snr_bird_db f) (min_bird_snr_db t)); reflexivity.
Qed.

(** ** Further properties of the gate *)

Definition quiet_thresholds : GatingThresholds :=
  {| min_overall_rms_db := f_m60; min_bird_snr_db := f_3 |}.

Definition strict_thresholds : GatingThresholds :=
  {| min_overall_rms_db := f_m10; min_bird_snr_db := f_20 |}.

Definition loud_bird : AudioFeatures :=
  {| rms_total_db := f_m10; rms_bird_band_db := f_m10;
     rms_low_band_db := f_m60; snr_bird_db := f_20 |}.

Lemma not_below_lower (x lo lo' : pyfloat) :
  fle lo' lo = true -> flt x lo = false -> flt x lo' = false.
Proof.
  intros Hle Hx. destruct (flt x lo') eqn:E; [|reflexivity].
  destruct (flt_not_nan _ _ E) as [Hxn _].
  destruct (fle_not_nan _ _ Hle) as [_ Hlon].
  pose proof (flt_false_fle x lo Hxn Hlon Hx) as H1.
  pose proof (fle_trans _ _ _ Hle H1) as H2.
  rewrite (flt_fle_excl _ _ E) in H2. discriminate.
Qed.

(** X1. Lowering either threshold never turns an accepted window into a
    rejected one: features sent to BirdNET under thresholds [t] are sent
    under every [t'] whose two thresholds are at most those of [t]. *)
Theorem evaluate_threshold_monotone (fmt1 : pyfloat -> string)
  (t t' : GatingThresholds) (f : AudioFeatures) :
  fle (min_overall_rms_db t') (min_overall_rms_db t) = true ->
  fle (min_bird_snr_db t') (min_bird_snr_db t) = true ->
  decision (evaluate fmt1 t f) = SEND_TO_BIRDNET ->
  decision (evaluate fmt1 t' f) = SEND_TO_BIRDNET.
Proof.
  intros Hrms Hsnr. unfold evaluate.
  destruct (flt (rms_total_db f) (min_overall_rms_db t)) eqn:E1;
    [discriminate|].
  destruct (flt (snr_bird_db f) (min_bird_snr_db t)) eqn:E2;
    [discriminate|].
  intros _.
  rewrite (not_below_lower _ _ _ Hrms E1), (not_below_lower _ _ _ Hsnr E2).
  reflexivity.
Qed.

Lemma evaluate_threshold_monotone_witness :
  decision (evaluate (fun _ => EmptyString) quiet_thresholds loud_bird)
  = SEND_TO_BIRDNET.
Proof.
  apply (evaluate_threshold_monotone (fun _ => EmptyString)
           strict_thresholds quiet_thresholds loud_bird); reflexivity.
Defined.

End Gate.

(* ================================================================== *)
(** * birdnet_client.py *)
(* ================================================================== *)

Module BirdNET.
Import PyFloat Py.
Local Open Scope string_scope.
Local Open Scope py_scope.

(** [Detection]: [species] is whatever object the response carried (the
    code does not coerce it), the three numbers went through [float()]. *)
Record Detection : Type := {
  species : value;
  confidence : pyfloat;
  start_time : pyfloat;
  end_time : pyfloat
}.

(** The fields of [BirdNETConfig] that the parsing code reads.  The other
    fields (URL, timeout, coordinates, CLI paths) only reach the external
    calls, whose results are inputs of the model. *)
Record BirdNETConfig : Type := {
  min_confidence : pyfloat;
  top_n : Z
}.

(** [for x in v]: lists give their items, dicts their keys, strings their
    characters; the other JSON objects are not iterable. *)
Fixpoint chars (s : string) : list value :=
  match s with
  | EmptyString => []
  | String c rest => VStr (String c EmptyString) :: chars rest
  end.

Definition iterate (v : value) : outcome (list value) :=
  match v with
  | VList l => Return l
  | VDict kvs => Return (map (fun kv => VStr (fst kv)) kvs)
  | VStr s => Return (chars s)
  | _ => Raise TypeError
  end.

(** A [for] loop whose body appends to [detections] or raises. *)
Fixpoint for_each {A B : Type} (body : A -> outcome (list B)) (l : list A)
  : outcome (list B) :=
  match l with
  | [] => Return []
  | x :: rest =>
      bs <- body x ;;
      more <- for_each body rest ;;
      Return (bs ++ more)%list
  end.

Definition raises (o : option exn) : outcome unit :=
  match o with
  | None => Return tt
  | Some e => Raise e
  end.

Section Parsing.
(** [float(s)] for a string: [None] when Python raises [ValueError]. *)
Variable str_to_float : string -> option pyfloat.

Variable config : BirdNETConfig.

(** [float(v)] *)
Definition to_float (v : value) : outcome pyfloat :=
  match v with
  | VFloat f => Return f
  | VInt n =>
      match of_int n with Some f => Return f | None => Raise OverflowError end
  | VBool b => Return (if b then f_one else f_zero)
  | VStr s =>
      match str_to_float s with Some f => Return f | None => Raise ValueError end
  | VNone | VList _ | VDict _ => Raise TypeError
  end.

(** [item.get("scientific_name") or item.get("common_name")
     or item.get("species", "Unknown")] (lines 99, 112 and 145). *)
Definition http_species (item : list (string * value)) : value :=
  or_else (dict_get item "scientific_name")
    (or_else (dict_get item "common_name")
       (dict_get_default item "species" (VStr "Unknown"))).

(** [detection.get("scientific_name", detection.get("common_name", "Unknown"))]
    (lines 228 and 237). *)
Definition cli_species (item : list (string * value)) : value :=
  dict_get_default item "scientific_name"
    (dict_get_default item "common_name" (VStr "Unknown")).

(** Body of the loop over a list-shaped HTTP response (lines 97-106). *)
Definition http_list_item (item : value) : outcome (list Detection) :=
  match item with
  | VDict kvs =>
      let sp := http_species kvs in
      c <- to_float (dict_get_default kvs "confidence" (VInt 0)) ;;
      st <- to_float (dict_get_default kvs "start_time" (VInt 0)) ;;
      en <- to_float (dict_get_default kvs "end_time" (VInt 0)) ;;
      Return [ {| species := sp; confidence := c;
                  start_time := st; end_time := en |} ]
  | _ => Return []
  end.

(** Body of the loop of [_parse_detections] (lines 143-153). *)
Definition parse_detections_item (item : value) : outcome (list Detection) :=
  match item with
  | VDict kvs =>
      let sp := http_species kvs in
      c <- to_float (dict_get_default kvs "confidence" (VInt 0)) ;;
      if fge c (min_confidence config) then
        st <- to_float (dict_get_default kvs "start_time" (VInt 0)) ;;
        en <- to_float (dict_get_default kvs "end_time" (VInt 0)) ;;
        Return [ {| species := sp; confidence := c;
                    start_time := st; end_time := en |} ]
      else Return []
  | _ => Return []
  end.

Definition _parse_detections (data : value) : outcome (list Detection) :=
  items <- iterate data ;;
  detections <- for_each parse_detections_item items ;;
  Return (slice_to (sort_desc confidence detections) (top_n config)).

(** Lines 92-122 of [BirdNETHttpClient.analyze]: the parsed body to the
    returned list. *)
Definition parse_http (data : value) : outcome (list Detection) :=
  match data with
  | VDict kvs =>
      if contains kvs "detections" then
        _parse_detections (dict_get kvs "detections")
      else
        detections <-
          (if contains kvs "species" || contains kvs "scientific_name" then
             let sp := http_species kvs in
             c <- to_float (dict_get_default kvs "confidence" (VInt 0)) ;;
             Return [ {| species := sp; confidence := c;
                         start_time := f_zero; end_time := f_zero |} ]
           else Return []) ;;
        let detections :=
          filter (fun d => fge (confidence d) (min_confidence config))
            detections in
        Return (slice_to (sort_desc confidence detections) (top_n config))
  | _ =>
      detections <-
        match data with
        | VList items => for_each http_list_item items
        | _ => Return []
        end ;;
      let detections :=
        filter (fun d => fge (confidence d) (min_confidence config))
          detections in
      Return (slice_to (sort_desc confidence detections) (top_n config))
  end.

(** Body of the two CLI loops (lines 228-234 and 237-243); [.get] on an
    object that is not a dict raises [AttributeError]. *)
Definition cli_item (detection : value) : outcome (list Detection) :=
  match detection with
  | VDict kvs =>
      let sp := cli_species kvs in
      c <- to_float (dict_get_default kvs "confidence" (VInt 0)) ;;
      if fge c (min_confidence config) then
        Return [ {| species := sp; confidence := c;
                    start_time := f_zero; end_time := f_zero |} ]
      else Return []
  | _ => Raise AttributeError
  end.

Definition cli_result_item (result_item : value) : outcome (list Detection) :=
  match result_item with
  | VDict kvs =>
      ds <- iterate (dict_get_default kvs "detections" (VList [])) ;;
      for_each cli_item ds
  | _ => Raise AttributeError
  end.

(** Lines 221-247 of [BirdNETCliClient.analyze]. *)
Definition parse_cli (data : value) : outcome (list Detection) :=
  detections <-
    match data with
    | VDict kvs =>
        if contains kvs "results" then
          results <- iterate (dict_get kvs "results") ;;
          for_each cli_result_item results
        else Return []
    | VList items => for_each cli_item items
    | _ => Return []
    end ;;
  Return (slice_to (sort_desc confidence detections) (top_n config)).

(** ** The two [analyze] methods

    What the outside world answers is an input of the model: the record
    below holds, for one call, the result of every external step in the
    order the code performs them ([None]: the step succeeded). *)

Record response : Type := {
  (** [response.raise_for_status()]: [HTTPError] on an error status *)
  raise_for_status : option exn;
  (** [response.json()] *)
  json : outcome value
}.

Record http_env : Type := {
  (** [tempfile.NamedTemporaryFile(...)], before the [try] *)
  http_tmp : option exn;
  (** [sf.write(path, samples, sample_rate)] *)
  http_sf_write : list pyfloat -> Z -> option exn;
  (** [open(temp_path, "rb")] *)
  http_open : option exn;
  (** [session.post(...)]: a response, or [RequestException] *)
  post : outcome response
}.

(** [BirdNETHttpClient.analyze].  [except Exception] catches every
    exception of [exn]; the three handlers of the method all return the
    empty list, and the [finally] block swallows what [unlink] raises. *)
Definition analyze_http (env : http_env) (samples : list pyfloat)
  (sample_rate : Z) : outcome (list Detection) :=
  _ <- raises (http_tmp env) ;;
  try_except
    (_ <- raises (http_sf_write env samples sample_rate) ;;
     _ <- raises (http_open env) ;;
     resp <- post env ;;
     _ <- raises (raise_for_status resp) ;;
     data <- json resp ;;
     parse_http data)
    (fun _ => Return []).

Record cli_env : Type := {
  (** the two [NamedTemporaryFile] calls before the [try] *)
  cli_tmp_audio : option exn;
  cli_tmp_output : option exn;
  cli_sf_write : list pyfloat -> Z -> option exn;
  (** [subprocess.run(...)]: the return code, or [TimeoutExpired]/[OSError] *)
  run : outcome Z;
  (** the files the glob finds, each with what [open] and [json.load] give *)
  output_files : list (outcome value)
}.

(** [BirdNETCliClient.analyze], with the same three handlers. *)
Definition analyze_cli (env : cli_env) (samples : list pyfloat)
  (sample_rate : Z) : outcome (list Detection) :=
  _ <- raises (cli_tmp_audio env) ;;
  _ <- raises (cli_tmp_output env) ;;
  try_except
    (_ <- raises (cli_sf_write env samples sample_rate) ;;
     returncode <- run env ;;
     if negb (returncode =? 0)%Z then Return []
     else
       match output_files env with
       | [] => Return []
       | first :: _ =>
           data <- first ;;
           parse_cli data
       end)
    (fun _ => Return []).

End Parsing.

(** ** What the claims say, as predicates *)

(** The post-condition of [analyze]: sorted by confidence, largest first, at
    most [top_n] items, each of confidence at least [min_confidence]. *)
Definition analyze_post (cfg : BirdNETConfig) (l : list Detection) : Prop :=
  sorted_desc confidence l
  /\ Z.of_nat (List.length l) <= top_n cfg
  /\ Forall (fun d => fge (confidence d) (min_confidence cfg) = true) l.

(** A back-end failure of one HTTP call. *)
Inductive http_failure (s2f : string -> option pyfloat) (cfg : BirdNETConfig)
  (env : http_env) (samples : list pyfloat) (sample_rate : Z) : Prop :=
  | http_wav_not_written e :
      http_sf_write env samples sample_rate = Some e ->
      http_failure s2f cfg env samples sample_rate
  | http_wav_not_opened e :
      http_open env = Some e -> http_failure s2f cfg env samples sample_rate
  | http_request_failed e :
      (* network error or timeout *)
      post env = Raise e -> http_failure s2f cfg env samples sample_rate
  | http_error_status r e :
      post env = Return r -> raise_for_status r = Some e ->
      http_failure s2f cfg env samples sample_rate
  | http_body_not_json r e :
      post env = Return r -> json r = Raise e ->
      http_failure s2f cfg env samples sample_rate
  | http_body_not_parsed r data e :
      post env = Return r -> json r = Return data ->
      parse_http s2f cfg data = Raise e ->
      http_failure s2f cfg env samples sample_rate.

(** A back-end failure of one CLI call. *)
Inductive cli_failure (s2f : string -> option pyfloat) (cfg : BirdNETConfig)
  (env : cli_env) (samples : list pyfloat) (sample_rate : Z) : Prop :=
  | cli_wav_not_written e :
      cli_sf_write env samples sample_rate = Some e ->
      cli_failure s2f cfg env samples sample_rate
  | cli_run_failed e :
      (* timeout, or the command could not be started *)
      run env = Raise e -> cli_failure s2f cfg env samples sample_rate
  | cli_nonzero_exit rc :
      run env = Return rc -> rc <> 0 ->
      cli_failure s2f cfg env samples sample_rate
  | cli_no_output_file :
      output_files env = [] -> cli_failure s2f cfg env samples sample_rate
  | cli_output_not_json e rest :
      output_files env = Raise e :: rest ->
      cli_failure s2f cfg env samples sample_rate
  | cli_output_not_parsed data e rest :
      output_files env = Return data :: rest ->
      parse_cli s2f cfg data = Raise e ->
      cli_failure s2f cfg env samples sample_rate.

(** The species rule in the words of the specification: the first PRESENT
    of the three fields, [ "Unknown" ] when none is. *)
Definition spec_species (item : list (string * value)) : value :=
  match lookup item "scientific_name" with
  | Some v => v
  | None =>
      match lookup item "common_name" with
      | Some v => v
      | None =>
          match lookup item "species" with
          | Some v => v
          | None => VStr "Unknown"
          end
      end
  end.

(** The species rule of the HTTP back end: the first TRUE value of
    [scientific_name] and [common_name], else the [species] field, else
    [ "Unknown" ]. *)
Definition http_species_rule (item : list (string * value)) (sp : value) : Prop :=
  let sci := dict_get item "scientific_name" in
  let com := dict_get item "common_name" in
  (truthy sci = true -> sp = sci)
  /\ (truthy sci = false -> truthy com = true -> sp = com)
  /\ (truthy sci = false -> truthy com = false ->
      forall v, lookup item "species" = Some v -> sp = v)
  /\ (truthy sci = false -> truthy com = false ->
      lookup item "species" = None -> sp = VStr "Unknown").

(** The species rule of the CLI back end, on the objects that carry
    [scientific_name] or [common_name], or none of the three fields. *)
Definition cli_species_rule (item : list (string * value)) (sp : value) : Prop :=
  (forall v, lookup item "scientific_name" = Some v -> sp = v)
  /\ (lookup item "scientific_name" = None ->
      forall v, lookup item "common_name" = Some v -> sp = v)
  /\ (lookup item "scientific_name" = None ->
      lookup item "common_name" = None ->
      lookup item "species" = None -> sp = VStr "Unknown").

Definition zero_when_absent (item : list (string * value)) (field : string)
  (x : pyfloat) : Prop :=
  lookup item field = None -> x = f_zero.

Definition numbers_default_to_zero (item : list (string * value))
  (d : Detection) : Prop :=
  zero_when_absent item "confidence" (confidence d)
  /\ zero_when_absent item "start_time" (start_time d)
  /\ zero_when_absent item "end_time" (end_time d).

(** Concrete inputs for the examples below. *)
Definition no_str_float : string -> option pyfloat := fun _ => None.

Definition default_config : BirdNETConfig :=
  {| min_confidence := f_0_1; top_n := 5 |}.

Definition robin_by_common_name : list (string * value) :=
  [("scientific_name", VStr ""); ("common_name", VStr "Robin");
   ("confidence", VFloat f_0_9)].

Definition robin_by_species : list (string * value) :=
  [("species", VStr "Robin"); ("confidence", VFloat f_0_9)].

Definition three_detections : value :=
  VList [VDict [("species", VStr "a"); ("confidence", VFloat f_0_3)];
         VDict [("species", VStr "b"); ("confidence", VFloat f_0_05)];
         VDict [("species", VStr "c"); ("confidence", VFloat f_0_9)]].

Definition env_http_ok (body : value) : http_env :=
  {| http_tmp := None; http_sf_write := fun _ _ => None; http_open := None;
     post := Return {| raise_for_status := None; json := Return body |} |}.

Definition env_http_no_tmp : http_env :=
  {| http_tmp := Some OSError; http_sf_write := fun _ _ => None;
     http_open := None;
     post := Return {| raise_for_status := None; json := Return (VList []) |} |}.

Definition env_http_500 : http_env :=
  {| http_tmp := None; http_sf_write := fun _ _ => None; http_open := None;
     post := Return {| raise_for_status := Some HTTPError;
                       json := Return three_detections |} |}.

Definition env_cli_ok (body : value) : cli_env :=
  {| cli_tmp_audio := None; cli_tmp_output := None;
     cli_sf_write := fun _ _ => None; run := Return 0;
     output_files := [Return body] |}.

Definition env_cli_exit_1 : cli_env :=
  {| cli_tmp_audio := None; cli_tmp_output := None;
     cli_sf_write := fun _ _ => None; run := Return 1;
     output_files := [Return three_detections] |}.

Definition env_cli_no_tmp : cli_env :=
  {| cli_tmp_audio := None; cli_tmp_output := Some OSError;
     cli_sf_write := fun _ _ => None; run := Return 0;
     output_files := [Return three_detections] |}.

(** ** Proofs *)

Ltac bind_cases H :=
  repeat match type of H with
  | bind ?m _ = _ =>
      let E := fresh "E" in
      destruct m eqn:E; simpl in H; try discriminate H
  | match ?m with Return _ => _ | Raise _ => _ end = _ =>
      let E := fresh "E" in
      destruct m eqn:E; simpl in H; try discriminate H
  end.

Ltac if_cases H :=
  match type of H with
  | (if ?c then _ else _) = _ =>
      let E := fresh "E" in destruct c eqn:E
  end.

Lemma for_each_Forall {A B : Type} (P : B -> Prop)
  (body : A -> outcome (list B)) (l : list A) :
  (forall x bs, body x = Return bs -> Forall P bs) ->
  forall r, for_each body l = Return r -> Forall P r.
Proof.
  intros Hbody. induction l as [|x l IH]; simpl; intros r H.
  - injection H as <-. constructor.
  - destruct (body x) as [bs|] eqn:Ex; simpl in H; [|discriminate].
    destruct (for_each body l) as [more|] eqn:El; simpl in H; [|discriminate].
    injection H as <-. apply Forall_app. split; eauto.
Qed.

Lemma filter_Forall {A : Type} (f : A -> bool) (l : list A) :
  Forall (fun x => f x = true) (filter f l).
Proof.
  apply Forall_forall. intros x Hx. now apply filter_In in Hx.
Qed.

Lemma passing_not_nan (cfg : BirdNETConfig) (l : list Detection) :
  Forall (fun d => fge (confidence d) (min_confidence cfg) = true) l ->
  Forall (fun d => is_nan (confidence d) = false) l.
Proof.
  apply Forall_impl. intros d H. now apply fle_not_nan in H.
Qed.

Lemma finish_post (cfg : BirdNETConfig) (l : list Detection) :
  0 <= top_n cfg ->
  Forall (fun d => fge (confidence d) (min_confidence cfg) = true) l ->
  analyze_post cfg (slice_to (sort_desc confidence l) (top_n cfg)).
Proof.
  intros Hn Hl. repeat split.
  - apply sorted_desc_slice_to, sort_desc_sorted. now apply passing_not_nan with cfg.
  - now apply slice_to_length.
  - apply Forall_forall. intros d Hd. apply slice_to_incl in Hd.
    revert d Hd. apply Forall_forall. now apply sort_desc_Forall.
Qed.

Lemma empty_post (cfg : BirdNETConfig) : 0 <= top_n cfg -> analyze_post cfg [].
Proof. intros H. repeat split; simpl; auto; constructor. Qed.

Lemma parse_detections_item_passing s2f cfg item bs :
  parse_detections_item s2f cfg item = Return bs ->
  Forall (fun d => fge (confidence d) (min_confidence cfg) = true) bs.
Proof.
  destruct item; simpl; intros H; try (injection H as <-; constructor).
  bind_cases H. if_cases H.
  - bind_cases H. injection H as <-. repeat constructor. assumption.
  - injection H as <-. constructor.
Qed.

Lemma cli_item_passing s2f cfg item bs :
  cli_item s2f cfg item = Return bs ->
  Forall (fun d => fge (confidence d) (min_confidence cfg) = true) bs.
Proof.
  destruct item; simpl; intros H; try discriminate.
  bind_cases H.
  if_cases H; injection H as <-; repeat constructor. assumption.
Qed.

Lemma cli_result_item_passing s2f cfg item bs :
  cli_result_item s2f cfg item = Return bs ->
  Forall (fun d => fge (confidence d) (min_confidence cfg) = true) bs.
Proof.
  destruct item; simpl; intros H; try discriminate.
  bind_cases H. revert H. apply for_each_Forall. apply cli_item_passing.
Qed.

Lemma parse_http_post s2f cfg data l :
  0 <= top_n cfg -> parse_http s2f cfg data = Return l -> analyze_post cfg l.
Proof.
  intros Hn H.
  assert (Hfin : forall ds,
    analyze_post cfg
      (slice_to (sort_desc confidence
         (filter (fun d => fge (confidence d) (min_confidence cfg)) ds))
         (top_n cfg))).
  { intros ds. apply finish_post; [exact Hn | apply filter_Forall]. }
  destruct data; simpl in H;
    try (injection H as <-; apply (Hfin []));
    try (bind_cases H; injection H as <-; apply Hfin).
  destruct (contains kvs "detections").
  - unfold _parse_detections in H. bind_cases H. injection H as <-.
    apply finish_post; [exact Hn|].
    eapply for_each_Forall; [|eassumption].
    apply parse_detections_item_passing.
  - bind_cases H. injection H as <-. apply Hfin.
Qed.

Lemma parse_cli_post s2f cfg data l :
  0 <= top_n cfg -> parse_cli s2f cfg data = Return l -> analyze_post cfg l.
Proof.
  intros Hn H. unfold parse_cli in H.
  match type of H with
  | bind ?m _ = _ => destruct m as [ds|] eqn:Eds; simpl in H; [|discriminate]
  end.
  injection H as <-. apply finish_post; [exact Hn|].
  destruct data; try (injection Eds as <-; constructor).
  - revert Eds. apply for_each_Forall. apply cli_item_passing.
  - destruct (contains kvs "results");
      [|injection Eds as <-; constructor].
    bind_cases Eds. revert Eds. apply for_each_Forall.
    apply cli_result_item_passing.
Qed.

(** C3. On both back ends, whatever the outside world answers, a list
    returned by [analyze] is sorted by confidence in descending order, has at
    most [top_n] items and only items of confidence at least
    [min_confidence] ([top_n] is a count: it is not negative). *)
Theorem analyze_postcondition (s2f : string -> option pyfloat)
  (cfg : BirdNETConfig) (samples : list pyfloat) (sample_rate : Z) :
  0 <= top_n cfg ->
  (forall env l,
     analyze_http s2f cfg env samples sample_rate = Return l ->
     analyze_post cfg l)
  /\ (forall env l,
     analyze_cli s2f cfg env samples sample_rate = Return l ->
     analyze_post cfg l).
Proof.
  intros Hn. split; intros env l H.
  - unfold analyze_http in H.
    destruct (http_tmp env); simpl in H; [discriminate|].
    unfold try_except in H.
    match type of H with
    | match ?b with Return _ => _ | Raise _ => _ end = _ =>
        destruct b as [r|] eqn:Eb
    end; injection H as <-; [|now apply empty_post].
    bind_cases Eb. now apply parse_http_post in Eb.
  - unfold analyze_cli in H.
    destruct (cli_tmp_audio env); simpl in H; [discriminate|].
    destruct (cli_tmp_output env); simpl in H; [discriminate|].
    unfold try_except in H.
    match type of H with
    | match ?b with Return _ => _ | Raise _ => _ end = _ =>
        destruct b as [r|] eqn:Eb
    end; injection H as <-; [|now apply empty_post].
    bind_cases Eb.
    if_cases Eb; [injection Eb as <-; now apply empty_post|].
    destruct (output_files env) as [|first rest];
      [injection Eb as <-; now apply empty_post|].
    bind_cases Eb. now apply parse_cli_post in Eb.
Qed.

Lemma analyze_postcondition_witness :
  analyze_http no_str_float default_config (env_http_ok three_detections)
    [] 48000
  = Return [ {| species := VStr "c"; confidence := f_0_9;
                start_time := f_zero; end_time := f_zero |};
             {| species := VStr "a"; confidence := f_0_3;
                start_time := f_zero; end_time := f_zero |} ]
  /\ analyze_post default_config
       [ {| species := VStr "c"; confidence := f_0_9;
            start_time := f_zero; end_time := f_zero |};
         {| species := VStr "a"; confidence := f_0_3;
            start_time := f_zero; end_time := f_zero |} ].
Proof.
  split; [reflexivity|].
  refine (proj1 (analyze_postcondition no_str_float default_config [] 48000 _)
            (env_http_ok three_detections) _ _).
  - simpl. lia.
  - reflexivity.
Defined.

(** C4, as the code has it.  Once the temporary files of a call exist,
    [analyze] returns a list on both back ends, whatever the outside world
    answers, and the list is empty on every back-end failure: the WAV file
    cannot be written or opened, the request fails (network, timeout),
    [raise_for_status] reports an error status, the body or the output file
    is not JSON or cannot be parsed, the subprocess cannot run, times out or
    exits with a nonzero code, or no output file is found. *)
Theorem analyze_contains_failures (s2f : string -> option pyfloat)
  (cfg : BirdNETConfig) (samples : list pyfloat) (sample_rate : Z) :
  (forall env, http_tmp env = None ->
     exists l,
       analyze_http s2f cfg env samples sample_rate = Return l
       /\ (http_failure s2f cfg env samples sample_rate -> l = []))
  /\ (forall env, cli_tmp_audio env = None -> cli_tmp_output env = None ->
     exists l,
       analyze_cli s2f cfg env samples sample_rate = Return l
       /\ (cli_failure s2f cfg env samples sample_rate -> l = [])).
Proof.
  split.
  - intros env Htmp. unfold analyze_http. rewrite Htmp. simpl.
    destruct (http_sf_write env samples sample_rate) as [e|] eqn:Ew; simpl.
    { exists []. split; [reflexivity|auto]. }
    destruct (http_open env) as [e|] eqn:Eo; simpl.
    { exists []. split; [reflexivity|auto]. }
    destruct (post env) as [r|e] eqn:Ep; simpl.
    2:{ exists []. split; [reflexivity|auto]. }
    destruct (raise_for_status r) as [e|] eqn:Es; simpl.
    { exists []. split; [reflexivity|auto]. }
    destruct (json r) as [data|e] eqn:Ej; simpl.
    2:{ exists []. split; [reflexivity|auto]. }
    destruct (parse_http s2f cfg data) as [l|e] eqn:Epar; simpl.
    2:{ exists []. split; [reflexivity|auto]. }
    exists l. split; [reflexivity|].
    intros [e H|e H|e H|r' e H1 H2|r' e H1 H2|r' d e H1 H2 H3];
      congruence.
  - intros env Ha Ho. unfold analyze_cli. rewrite Ha, Ho. simpl.
    destruct (cli_sf_write env samples sample_rate) as [e|] eqn:Ew; simpl.
    { exists []. split; [reflexivity|auto]. }
    destruct (run env) as [rc|e] eqn:Er; simpl.
    2:{ exists []. split; [reflexivity|auto]. }
    destruct (Z.eqb_spec rc 0) as [Hrc|Hrc]; simpl.
    2:{ exists []. split; [reflexivity|auto]. }
    destruct (output_files env) as [|first rest] eqn:Ef; simpl.
    { exists []. split; [reflexivity|auto]. }
    destruct first as [data|e]; simpl.
    2:{ exists []. split; [reflexivity|auto]. }
    destruct (parse_cli s2f cfg data) as [l|e] eqn:Epar; simpl.
    2:{ exists []. split; [reflexivity|auto]. }
    exists l. split; [reflexivity|].
    intros [e H|e H|rc' H1 H2|H|e rest' H|d e rest' H1 H2]; congruence.
Qed.

Lemma analyze_contains_failures_witness :
  analyze_http no_str_float default_config env_http_500 [] 48000 = Return []
  /\ analyze_cli no_str_float default_config env_cli_exit_1 [] 48000
     = Return [].
Proof.
  destruct (analyze_contains_failures no_str_float default_config [] 48000)
    as [Hhttp Hcli].
  split.
  - destruct (Hhttp env_http_500 eq_refl) as [l [Hl Hempty]].
    rewrite Hl. f_equal. apply Hempty.
    apply http_error_status
      with (r := {| raise_for_status := Some HTTPError;
                    json := Return three_detections |}) (e := HTTPError);
      reflexivity.
  - destruct (Hcli env_cli_exit_1 eq_refl eq_refl) as [l [Hl Hempty]].
    rewrite Hl. f_equal. apply Hempty.
    apply cli_nonzero_exit with (rc := 1); [reflexivity | lia].
Defined.

(** C4 as stated fails: the temporary files are created before the [try]
    block, so an error there reaches the caller. *)
Lemma analyze_raises_without_tmp :
  analyze_http no_str_float default_config env_http_no_tmp [] 48000
  = Raise OSError
  /\ analyze_cli no_str_float default_config env_cli_no_tmp [] 48000
     = Raise OSError.
Proof. split; reflexivity. Qed.

Lemma http_species_rule_holds (item : list (string * value)) :
  http_species_rule item (http_species item).
Proof.
  unfold http_species_rule, http_species, or_else, dict_get_default.
  repeat split.
  - intros ->. reflexivity.
  - intros -> ->. reflexivity.
  - intros -> -> v ->. reflexivity.
  - intros -> -> ->. reflexivity.
Qed.

Lemma cli_species_rule_holds (item : list (string * value)) :
  cli_species_rule item (cli_species item).
Proof.
  unfold cli_species_rule, cli_species, dict_get_default.
  repeat split.
  - intros v ->. reflexivity.
  - intros -> v ->. reflexivity.
  - intros -> -> _. reflexivity.
Qed.

Lemma default_is_zero s2f item field x :
  to_float s2f (dict_get_default item field (VInt 0)) = Return x ->
  zero_when_absent item field x.
Proof.
  unfold zero_when_absent, dict_get_default. intros H Hnone.
  rewrite Hnone in H. change (Return f_zero = Return x) in H. congruence.
Qed.

(** C7, as the code has it.  For every detection object [item] and the
    [Detection] [d] built from it:
    - on the HTTP back end (list-shaped body, [detections] list, or a single
      inline detection) the species is the first true value of
      [scientific_name] and [common_name], else the [species] field, else
      ["Unknown"];
    - on the CLI back end it is [scientific_name] when present, else
      [common_name] when present, and ["Unknown"] when none of the three
      fields is present;
    - [confidence], [start_time] and [end_time] are 0 when absent. *)
Theorem detection_field_resolution (s2f : string -> option pyfloat)
  (cfg : BirdNETConfig) (item : list (string * value)) (d : Detection) :
  (http_list_item s2f (VDict item) = Return [d] ->
     http_species_rule item (species d) /\ numbers_default_to_zero item d)
  /\ (parse_detections_item s2f cfg (VDict item) = Return [d] ->
     http_species_rule item (species d) /\ numbers_default_to_zero item d)
  /\ (contains item "detections" = false ->
      parse_http s2f cfg (VDict item) = Return [d] ->
     http_species_rule item (species d) /\ numbers_default_to_zero item d)
  /\ (cli_item s2f cfg (VDict item) = Return [d] ->
     cli_species_rule item (species d) /\ numbers_default_to_zero item d).
Proof.
  unfold numbers_default_to_zero.
  split; [|split; [|split]].
  - simpl. intros H. bind_cases H. injection H as <-. simpl.
    split; [apply http_species_rule_holds|].
    repeat split; eapply default_is_zero; eassumption.
  - simpl. intros H. bind_cases H. if_cases H; [|discriminate].
    bind_cases H. injection H as <-. simpl.
    split; [apply http_species_rule_holds|].
    repeat split; eapply default_is_zero; eassumption.
  - intros Hc H. simpl in H. rewrite Hc in H.
    match type of H with
    | bind ?m _ = _ => destruct m as [l|] eqn:E; simpl in H; [|discriminate]
    end.
    injection H as H.
    assert (Hin : In d l).
    { assert (Hd : In d [d]) by now left. rewrite <- H in Hd.
      apply slice_to_incl in Hd.
      apply (Permutation_in _ (Permutation_sym (sort_desc_perm _ _))) in Hd.
      now apply filter_In in Hd. }
    clear H. if_cases E; [|injection E as <-; destruct Hin].
    bind_cases E. injection E as <-.
    destruct Hin as [<-|[]]. simpl.
    split; [apply http_species_rule_holds|].
    repeat split; try (intros _; reflexivity).
    eapply default_is_zero; eassumption.
  - simpl. intros H. bind_cases H. if_cases H; [|discriminate].
    injection H as <-. simpl.
    split; [apply cli_species_rule_holds|].
    repeat split; try (intros _; reflexivity).
    eapply default_is_zero; eassumption.
Qed.

Lemma detection_field_resolution_witness :
  species {| species := VStr "Robin"; confidence := f_0_9;
             start_time := f_zero; end_time := f_zero |} = VStr "Robin"
  /\ http_species_rule robin_by_common_name (VStr "Robin").
Proof.
  split; [reflexivity|].
  apply (proj1 (detection_field_resolution no_str_float default_config
                  robin_by_common_name
                  {| species := VStr "Robin"; confidence := f_0_9;
                     start_time := f_zero; end_time := f_zero |})).
  reflexivity.
Defined.

(** C7 as stated fails on both back ends: the HTTP back end skips a
    [scientific_name] that is present but empty, and the CLI back end does
    not read the [species] field that the HTTP back end reads. *)
Lemma species_rule_differs :
  spec_species robin_by_common_name = VStr ""
  /\ parse_http no_str_float default_config (VList [VDict robin_by_common_name])
     = Return [ {| species := VStr "Robin"; confidence := f_0_9;
                   start_time := f_zero; end_time := f_zero |} ]
  /\ spec_species robin_by_species = VStr "Robin"
  /\ parse_http no_str_float default_config (VList [VDict robin_by_species])
     = Return [ {| species := VStr "Robin"; confidence := f_0_9;
                   start_time := f_zero; end_time := f_zero |} ]
  /\ parse_cli no_str_float default_config (VList [VDict robin_by_species])
     = Return [ {| species := VStr "Unknown"; confidence := f_0_9;
                   start_time := f_zero; end_time := f_zero |} ].
Proof. repeat split. Qed.


(** ** Further properties of the parsers *)

(** The detections of a response that pass the confidence threshold, before
    sorting and cutting: the loop of [_parse_detections]. *)
Definition passing_detections (s2f : string -> option pyfloat)
  (cfg : BirdNETConfig) (data : value) : outcome (list Detection) :=
  items <- iterate data ;;
  for_each (parse_detections_item s2f cfg) items.

Definition bad_confidence : value :=
  VDict [("species", VStr "d"); ("confidence", VStr "high")].

Definition env_cli_files (files : list (outcome value)) : cli_env :=
  {| cli_tmp_audio := None; cli_tmp_output := None;
     cli_sf_write := fun _ _ => None; run := Return 0;
     output_files := files |}.

Definition top_one : BirdNETConfig := {| min_confidence := f_0_1; top_n := 1 |}.

Definition best_one : list Detection :=
  [ {| species := VStr "c"; confidence := f_0_9;
       start_time := f_zero; end_time := f_zero |} ].

(** X2. [_parse_detections] keeps the best: with [top_n >= 0], the returned
    list together with some dropped detections is a rearrangement of the
    detections that passed the threshold, it has [min(top_n, number
    passing)] items, and no dropped detection has a confidence above that of
    a returned one. *)
Theorem top_n_keeps_the_best (s2f : string -> option pyfloat)
  (cfg : BirdNETConfig) (data : value) (l : list Detection) :
  0 <= top_n cfg ->
  _parse_detections s2f cfg data = Return l ->
  exists passing dropped,
    passing_detections s2f cfg data = Return passing
    /\ Permutation (l ++ dropped) passing
    /\ Z.of_nat (List.length l)
       = Z.min (top_n cfg) (Z.of_nat (List.length passing))
    /\ Forall (fun kept =>
                 Forall (fun d => fle (confidence d) (confidence kept) = true)
                   dropped) l.
Proof.
  intros Hn H. unfold _parse_detections, passing_detections in *.
  destruct (iterate data) as [items|]; cbn [bind] in *; [|discriminate].
  destruct (for_each (parse_detections_item s2f cfg) items) as [passing|]
    eqn:E; cbn [bind] in *; [|discriminate].
  injection H as <-.
  assert (Hnan : Forall (fun d => is_nan (confidence d) = false) passing).
  { apply passing_not_nan with cfg. revert E. apply for_each_Forall.
    apply parse_detections_item_passing. }
  destruct (top_slice confidence passing (top_n cfg) Hn Hnan)
    as [dropped [Hp [Hlen Hdom]]].
  exists passing, dropped. auto.
Qed.

Lemma top_n_keeps_the_best_witness :
  exists passing dropped,
    passing_detections no_str_float top_one three_detections = Return passing
    /\ Permutation (best_one ++ dropped) passing
    /\ Z.of_nat (List.length best_one)
       = Z.min (top_n top_one) (Z.of_nat (List.length passing))
    /\ Forall (fun kept =>
                 Forall (fun d => fle (confidence d) (confidence kept) = true)
                   dropped) best_one.
Proof.
  apply (top_n_keeps_the_best no_str_float top_one three_detections best_one).
  - simpl. lia.
  - reflexivity.
Defined.

Lemma filter_passing_for_each (s2f : string -> option pyfloat)
  (cfg : BirdNETConfig) (items : list value) :
  forall all,
    for_each (http_list_item s2f) items = Return all ->
    for_each (parse_detections_item s2f cfg) items
    = Return (filter (fun d => fge (confidence d) (min_confidence cfg)) all).
Proof.
  induction items as [|item items IH]; intros all H; cbn [for_each] in *.
  - injection H as <-. reflexivity.
  - destruct (http_list_item s2f item) as [bs|] eqn:Ei;
      cbn [bind] in H; [|discriminate].
    destruct (for_each (http_list_item s2f) items) as [more|];
      cbn [bind] in H; [|discriminate].
    injection H as <-. rewrite (IH more eq_refl), filter_app.
    assert (Hitem : parse_detections_item s2f cfg item
                    = Return (filter (fun d => fge (confidence d)
                                                 (min_confidence cfg)) bs)).
    { destruct item; try (injection Ei as <-; reflexivity).
      cbn [http_list_item parse_detections_item] in *.
      destruct (to_float s2f (dict_get_default kvs "confidence" (VInt 0)))
        as [c|]; cbn [bind] in *; [|discriminate].
      destruct (to_float s2f (dict_get_default kvs "start_time" (VInt 0)))
        as [st|]; cbn [bind] in *; [|discriminate].
      destruct (to_float s2f (dict_get_default kvs "end_time" (VInt 0)))
        as [en|]; cbn [bind] in *; [|discriminate].
      injection Ei as <-. cbn [filter confidence].
      destruct (fge c (min_confidence cfg)); reflexivity. }
    rewrite Hitem. reflexivity.
Qed.

(** X3. The two shapes of an HTTP response agree: whenever the bare list
    [[...]] is parsed to a result, the wrapped object [{"detections":
    [...]}] with the same items is parsed to the same result. *)
Theorem wrapped_list_same_as_bare (s2f : string -> option pyfloat)
  (cfg : BirdNETConfig) (kvs : list (string * value)) (items : list value)
  (l : list Detection) :
  lookup kvs "detections" = Some (VList items) ->
  parse_http s2f cfg (VList items) = Return l ->
  parse_http s2f cfg (VDict kvs) = Return l.
Proof.
  intros Hk H. cbn [parse_http] in *. unfold contains, dict_get.
  rewrite Hk. unfold _parse_detections. cbn [iterate bind].
  destruct (for_each (http_list_item s2f) items) as [all|] eqn:E;
    cbn [bind] in H; [|discriminate].
  rewrite (filter_passing_for_each s2f cfg items all E). exact H.
Qed.

Lemma wrapped_list_same_as_bare_witness :
  parse_http no_str_float default_config
    (VDict [("detections", three_detections)])
  = Return [ {| species := VStr "c"; confidence := f_0_9;
                start_time := f_zero; end_time := f_zero |};
             {| species := VStr "a"; confidence := f_0_3;
                start_time := f_zero; end_time := f_zero |} ].
Proof.
  apply (wrapped_list_same_as_bare no_str_float default_config
           [("detections", three_detections)]
           [VDict [("species", VStr "a"); ("confidence", VFloat f_0_3)];
            VDict [("species", VStr "b"); ("confidence", VFloat f_0_05)];
            VDict [("species", VStr "c"); ("confidence", VFloat f_0_9)]]).
  - reflexivity.
  - reflexivity.
Defined.

(** The converse fails: an item below the threshold whose [start_time] is
    not a number is dropped by the wrapped shape and makes the bare list
    raise. *)
Example bare_list_is_stricter :
  parse_http no_str_float default_config
    (VDict [("detections",
             VList [VDict [("confidence", VFloat f_0_05);
                           ("start_time", VStr "soon")]])])
  = Return []
  /\ parse_http no_str_float default_config
       (VList [VDict [("confidence", VFloat f_0_05);
                      ("start_time", VStr "soon")]])
     = Raise ValueError.
Proof. split; reflexivity. Qed.

Lemma for_each_raises {A B : Type} (body : A -> outcome (list B))
  (l : list A) (x : A) (e : exn) :
  In x l -> body x = Raise e -> exists e', for_each body l = Raise e'.
Proof.
  intros Hin Hx. induction l as [|y l IH]; [contradiction|].
  cbn [for_each]. destruct (body y) as [bs|e1] eqn:Ey; cbn [bind];
    [|now exists e1].
  destruct Hin as [->|Hin]; [congruence|].
  destruct (IH Hin) as [e' ->]. cbn [bind]. now exists e'.
Qed.

(** X4. An HTTP list response is all or nothing: one item whose numbers
    cannot be converted, anywhere in the list, makes [analyze] return the
    empty list, whatever the other items hold. *)
Theorem http_one_bad_item_voids_all (s2f : string -> option pyfloat)
  (cfg : BirdNETConfig) (env : http_env) (samples : list pyfloat)
  (sample_rate : Z) (r : response) (items : list value) (item : value)
  (e : exn) :
  http_tmp env = None ->
  post env = Return r ->
  json r = Return (VList items) ->
  In item items ->
  http_list_item s2f item = Raise e ->
  analyze_http s2f cfg env samples sample_rate = Return [].
Proof.
  intros Htmp Hpost Hjson Hin Hbad. unfold analyze_http.
  rewrite Htmp, Hpost. cbn [raises bind].
  destruct (raises (http_sf_write env samples sample_rate)) as [[]|];
    cbn [bind try_except]; [|reflexivity].
  destruct (raises (http_open env)) as [[]|];
    cbn [bind try_except]; [|reflexivity].
  destruct (raises (raise_for_status r)) as [[]|];
    cbn [bind try_except]; [|reflexivity].
  rewrite Hjson. cbn [bind parse_http].
  destruct (for_each_raises (http_list_item s2f) items item e Hin Hbad)
    as [e' ->].
  reflexivity.
Qed.

Lemma http_one_bad_item_voids_all_witness :
  analyze_http no_str_float default_config
    (env_http_ok
       (VList [VDict [("species", VStr "a"); ("confidence", VFloat f_0_9)];
               bad_confidence]))
    [] 48000
  = Return [].
Proof.
  apply (http_one_bad_item_voids_all no_str_float default_config
           (env_http_ok
              (VList [VDict [("species", VStr "a");
                             ("confidence", VFloat f_0_9)];
                      bad_confidence]))
           [] 48000
           {| raise_for_status := None;
              json := Return
                        (VList [VDict [("species", VStr "a");
                                       ("confidence", VFloat f_0_9)];
                                bad_confidence]) |}
           [VDict [("species", VStr "a"); ("confidence", VFloat f_0_9)];
            bad_confidence]
           bad_confidence ValueError).
  - reflexivity.
  - reflexivity.
  - reflexivity.
  - simpl. auto.
  - reflexivity.
Defined.

(** [.get] on an entry that is not an object raises. *)
Lemma cli_item_not_dict (s2f : string -> option pyfloat) (cfg : BirdNETConfig)
  (item : value) :
  (forall kvs, item <> VDict kvs) -> cli_item s2f cfg item = Raise AttributeError.
Proof.
  intros H. destruct item; try reflexivity. now destruct (H kvs).
Qed.

(** X5. The CLI list output is all or nothing too, and stricter: one entry
    on which the loop body raises, be it an entry that is not an object
    (which the HTTP parser skips) or one whose confidence cannot be
    converted, makes [analyze] return the empty list. *)
Theorem cli_one_bad_item_voids_all (s2f : string -> option pyfloat)
  (cfg : BirdNETConfig) (env : cli_env) (samples : list pyfloat)
  (sample_rate : Z) (items : list value) (rest : list (outcome value))
  (item : value) (e : exn) :
  cli_tmp_audio env = None ->
  cli_tmp_output env = None ->
  output_files env = Return (VList items) :: rest ->
  In item items ->
  cli_item s2f cfg item = Raise e ->
  analyze_cli s2f cfg env samples sample_rate = Return [].
Proof.
  intros Ha Ho Hfiles Hin He.
  unfold analyze_cli. rewrite Ha, Ho, Hfiles. cbn [raises bind].
  destruct (raises (cli_sf_write env samples sample_rate)) as [[]|];
    cbn [bind try_except]; [|reflexivity].
  destruct (run env) as [rc|]; cbn [bind try_except]; [|reflexivity].
  destruct (negb (rc =? 0)%Z); [reflexivity|].
  cbn [bind]. unfold parse_cli.
  destruct (for_each_raises (cli_item s2f cfg) items item e Hin He)
    as [e' ->].
  reflexivity.
Qed.

Lemma cli_one_bad_item_voids_all_witness :
  analyze_cli no_str_float default_config
    (env_cli_files
       [Return (VList [VDict [("scientific_name", VStr "a");
                              ("confidence", VFloat f_0_9)];
                       VStr "note"])])
    [] 48000
  = Return [].
Proof.
  apply (cli_one_bad_item_voids_all no_str_float default_config
           (env_cli_files
              [Return (VList [VDict [("scientific_name", VStr "a");
                                     ("confidence", VFloat f_0_9)];
                              VStr "note"])])
           [] 48000
           [VDict [("scientific_name", VStr "a");
                   ("confidence", VFloat f_0_9)];
            VStr "note"]
           [] (VStr "note") AttributeError).
  - reflexivity.
  - reflexivity.
  - reflexivity.
  - simpl. auto.
  - reflexivity.
Defined.

(** The post-condition holds for what the HTTP [analyze] returns. *)
Lemma analyze_http_post (s2f : string -> option pyfloat) (cfg : BirdNETConfig)
  (env : http_env) (samples : list pyfloat) (sample_rate : Z)
  (l : list Detection) :
  0 <= top_n cfg ->
  analyze_http s2f cfg env samples sample_rate = Return l ->
  analyze_post cfg l.
Proof.
  intros Hn. unfold analyze_http.
  destruct (raises (http_tmp env)) as [[]|]; cbn [bind]; [|discriminate].
  match goal with
  | |- try_except ?body _ = _ -> _ => destruct body as [l'|] eqn:E
  end; cbn [try_except]; intros H; injection H as <-;
    [|now apply empty_post].
  destruct (raises (http_sf_write env samples sample_rate)) as [[]|];
    cbn [bind] in E; [|discriminate].
  destruct (raises (http_open env)) as [[]|]; cbn [bind] in E; [|discriminate].
  destruct (post env) as [resp|]; cbn [bind] in E; [|discriminate].
  destruct (raises (raise_for_status resp)) as [[]|]; cbn [bind] in E;
    [|discriminate].
  destruct (json resp) as [data|]; cbn [bind] in E; [|discriminate].
  now apply parse_http_post with s2f data.
Qed.

End BirdNET.

(* ================================================================== *)
(** * numpy: how a run of floats is added up *)
(* ================================================================== *)

(** [np.add.reduce] over a contiguous run (which [np.sum], [np.mean] and
    [.mean(axis=1)] on a C-ordered array use) starts from zero and adds the
    result of numpy's pairwise summation: fewer than 8 items are added
    one after the other; up to 128 items are added into 8 accumulators,
    item [i] into accumulator [i mod 8], which are then added as
    [((r0+r1)+(r2+r3))+((r4+r5)+(r6+r7))] before the last [n mod 8] items
    follow one by one; a longer run is cut in two at [n/2] rounded down to
    a multiple of 8. *)

Module Numpy.

Lemma Forall_take {A : Type} (P : A -> Prop) (n : nat) (l : list A) :
  Forall P l -> Forall P (firstn n l).
Proof.
  intros H. apply Forall_forall. intros x Hx.
  rewrite Forall_forall in H. apply H.
  rewrite <- (firstn_skipn n l). apply in_or_app. now left.
Qed.

Lemma Forall_drop {A : Type} (P : A -> Prop) (n : nat) (l : list A) :
  Forall P l -> Forall P (skipn n l).
Proof.
  intros H. apply Forall_forall. intros x Hx.
  rewrite Forall_forall in H. apply H.
  rewrite <- (firstn_skipn n l). apply in_or_app. now right.
Qed.

Section PairwiseSum.
Context {F : Type}.
Variable add : F -> F -> F.
Variable zero : F.

(** [for x in a: res += x] *)
Definition sum_loop (res : F) (a : list F) : F := fold_left add a res.

(** The loop over whole blocks of 8: [r[j] += a[i + j]]. *)
Fixpoint unrolled (blocks : nat) (r : F * F * F * F * F * F * F * F)
  (a : list F) : (F * F * F * F * F * F * F * F) * list F :=
  match blocks, a with
  | S k, x0 :: x1 :: x2 :: x3 :: x4 :: x5 :: x6 :: x7 :: rest =>
      let '(r0, r1, r2, r3, r4, r5, r6, r7) := r in
      unrolled k
        (add r0 x0, add r1 x1, add r2 x2, add r3 x3,
         add r4 x4, add r5 x5, add r6 x6, add r7 x7) rest
  | _, _ => (r, a)
  end.

(** A run of 8 to 128 items. *)
Definition block_sum (a : list F) : F :=
  match a with
  | x0 :: x1 :: x2 :: x3 :: x4 :: x5 :: x6 :: x7 :: rest =>
      let '((r0, r1, r2, r3, r4, r5, r6, r7), tail) :=
        unrolled (List.length rest / 8)
          (x0, x1, x2, x3, x4, x5, x6, x7) rest in
      sum_loop (add (add (add r0 r1) (add r2 r3))
                  (add (add r4 r5) (add r6 r7))) tail
  | _ => sum_loop zero a
  end.

(** The recursion on halves; [fuel] bounds its depth, and the length of
    the run is always enough. *)
Fixpoint pairwise_sum_rec (fuel : nat) (a : list F) : F :=
  let n := List.length a in
  if (n <? 8)%nat then sum_loop zero a
  else if (n <=? 128)%nat then block_sum a
  else
    match fuel with
    | O => block_sum a
    | S k =>
        let n2 := (n / 2 - (n / 2) mod 8)%nat in
        add (pairwise_sum_rec k (firstn n2 a))
          (pairwise_sum_rec k (skipn n2 a))
    end.

Definition pairwise_sum (a : list F) : F :=
  pairwise_sum_rec (List.length a) a.

Lemma pairwise_sum_rec_fuel (fuel1 : nat) :
  forall fuel2 a,
    (List.length a <= fuel1)%nat -> (List.length a <= fuel2)%nat ->
    pairwise_sum_rec fuel1 a = pairwise_sum_rec fuel2 a.
Proof.
  induction fuel1 as [|fuel1 IH]; intros fuel2 a H1 H2.
  - destruct a; [|cbn [List.length] in H1; lia].
    destruct fuel2; reflexivity.
  - destruct fuel2 as [|fuel2].
    + destruct a; [reflexivity | cbn [List.length] in H2; lia].
    + cbn [pairwise_sum_rec].
      destruct (Nat.ltb_spec (List.length a) 8); [reflexivity|].
      destruct (Nat.leb_spec (List.length a) 128); [reflexivity|].
      set (n2 := (List.length a / 2 - (List.length a / 2) mod 8)%nat).
      assert (Hhalf : (List.length a / 2 < List.length a)%nat)
        by (apply Nat.div_lt; lia).
      assert (H64 : (64 <= List.length a / 2)%nat)
        by (apply Nat.div_le_lower_bound; lia).
      assert (Hmod : ((List.length a / 2) mod 8 < 8)%nat)
        by (apply Nat.mod_upper_bound; lia).
      rewrite (IH fuel2 (firstn n2 a)), (IH fuel2 (skipn n2 a));
        try reflexivity;
        rewrite ?length_firstn, ?length_skipn; unfold n2; lia.
Qed.

(** [np.add.reduce(a)] *)
Definition add_reduce (a : list F) : F := add zero (pairwise_sum a).

(** ** What every order of adding keeps

    [B k x]: [x] is within what [k] items can add up to. *)
Variable B : nat -> F -> Prop.
Variable limit : nat.
Hypothesis B_zero : B 0 zero.
Hypothesis B_add :
  forall i j x y, (i + j <= limit)%nat -> B i x -> B j y -> B (i + j) (add x y).

Lemma sum_loop_bound (a : list F) :
  Forall (B 1) a ->
  forall k res, (k + List.length a <= limit)%nat -> B k res ->
  B (k + List.length a) (sum_loop res a).
Proof.
  unfold sum_loop.
  induction 1 as [|x a Hx _ IH]; intros k res Hk Hres; cbn [fold_left List.length] in *.
  - now rewrite Nat.add_0_r.
  - replace (k + S (List.length a))%nat with ((k + 1) + List.length a)%nat by lia.
    apply IH; [lia|]. apply B_add; [lia | exact Hres | exact Hx].
Qed.

Lemma unrolled_bound (blocks : nat) :
  forall (a : list F) k r0 r1 r2 r3 r4 r5 r6 r7,
    Forall (B 1) a ->
    (8 * k + List.length a <= limit)%nat ->
    B k r0 -> B k r1 -> B k r2 -> B k r3 ->
    B k r4 -> B k r5 -> B k r6 -> B k r7 ->
    exists k' s0 s1 s2 s3 s4 s5 s6 s7 tail,
      unrolled blocks (r0, r1, r2, r3, r4, r5, r6, r7) a
      = ((s0, s1, s2, s3, s4, s5, s6, s7), tail)
      /\ (8 * k' + List.length tail = 8 * k + List.length a)%nat
      /\ Forall (B 1) tail
      /\ B k' s0 /\ B k' s1 /\ B k' s2 /\ B k' s3
      /\ B k' s4 /\ B k' s5 /\ B k' s6 /\ B k' s7.
Proof.
  induction blocks as [|blocks IH];
    intros a k r0 r1 r2 r3 r4 r5 r6 r7 Ha Hk H0 H1 H2 H3 H4 H5 H6 H7.
  - exists k, r0, r1, r2, r3, r4, r5, r6, r7, a. cbn [unrolled].
    repeat split; auto.
  - destruct a as [|x0 [|x1 [|x2 [|x3 [|x4 [|x5 [|x6 [|x7 rest]]]]]]]];
      try (exists k, r0, r1, r2, r3, r4, r5, r6, r7; eexists;
           cbn [unrolled]; repeat split; auto; fail).
    cbn [unrolled].
    inversion Ha as [|? ? Hx0 Ha0]; inversion Ha0 as [|? ? Hx1 Ha1];
      inversion Ha1 as [|? ? Hx2 Ha2]; inversion Ha2 as [|? ? Hx3 Ha3];
      inversion Ha3 as [|? ? Hx4 Ha4]; inversion Ha4 as [|? ? Hx5 Ha5];
      inversion Ha5 as [|? ? Hx6 Ha6]; inversion Ha6 as [|? ? Hx7 Ha7];
      subst.
    cbn [List.length] in Hk.
    assert (Hb : forall r x, B k r -> B 1 x -> B (k + 1) (add r x)).
    { intros r x Hr Hx. apply B_add; [lia | exact Hr | exact Hx]. }
    assert (Hk' : (8 * (k + 1) + List.length rest <= limit)%nat) by lia.
    destruct (IH rest (k + 1)%nat _ _ _ _ _ _ _ _ Ha7 Hk'
                (Hb _ _ H0 Hx0) (Hb _ _ H1 Hx1) (Hb _ _ H2 Hx2)
                (Hb _ _ H3 Hx3) (Hb _ _ H4 Hx4) (Hb _ _ H5 Hx5)
                (Hb _ _ H6 Hx6) (Hb _ _ H7 Hx7))
      as (k' & s0 & s1 & s2 & s3 & s4 & s5 & s6 & s7 & tail & E & Hlen & Ht & Hs).
    exists k', s0, s1, s2, s3, s4, s5, s6, s7, tail.
    split; [exact E|]. split; [cbn [List.length]; lia|]. split; assumption.
Qed.

Lemma block_sum_bound (a : list F) :
  Forall (B 1) a -> (List.length a <= limit)%nat ->
  B (List.length a) (block_sum a).
Proof.
  intros Ha Hn. unfold block_sum.
  destruct a as [|x0 [|x1 [|x2 [|x3 [|x4 [|x5 [|x6 [|x7 rest]]]]]]]];
    try (apply (sum_loop_bound _ Ha 0%nat zero); [cbn [List.length] in *; lia | exact B_zero]).
  inversion Ha as [|? ? Hx0 Ha0]; inversion Ha0 as [|? ? Hx1 Ha1];
    inversion Ha1 as [|? ? Hx2 Ha2]; inversion Ha2 as [|? ? Hx3 Ha3];
    inversion Ha3 as [|? ? Hx4 Ha4]; inversion Ha4 as [|? ? Hx5 Ha5];
    inversion Ha5 as [|? ? Hx6 Ha6]; inversion Ha6 as [|? ? Hx7 Ha7];
    subst.
  cbn [List.length] in Hn.
  assert (Hk : (8 * 1 + List.length rest <= limit)%nat) by lia.
  destruct (unrolled_bound (List.length rest / 8) rest 1%nat
              x0 x1 x2 x3 x4 x5 x6 x7 Ha7 Hk Hx0 Hx1 Hx2 Hx3 Hx4 Hx5 Hx6 Hx7)
    as (k' & s0 & s1 & s2 & s3 & s4 & s5 & s6 & s7 & tail & E & Hlen & Ht
        & H0 & H1 & H2 & H3 & H4 & H5 & H6 & H7).
  rewrite E.
  replace (List.length (x0 :: x1 :: x2 :: x3 :: x4 :: x5 :: x6 :: x7 :: rest))
    with (8 * k' + List.length tail)%nat by (cbn [List.length]; lia).
  apply sum_loop_bound; [exact Ht | lia |].
  replace (8 * k')%nat
    with (((k' + k') + (k' + k')) + ((k' + k') + (k' + k')))%nat by lia.
  repeat (apply B_add; [lia | |]); assumption.
Qed.

Lemma pairwise_sum_rec_bound (fuel : nat) :
  forall a, Forall (B 1) a -> (List.length a <= limit)%nat ->
  B (List.length a) (pairwise_sum_rec fuel a).
Proof.
  induction fuel as [|fuel IH]; intros a Ha Hn; cbn [pairwise_sum_rec].
  - destruct (List.length a <? 8)%nat.
    + apply (sum_loop_bound _ Ha 0%nat zero); [lia | exact B_zero].
    + destruct (List.length a <=? 128)%nat; now apply block_sum_bound.
  - destruct (List.length a <? 8)%nat.
    + apply (sum_loop_bound _ Ha 0%nat zero); [lia | exact B_zero].
    + destruct (List.length a <=? 128)%nat; [now apply block_sum_bound|].
      set (n2 := (List.length a / 2 - (List.length a / 2) mod 8)%nat).
      assert (Hn2 : (n2 <= List.length a)%nat).
      { unfold n2. pose proof (Nat.Div0.div_le_upper_bound (List.length a) 2
                                 (List.length a)). nia. }
      rewrite <- (firstn_skipn n2 a) at 1. rewrite length_app.
      apply B_add.
      * rewrite <- length_app, firstn_skipn. exact Hn.
      * apply IH; [now apply Forall_take|].
        rewrite length_firstn. lia.
      * apply IH; [now apply Forall_drop|].
        rewrite length_skipn. lia.
Qed.

Lemma add_reduce_bound (a : list F) :
  Forall (B 1) a -> (List.length a <= limit)%nat ->
  B (List.length a) (add_reduce a).
Proof.
  intros Ha Hn. unfold add_reduce, pairwise_sum.
  change (List.length a) with (0 + List.length a)%nat at 1.
  apply B_add; [lia | exact B_zero | now apply pairwise_sum_rec_bound].
Qed.

End PairwiseSum.

End Numpy.

(* ================================================================== *)
(** * rtsp_reader.py *)
(* ================================================================== *)

Module Reader.
Import PyFloat Py.
Local Open Scope py_scope.

(** [StreamConfig] of config.py.  [__post_init__] rejects a sample rate or
    a window size that is [<= 0]. *)
Record StreamConfig : Type := {
  name : string;
  url : string;
  sample_rate : Z;
  window_size_seconds : pyfloat;
  channels : Z
}.

Definition post_init_ok (c : StreamConfig) : bool :=
  negb (sample_rate c <=? 0) && negb (fle (window_size_seconds c) f_zero).

(** [AudioWindow].  The samples are float32 numbers; each is kept as the
    rational it denotes.  No infinity, NaN or negative zero arises from
    16-bit integers, and a float32 operation is the exact operation
    followed by [f32], the rounding to the nearest float32. *)
Record AudioWindow : Type := {
  samples : list Q;
  timestamp : Z;
  stream_name : string;
  window_sample_rate : Z;
  duration_seconds : pyfloat
}.

(** The decoder process as the reader sees it: whether [poll()] reports an
    exit, and the bytes its stdout will still deliver. *)
Record process : Type := {
  exited : bool;
  stdout : list Byte.byte
}.

(** [stdout.read(n)] on the unbuffered pipe: at most [n] bytes, and no more
    than the [avail] bytes the operating system hands over in this call; a
    negative [n] reads to the end. *)
Definition read (n : Z) (avail : nat) (pipe : list Byte.byte)
  : list Byte.byte * list Byte.byte :=
  if n <? 0 then (pipe, [])
  else
    let k := Nat.min (Z.to_nat n) avail in
    (firstn k pipe, skipn k pipe).

(** One little-endian signed 16-bit integer. *)
Definition int16_le (lo hi : Byte.byte) : Z :=
  let u := Z.of_N (Byte.to_N lo) + 256 * Z.of_N (Byte.to_N hi) in
  if u <? 32768 then u else u - 65536.

(** [np.frombuffer(raw, dtype=np.int16)]: the length must be even. *)
Fixpoint frombuffer_int16 (raw : list Byte.byte) : outcome (list Z) :=
  match raw with
  | [] => Return []
  | [_] => Raise ValueError
  | lo :: hi :: rest =>
      zs <- frombuffer_int16 rest ;;
      Return (int16_le lo hi :: zs)
  end.

(** [samples_int16.astype(np.float32) / 32768.0]: a 16-bit integer is a
    float32, and so is its quotient by a power of two. *)
Definition normalize (zs : list Z) : list Q :=
  map (fun z => inject_Z z / inject_Z 32768)%Q zs.

(** ** float32 arithmetic on the values *)

(** [2^e] *)
Definition pow2 (e : Z) : Q :=
  if 0 <=? e then inject_Z (2 ^ e) else (1 # Z.to_pos (2 ^ (- e))).

(** For [q > 0], the [k] with [2^(k-1) <= q < 2^k]. *)
Definition mag (q : Q) : Z :=
  let n := Qnum q in
  let d := Z.pos (Qden q) in
  let k0 := Z.log2 n - Z.log2 d in
  if d * 2 ^ Z.max 0 k0 <=? n * 2 ^ Z.max 0 (- k0) then k0 + 1 else k0.

(** [q / 2^e] rounded to the nearest integer, a tie to the even one. *)
Definition nearest_even (q : Q) (e : Z) : Z :=
  let n := Qnum q * 2 ^ Z.max 0 (- e) in
  let d := Z.pos (Qden q) * 2 ^ Z.max 0 e in
  let f := n / d in
  let r := n mod d in
  if 2 * r <? d then f
  else if d <? 2 * r then f + 1
  else if Z.even f then f else f + 1.

(** The float32 nearest to [q], a tie to the even one: 24 bits of
    precision, exponents from -149.  (The values of a window stay far
    below the overflow threshold [2^128].) *)
Definition f32 (q : Q) : Q :=
  if Qeq_bool q 0 then 0%Q
  else
    let e := Z.max (mag (Qabs q) - 24) (-149) in
    Qred (inject_Z (nearest_even q e) * pow2 e).

Definition f32_add (a b : Q) : Q := f32 (a + b).

(** The mean of one frame of [c] float32 values as [.mean(axis=1)]
    computes it: the float32 sum of the frame, divided by [c] and rounded
    to float32.  (A count below [2^24] is a float32; where numpy divides
    in binary64 and converts the quotient, the float32 is the same, since
    53 bits are more than twice 24.) *)
Definition f32_mean (c : nat) (frame : list Q) : Q :=
  f32 (Numpy.add_reduce f32_add 0%Q frame / inject_Z (Z.of_nat c)).

(** [samples.reshape(-1, c).mean(axis=1)]: [rows] frames of [c] samples. *)
Fixpoint mean_rows (c rows : nat) (l : list Q) : list Q :=
  match rows with
  | O => []
  | S k => f32_mean c (firstn c l) :: mean_rows c k (skipn c l)
  end.

Definition to_mono (c : Z) (l : list Q) : outcome (list Q) :=
  if (Z.of_nat (List.length l) mod c =? 0) then
    Return (mean_rows (Z.to_nat c)
              (Z.to_nat (Z.of_nat (List.length l) / c)) l)
  else Raise ValueError.

(** [int(self.config.sample_rate * self.config.window_size_seconds)]:
    [int] raises [OverflowError] on an infinity and [ValueError] on a
    NaN. *)
Definition samples_per_window (c : StreamConfig) : outcome Z :=
  match of_int (sample_rate c) with
  | None => Raise OverflowError
  | Some sr =>
      match to_int (fmul sr (window_size_seconds c)) with
      | Some n => Return n
      | None =>
          match fmul sr (window_size_seconds c) with
          | S754_infinity _ => Raise OverflowError
          | _ => Raise ValueError
          end
      end
  end.

(** [_read_window]: [proc] is [self._process], [avail] what this call's
    read can get, [now] the clock.  Returns the window (or [None]) and the
    process with what is left in its pipe. *)
Definition _read_window (config : StreamConfig) (proc : option process)
  (avail : nat) (now : Z) : outcome (option AudioWindow) * option process :=
  match proc with
  | None => (Return None, proc)
  | Some p =>
      if exited p then (Return None, proc)
      else
        match samples_per_window config with
        | Raise e => (Raise e, proc)
        | Return spw =>
            let bytes_per_sample := 2 in
            let bytes_needed := spw * channels config * bytes_per_sample in
            let '(raw_data, rest) := read bytes_needed avail (stdout p) in
            let proc' := Some {| exited := exited p; stdout := rest |} in
            if Z.of_nat (List.length raw_data) <? bytes_needed then
              (Return None, proc')
            else
              (samples_int16 <- frombuffer_int16 raw_data ;;
               let samples := normalize samples_int16 in
               samples <- (if 1 <? channels config
                           then to_mono (channels config) samples
                           else Return samples) ;;
               Return (Some {| samples := samples;
                               timestamp := now;
                               stream_name := name config;
                               window_sample_rate := sample_rate config;
                               duration_seconds := window_size_seconds config |}),
               proc')
        end
  end.

(** ** The reconnect loop of [stream_windows]

    Delays are seconds.  They are kept as exact rationals: the loop only
    doubles them and takes minima, and doubling a binary64 is exact short
    of overflow.

    One turn of the outer [while] loop is described by what happened in it:
    whether [_start_ffmpeg] returned a process, how many windows the inner
    loop yielded before it ended, and whether [self._running] still holds
    at line 154. *)
Record attempt : Type := {
  spawn_ok : bool;
  windows_yielded : nat;
  still_running : bool
}.

(** Python's [min(a, b)]: [b] if [b < a], else [a]. *)
Definition qmin (a b : Q) : Q := if Qlt_le_dec b a then b else a.

(** The delay with which the turn reaches line 154: reset on a successful
    spawn, untouched otherwise (the windows read play no part). *)
Definition delay_after_try (reconnect_delay current_delay : Q) (a : attempt)
  : Q :=
  if spawn_ok a then reconnect_delay else current_delay.

(** Lines 159-161: the delay after [time.sleep(current_delay)]. *)
Definition backoff (max_reconnect_delay current_delay : Q) : Q :=
  qmin (current_delay * 2) max_reconnect_delay.

(** The outer loop over the turns of a run: the list of delays slept. *)
Fixpoint reconnect_loop (reconnect_delay max_reconnect_delay : Q)
  (current_delay : Q) (turns : list attempt) : list Q :=
  match turns with
  | [] => []
  | a :: rest =>
      let current_delay := delay_after_try reconnect_delay current_delay a in
      if still_running a then
        current_delay
          :: reconnect_loop reconnect_delay max_reconnect_delay
               (backoff max_reconnect_delay current_delay) rest
      else []
  end.

Definition stream_windows_sleeps (reconnect_delay max_reconnect_delay : Q)
  (turns : list attempt) : list Q :=
  reconnect_loop reconnect_delay max_reconnect_delay reconnect_delay turns.

(** A turn in which the decoder could not be spawned. *)
Definition failed_spawn : attempt :=
  {| spawn_ok := false; windows_yielded := 0; still_running := true |}.

(** A turn in which the decoder was spawned and the connection failed
    before a window could be read. *)
Definition lost_connection : attempt :=
  {| spawn_ok := true; windows_yielded := 0; still_running := true |}.

(** Concrete inputs for the examples. *)
Definition seven_quarter : StreamConfig :=
  {| name := "cam"; url := "rtsp://cam"; sample_rate := 7;
     window_size_seconds := f_0_25; channels := 1 |}.

Definition stereo_two : StreamConfig :=
  {| name := "cam"; url := "rtsp://cam"; sample_rate := 2;
     window_size_seconds := f_one; channels := 2 |}.

Definition silent_pipe (n : nat) : option process :=
  Some {| exited := false; stdout := repeat Byte.x00 n |}.

Definition loud_pipe : option process :=
  Some {| exited := false;
          stdout := [Byte.x00; Byte.x80; Byte.xff; Byte.x7f;
                     Byte.x00; Byte.x80; Byte.x00; Byte.x80] |}.

(** The window length in the words of the specification:
    [round(sample_rate * window_size_seconds)]. *)
Definition spec_window_length (c : StreamConfig) : option Z :=
  match of_int (sample_rate c) with
  | Some sr => round_half_even (fmul sr (window_size_seconds c))
  | None => None
  end.

Definition one_silent_sample : AudioWindow :=
  {| samples := [0 # 32768]%Q; timestamp := 0; stream_name := "cam";
     window_sample_rate := 7; duration_seconds := f_0_25 |}.

Definition two_loud_frames : AudioWindow :=
  {| samples := [-1 # 65536; -1 # 1]%Q;
     timestamp := 0; stream_name := "cam";
     window_sample_rate := 2; duration_seconds := f_one |}.

(** The delay slept in turn [k] of a run of failed spawns. *)
Fixpoint nth_backoff (reconnect_delay max_reconnect_delay : Q) (k : nat) : Q :=
  match k with
  | O => reconnect_delay
  | S k' =>
      backoff max_reconnect_delay
        (nth_backoff reconnect_delay max_reconnect_delay k')
  end.

Definition in_delay_range (reconnect_delay max_reconnect_delay d : Q) : Prop :=
  (reconnect_delay <= d /\ d <= max_reconnect_delay)%Q.

(** ** Proofs: the framer *)

Definition in_unit_range (x : Q) : Prop := (-1 <= x /\ x <= 1)%Q.

(** The sign of a rounded result is the sign asked for. *)
Definition has_sign (sx : bool) (f : pyfloat) : Prop :=
  match f with
  | S754_zero s | S754_infinity s | S754_finite s _ _ => s = sx
  | S754_nan => True
  end.

Lemma binary_round_aux_sign (p e : Z) (sx : bool) (mx ex : Z) (lx : location) :
  has_sign sx (binary_round_aux p e sx mx ex lx).
Proof.
  unfold binary_round_aux.
  destruct (shr_fexp p e mx ex lx) as [mrs' e'].
  destruct (shr_fexp p e _ e' loc_Exact) as [mrs'' e''].
  destruct (shr_m mrs''); simpl; auto.
  destruct (e'' <=? e - p); simpl; auto.
Qed.

Lemma of_int_sign (n : Z) (f : pyfloat) :
  0 < n -> of_int n = Some f -> has_sign false f.
Proof.
  intros Hn. unfold of_int, binary_normalize.
  destruct n as [|m|m]; try lia.
  unfold binary_round.
  destruct (shl_align m 0 _) as [mz ez].
  pose proof (binary_round_aux_sign prec emax false (Zpos mz) ez loc_Exact) as Hs.
  destruct (binary_round_aux prec emax false (Zpos mz) ez loc_Exact);
    intros H; try discriminate; injection H as <-; exact Hs.
Qed.

Lemma to_int_nonneg (f : pyfloat) (n : Z) :
  has_sign false f -> to_int f = Some n -> 0 <= n.
Proof.
  destruct f as [s|s| |s m e]; intros Hs H; try discriminate H.
  - injection H as <-. lia.
  - unfold has_sign in Hs. subst s. unfold to_int in H.
    destruct (Z.leb_spec 0 e).
    + assert (Hn : n = Z.pos m * 2 ^ e) by congruence. rewrite Hn.
      apply Z.mul_nonneg_nonneg; [lia|]. apply Z.pow_nonneg. lia.
    + assert (Hn : n = Z.pos m / 2 ^ (- e)) by congruence. rewrite Hn.
      apply Z.div_pos; [lia|]. apply Z.pow_pos_nonneg; lia.
Qed.

Lemma fmul_sign (a b : pyfloat) :
  has_sign false a -> fle b f_zero = false ->
  has_sign false (fmul a b).
Proof.
  destruct a as [sa|sa| |sa ma ea], b as [sb|sb| |sb mb eb]; simpl;
    try (intros ->); try (destruct sb); simpl; try discriminate; auto.
  intros _. apply binary_round_aux_sign.
Qed.

Lemma samples_per_window_nonneg (c : StreamConfig) (n : Z) :
  post_init_ok c = true -> samples_per_window c = Return n -> 0 <= n.
Proof.
  unfold post_init_ok, samples_per_window. intros Hok H.
  apply andb_prop in Hok. destruct Hok as [Hsr Hws].
  apply negb_true_iff in Hsr, Hws. apply Z.leb_gt in Hsr.
  destruct (of_int (sample_rate c)) as [sr|] eqn:Esr; [|discriminate].
  destruct (to_int (fmul sr (window_size_seconds c))) as [k|] eqn:Ek;
    [|destruct (fmul sr (window_size_seconds c)); discriminate].
  injection H as <-.
  apply (to_int_nonneg _ _ (fmul_sign _ _ (of_int_sign _ _ Hsr Esr) Hws) Ek).
Qed.

Lemma read_length (n : Z) (avail : nat) (pipe raw rest : list Byte.byte) :
  0 <= n -> read n avail pipe = (raw, rest) ->
  Z.of_nat (List.length raw) <= n.
Proof.
  unfold read. intros Hn. destruct (Z.ltb_spec n 0) as [Hneg|_]; [lia|].
  intros H. injection H as <- _. rewrite length_firstn. lia.
Qed.

(** Lists of bytes are taken two at a time. *)
Lemma pairs_ind {A : Type} (P : list A -> Prop) :
  P [] -> (forall x, P [x]) ->
  (forall x y l, P l -> P (x :: y :: l)) ->
  forall l, P l.
Proof.
  intros H0 H1 H2.
  assert (H : forall l, P l /\ forall x, P (x :: l)).
  { induction l as [|a l [IH1 IH2]]; split; auto. }
  intros l. apply H.
Qed.

Lemma int16_le_range (lo hi : Byte.byte) :
  -32768 <= int16_le lo hi <= 32767.
Proof.
  unfold int16_le.
  pose proof (Byte.to_N_bounded lo). pose proof (Byte.to_N_bounded hi).
  destruct (Z.ltb_spec (Z.of_N (Byte.to_N lo) + 256 * Z.of_N (Byte.to_N hi))
              32768); lia.
Qed.

Lemma frombuffer_int16_spec (raw : list Byte.byte) :
  forall zs, frombuffer_int16 raw = Return zs ->
  (2 * List.length zs = List.length raw)%nat
  /\ Forall (fun z => -32768 <= z <= 32767) zs.
Proof.
  induction raw as [|x|lo hi raw IH] using pairs_ind; intros zs H.
  - injection H as <-. split; [reflexivity|constructor].
  - discriminate.
  - simpl in H.
    destruct (frombuffer_int16 raw) as [zs'|] eqn:E; simpl in H; [|discriminate].
    injection H as <-. destruct (IH zs' eq_refl) as [Hlen Hrange].
    split; [simpl; lia|]. constructor; [apply int16_le_range | exact Hrange].
Qed.

Lemma normalize_range (zs : list Z) :
  Forall (fun z => -32768 <= z <= 32767) zs ->
  Forall in_unit_range (normalize zs).
Proof.
  unfold normalize. induction 1 as [|z zs Hz _ IH]; simpl; constructor; auto.
  unfold in_unit_range. split.
  - apply Qle_shift_div_l; [reflexivity|].
    unfold Qle, inject_Z. simpl. lia.
  - apply Qle_shift_div_r; [reflexivity|].
    unfold Qle, inject_Z. simpl. lia.
Qed.

(** [within N q]: [-N <= q <= N]. *)
Definition within (N : Z) (q : Q) : Prop :=
  (inject_Z (- N) <= q /\ q <= inject_Z N)%Q.

(** A number of 25 bits or more is at least [2^24]. *)
Lemma mag_big (q : Q) :
  0 < Qnum q -> 25 <= mag q -> Z.pos (Qden q) * 2 ^ 24 <= Qnum q.
Proof.
  unfold mag. intros Hn.
  set (n := Qnum q) in *. set (d := Z.pos (Qden q)).
  assert (Hd : 0 < d) by (unfold d; lia).
  pose proof (Z.log2_spec n Hn) as [Hn1 Hn2].
  pose proof (Z.log2_spec d Hd) as [Hd1 Hd2].
  pose proof (Z.log2_nonneg n) as Hln. pose proof (Z.log2_nonneg d) as Hld.
  set (k0 := Z.log2 n - Z.log2 d).
  destruct (Z.leb_spec (d * 2 ^ Z.max 0 k0) (n * 2 ^ Z.max 0 (- k0)))
    as [Hle|Hgt]; intros Hk.
  - assert (Hk0 : 24 <= k0) by lia.
    rewrite (Z.max_r 0 k0), (Z.max_l 0 (- k0)) in Hle by lia.
    rewrite Z.pow_0_r, Z.mul_1_r in Hle.
    assert (H24 : 2 ^ 24 <= 2 ^ k0) by (apply Z.pow_le_mono_r; lia).
    nia.
  - assert (Hk0 : 25 <= k0) by lia.
    assert (H1 : 2 ^ (Z.log2 d + 1 + 24) <= 2 ^ Z.log2 n)
      by (apply Z.pow_le_mono_r; unfold k0 in Hk0; lia).
    rewrite Z.pow_add_r in H1 by lia.
    rewrite <- Z.add_1_r in Hd2 at 1.
    replace (Z.succ (Z.log2 d)) with (Z.log2 d + 1) in Hd2 by lia.
    assert (0 < 2 ^ 24) by lia. nia.
Qed.

(** Rounding to a grid that contains [N] does not pass [N]. *)
Lemma nearest_even_bound (q : Q) (e N : Z) :
  e <= 0 -> 0 <= N -> within N q ->
  - (N * 2 ^ (- e)) <= nearest_even q e <= N * 2 ^ (- e).
Proof.
  intros He HN [Hlo Hhi]. unfold nearest_even.
  rewrite (Z.max_r 0 (- e)), (Z.max_l 0 e) by lia.
  rewrite Z.pow_0_r, Z.mul_1_r.
  set (P := 2 ^ (- e)). assert (HP : 0 < P) by (apply Z.pow_pos_nonneg; lia).
  set (d := Z.pos (Qden q)). assert (Hd : 0 < d) by (unfold d; lia).
  unfold Qle in Hlo, Hhi. cbn [Qnum Qden inject_Z] in Hlo, Hhi.
  fold d in Hlo, Hhi. rewrite Z.mul_1_r in Hlo, Hhi.
  set (n := Qnum q * P).
  assert (Hn1 : n <= N * P * d) by (unfold n; nia).
  assert (Hn2 : - (N * P) * d <= n) by (unfold n; nia).
  pose proof (Z.div_mod n d ltac:(lia)) as Hdm.
  pose proof (Z.mod_pos_bound n d Hd) as Hr.
  set (f := n / d) in *. set (r := n mod d) in *.
  assert (Hf1 : f <= N * P) by nia.
  assert (Hf2 : - (N * P) <= f) by nia.
  assert (Hup : 0 < r -> f + 1 <= N * P) by (intros; nia).
  destruct (Z.ltb_spec (2 * r) d); [lia|].
  destruct (Z.ltb_spec d (2 * r)); [lia|].
  destruct (Z.even f); lia.
Qed.

Lemma pow2_nonpos (e : Z) :
  e <= 0 -> (pow2 e * inject_Z (2 ^ (- e)) == 1)%Q.
Proof.
  intros He. unfold pow2.
  assert (HP : 0 < 2 ^ (- e)) by (apply Z.pow_pos_nonneg; lia).
  destruct (Z.leb_spec 0 e).
  - replace e with 0 by lia. reflexivity.
  - unfold Qeq, Qmult, inject_Z. cbn [Qnum Qden].
    rewrite Pos.mul_1_r, Z2Pos.id by exact HP. lia.
Qed.

(** Rounding to float32 keeps a number within an integer bound below
    [2^24]: such a bound is a float32. *)
Lemma f32_within (N : Z) (q : Q) :
  0 <= N < 2 ^ 24 -> within N q -> within N (f32 q).
Proof.
  intros HN Hq. unfold f32.
  destruct (Qeq_bool q 0) eqn:E0.
  - unfold within. split; unfold Qle, inject_Z; cbn [Qnum Qden]; lia.
  - set (e := Z.max (mag (Qabs q) - 24) (-149)).
    assert (He : e <= 0).
    { unfold e. apply Z.max_lub; [|lia].
      destruct (Z_le_gt_dec 25 (mag (Qabs q))) as [Hbig|]; [|lia].
      exfalso. apply Qeq_bool_neq in E0.
      assert (Hpos : 0 < Qnum (Qabs q)).
      { destruct q as [n d]. cbn [Qabs Qnum]. unfold Qeq in E0.
        cbn [Qnum Qden] in E0. lia. }
      pose proof (mag_big (Qabs q) Hpos Hbig) as Hm.
      destruct Hq as [Hlo Hhi]. destruct q as [n d].
      unfold Qle in Hlo, Hhi. cbn [Qabs Qnum Qden inject_Z] in *. nia. }
    pose proof (nearest_even_bound q e N He (proj1 HN) Hq) as [Hm1 Hm2].
    set (m := nearest_even q e) in *.
    set (P := 2 ^ (- e)) in *.
    assert (HP : 0 < P) by (apply Z.pow_pos_nonneg; lia).
    pose proof (pow2_nonpos e He) as Hpow. fold P in Hpow.
    assert (HPq : (0 < inject_Z P)%Q).
    { change 0%Q with (inject_Z 0). rewrite <- Zlt_Qlt. exact HP. }
    assert (Hval : (Qred (inject_Z m * pow2 e) * inject_Z P == inject_Z m)%Q).
    { rewrite Qred_correct, <- Qmult_assoc, Hpow. ring. }
    unfold within. split.
    + apply Qmult_le_r with (z := inject_Z P); [exact HPq|].
      rewrite Hval, <- inject_Z_mult, <- Zle_Qle. lia.
    + apply Qmult_le_r with (z := inject_Z P); [exact HPq|].
      rewrite Hval, <- inject_Z_mult, <- Zle_Qle. lia.
Qed.

Lemma in_unit_range_within (x : Q) : in_unit_range x <-> within 1 x.
Proof. reflexivity. Qed.

(** The float32 sum of [k] values of [-1, 1] stays within [k], in whatever
    order numpy adds them. *)
Lemma f32_sum_within (frame : list Q) :
  Forall in_unit_range frame ->
  Z.of_nat (List.length frame) < 2 ^ 24 ->
  within (Z.of_nat (List.length frame)) (Numpy.add_reduce f32_add 0%Q frame).
Proof.
  intros Hf Hlen.
  apply (Numpy.add_reduce_bound f32_add 0%Q
           (fun k x => within (Z.of_nat k) x) (List.length frame)).
  - unfold within. split; unfold Qle, inject_Z; cbn; lia.
  - intros i j x y Hij [Hx1 Hx2] [Hy1 Hy2]. unfold f32_add.
    apply f32_within; [lia|].
    unfold within. rewrite Nat2Z.inj_add, Z.opp_add_distr, !inject_Z_plus.
    split; lra.
  - exact Hf.
  - lia.
Qed.

Lemma f32_mean_range (c : nat) (frame : list Q) :
  (0 < c)%nat -> Z.of_nat c < 2 ^ 24 -> List.length frame = c ->
  Forall in_unit_range frame ->
  in_unit_range (f32_mean c frame).
Proof.
  intros Hc Hbig Hlen Hf. unfold f32_mean.
  apply in_unit_range_within. apply f32_within; [lia|].
  destruct (f32_sum_within frame Hf ltac:(lia)) as [Hlo Hhi].
  rewrite Hlen in Hlo, Hhi.
  assert (Hpos : (0 < inject_Z (Z.of_nat c))%Q).
  { change 0%Q with (inject_Z 0). rewrite <- Zlt_Qlt. lia. }
  rewrite inject_Z_opp in Hlo.
  unfold within. change (inject_Z (- (1))) with (-1 # 1)%Q.
  change (inject_Z 1) with 1%Q. split.
  - apply Qle_shift_div_l; [exact Hpos|]. lra.
  - apply Qle_shift_div_r; [exact Hpos|]. lra.
Qed.

Lemma Forall_firstn {A : Type} (P : A -> Prop) (n : nat) (l : list A) :
  Forall P l -> Forall P (firstn n l).
Proof. apply Numpy.Forall_take. Qed.

Lemma Forall_skipn {A : Type} (P : A -> Prop) (n : nat) (l : list A) :
  Forall P l -> Forall P (skipn n l).
Proof. apply Numpy.Forall_drop. Qed.

Lemma mean_rows_spec (c : nat) :
  (0 < c)%nat -> Z.of_nat c < 2 ^ 24 ->
  forall rows l,
    List.length l = (rows * c)%nat -> Forall in_unit_range l ->
    List.length (mean_rows c rows l) = rows
    /\ Forall in_unit_range (mean_rows c rows l).
Proof.
  intros Hc Hbig. induction rows as [|k IH]; intros l Hlen Hl;
    cbn [mean_rows].
  - split; [reflexivity|constructor].
  - destruct (IH (skipn c l)) as [IHlen IHr].
    + rewrite length_skipn, Hlen. cbn [Nat.mul]. lia.
    + now apply Forall_skipn.
    + split; [cbn [List.length]; now rewrite IHlen|].
      constructor; [|exact IHr].
      apply f32_mean_range; [exact Hc | exact Hbig | |now apply Forall_firstn].
      rewrite length_firstn, Hlen. cbn [Nat.mul]. lia.
Qed.

(** The values of frame [i]: [c] consecutive samples. *)
Definition frame_values (c : nat) (l : list Q) (i : nat) : list Q :=
  firstn c (skipn (i * c) l).

Lemma mean_rows_nth (c : nat) :
  forall rows l i,
    (i < rows)%nat ->
    nth i (mean_rows c rows l) 0%Q = f32_mean c (frame_values c l i).
Proof.
  induction rows as [|k IH]; intros l i Hi; [lia|].
  cbn [mean_rows]. destruct i as [|i]; cbn [nth].
  - unfold frame_values. now rewrite Nat.mul_0_l, skipn_O.
  - rewrite IH by lia. unfold frame_values. rewrite skipn_skipn.
    do 3 f_equal. lia.
Qed.

(** C2, as the code has it.  For a stream configuration that passed
    [__post_init__] and has at least one channel (and fewer than [2^24]),
    every window that [_read_window] returns has
    [int(sample_rate * window_size_seconds)] mono samples (the product
    truncated toward zero, not rounded), every sample lies in [-1, 1], and
    the window carries the configured sample rate and duration.  The
    samples come from the 16-bit integers [zs] of the bytes read: with one
    channel sample [i] is [zs[i] / 32768]; with more channels it is the
    float32 mean of the values [z / 32768] of frame [i]. *)
Theorem read_window_shape (config : StreamConfig) (proc proc' : option process)
  (avail : nat) (now : Z) (w : AudioWindow) :
  post_init_ok config = true ->
  1 <= channels config < 2 ^ 24 ->
  _read_window config proc avail now = (Return (Some w), proc') ->
  exists spw p zs,
    samples_per_window config = Return spw
    /\ 0 <= spw
    /\ Z.of_nat (List.length (samples w)) = spw
    /\ Forall in_unit_range (samples w)
    /\ window_sample_rate w = sample_rate config
    /\ duration_seconds w = window_size_seconds config
    /\ proc = Some p
    /\ frombuffer_int16
         (firstn (Z.to_nat (spw * channels config * 2)) (stdout p))
       = Return zs
    /\ Z.of_nat (List.length zs) = spw * channels config
    /\ forall i,
         (i < List.length (samples w))%nat ->
         nth i (samples w) 0%Q
         = if 1 <? channels config
           then f32_mean (Z.to_nat (channels config))
                  (frame_values (Z.to_nat (channels config)) (normalize zs) i)
           else nth i (normalize zs) 0%Q.
Proof.
  intros Hok [Hch Hbig] H. unfold _read_window in H.
  destruct proc as [p|]; [|discriminate].
  destruct (exited p); [discriminate|].
  destruct (samples_per_window config) as [spw|] eqn:Espw; [|discriminate].
  pose proof (samples_per_window_nonneg _ _ Hok Espw) as Hspw.
  exists spw, p.
  assert (Hneed : 0 <= spw * channels config * 2) by nia.
  unfold read in H.
  destruct (Z.ltb_spec (spw * channels config * 2) 0) as [|_]; [lia|].
  set (n := Z.to_nat (spw * channels config * 2)) in *.
  destruct (Z.ltb_spec
              (Z.of_nat (List.length (firstn (Nat.min n avail) (stdout p))))
              (spw * channels config * 2)) as [|Hfull]; [discriminate|].
  rewrite length_firstn in Hfull.
  assert (Hk : Nat.min n avail = n) by lia.
  rewrite Hk in H, Hfull. injection H as H _.
  destruct (frombuffer_int16 (firstn n (stdout p))) as [zs|] eqn:Ezs;
    cbn [bind] in H; [|discriminate].
  exists zs.
  destruct (frombuffer_int16_spec _ _ Ezs) as [Hlen Hrange].
  rewrite length_firstn in Hlen.
  assert (Hzs : Z.of_nat (List.length zs) = spw * channels config) by lia.
  apply normalize_range in Hrange.
  assert (Hn : Z.of_nat (List.length (normalize zs)) = spw * channels config).
  { unfold normalize. rewrite length_map. exact Hzs. }
  destruct (Z.ltb_spec 1 (channels config)) as [Hmulti|Hmono].
  - unfold to_mono in H. rewrite Hn, Z_mod_mult in H. cbn [Z.eqb bind] in H.
    rewrite Z_div_mult in H by lia.
    injection H as <-. cbn [samples window_sample_rate duration_seconds].
    destruct (mean_rows_spec (Z.to_nat (channels config)) ltac:(lia)
                ltac:(lia) (Z.to_nat spw) (normalize zs)) as [Hl Hr];
      [nia | exact Hrange|].
    rewrite Hl.
    repeat (split; [first [reflexivity | assumption | lia]|]).
    intros i Hi. now apply mean_rows_nth.
  - cbn [bind] in H. injection H as <-.
    cbn [samples window_sample_rate duration_seconds].
    repeat (split; [first [reflexivity | assumption | nia]|]).
    intros i _. reflexivity.
Qed.

Lemma read_window_shape_witness :
  exists spw p zs,
    samples_per_window stereo_two = Return spw
    /\ 0 <= spw
    /\ Z.of_nat (List.length (samples two_loud_frames)) = spw
    /\ Forall in_unit_range (samples two_loud_frames)
    /\ window_sample_rate two_loud_frames = sample_rate stereo_two
    /\ duration_seconds two_loud_frames = window_size_seconds stereo_two
    /\ loud_pipe = Some p
    /\ frombuffer_int16
         (firstn (Z.to_nat (spw * channels stereo_two * 2)) (stdout p))
       = Return zs
    /\ Z.of_nat (List.length zs) = spw * channels stereo_two
    /\ forall i,
         (i < List.length (samples two_loud_frames))%nat ->
         nth i (samples two_loud_frames) 0%Q
         = if 1 <? channels stereo_two
           then f32_mean (Z.to_nat (channels stereo_two))
                  (frame_values (Z.to_nat (channels stereo_two))
                     (normalize zs) i)
           else nth i (normalize zs) 0%Q.
Proof.
  apply (read_window_shape stereo_two loud_pipe
           (Some {| exited := false; stdout := [] |}) 100 0 two_loud_frames).
  - reflexivity.
  - simpl. lia.
  - reflexivity.
Defined.

(** The mean is taken in float32: three channels holding [1/32768], [0]
    and [0] average to the float32 nearest to [1/98304], and a stereo
    frame of the two extreme values to [-1/65536]. *)
Example f32_mean_rounds :
  f32_mean 3 (normalize [1; 0; 0]) = (11184811 # 1099511627776)%Q
  /\ f32_mean 2 (normalize [-32768; 32767]) = (-1 # 65536)%Q.
Proof. split; reflexivity. Qed.

(** C2 as stated fails: at 7 Hz and a quarter of a second the product is
    1.75; the framer reads one sample, the specification rounds to two. *)
Lemma window_length_is_truncated :
  spec_window_length seven_quarter = Some 2
  /\ _read_window seven_quarter (silent_pipe 5) 100 0
     = (Return (Some one_silent_sample),
        Some {| exited := false; stdout := repeat Byte.x00 3 |})
  /\ List.length (samples one_silent_sample) = 1%nat.
Proof. repeat split. Qed.

(** ** Proofs: the reconnect loop *)

Lemma backoff_range (r mx d : Q) :
  (0 <= r)%Q -> in_delay_range r mx d -> in_delay_range r mx (backoff mx d).
Proof.
  unfold in_delay_range, backoff, qmin. intros Hr [Hlo Hhi].
  destruct (Qlt_le_dec mx (d * 2)); split; lra.
Qed.

Lemma delay_after_try_range (r mx d : Q) (a : attempt) :
  (r <= mx)%Q -> in_delay_range r mx d ->
  in_delay_range r mx (delay_after_try r d a).
Proof.
  unfold delay_after_try, in_delay_range. intros Hr Hd.
  destruct (spawn_ok a); [split; lra | exact Hd].
Qed.

Lemma reconnect_loop_range (r mx : Q) (turns : list attempt) :
  (0 <= r)%Q -> (r <= mx)%Q ->
  forall d, in_delay_range r mx d ->
  Forall (in_delay_range r mx) (reconnect_loop r mx d turns).
Proof.
  intros Hr Hmx. induction turns as [|a turns IH]; intros d Hd; simpl.
  - constructor.
  - destruct (still_running a); [|constructor].
    pose proof (delay_after_try_range r mx d a Hmx Hd) as Hd'.
    constructor; [exact Hd'|]. apply IH. now apply backoff_range.
Qed.

Lemma reconnect_loop_next (r mx : Q) (turns : list attempt) :
  forall d i a,
    (S i < List.length (reconnect_loop r mx d turns))%nat ->
    nth_error turns (S i) = Some a ->
    nth (S i) (reconnect_loop r mx d turns) 0%Q
    = delay_after_try r
        (backoff mx (nth i (reconnect_loop r mx d turns) 0%Q)) a.
Proof.
  induction turns as [|a0 turns IH]; intros d i a Hlen Ha; simpl in *.
  - lia.
  - destruct (still_running a0); simpl in *; [|lia].
    destruct turns as [|a1 turns']; [destruct i; discriminate|].
    destruct i as [|i].
    + simpl in Ha. injection Ha as ->. simpl in *.
      destruct (still_running a); simpl in *; [reflexivity|lia].
    + apply IH; [lia | exact Ha].
Qed.

Lemma reconnect_loop_failures (r mx : Q) (n : nat) :
  forall d k, (k < n)%nat ->
  nth k (reconnect_loop r mx d (repeat failed_spawn n)) 0%Q
  = nth_backoff d mx k.
Proof.
  induction n as [|n IH]; intros d k Hk; [lia|].
  simpl. destruct k as [|k]; [reflexivity|].
  rewrite IH by lia. clear. revert d.
  induction k as [|k IHk]; intros d; simpl; [reflexivity|].
  now rewrite IHk.
Qed.

Lemma nth_backoff_closed (r mx : Q) (k : nat) :
  (0 <= r)%Q -> (r <= mx)%Q ->
  (nth_backoff r mx k == qmin (r * inject_Z (2 ^ Z.of_nat k)) mx)%Q.
Proof.
  intros Hr Hmx. induction k as [|k IH].
  - simpl. unfold qmin. destruct (Qlt_le_dec mx (r * inject_Z 1)).
    + change (inject_Z 1) with 1%Q in q. lra.
    + change (inject_Z 1) with 1%Q. lra.
  - cbn [nth_backoff]. rewrite Nat2Z.inj_succ, Z.pow_succ_r by lia.
    rewrite inject_Z_mult. change (inject_Z 2) with 2%Q.
    assert (Hp : (0 <= inject_Z (2 ^ Z.of_nat k))%Q).
    { change 0%Q with (inject_Z 0). rewrite <- Zle_Qle.
      apply Z.pow_nonneg. lia. }
    pose proof (Qmult_le_0_compat _ _ Hr Hp) as HP.
    assert (Heq : (r * (2 * inject_Z (2 ^ Z.of_nat k))
                   == r * inject_Z (2 ^ Z.of_nat k) * 2)%Q) by ring.
    revert IH HP Heq.
    generalize (r * inject_Z (2 ^ Z.of_nat k))%Q as P.
    generalize (r * (2 * inject_Z (2 ^ Z.of_nat k)))%Q as P2.
    generalize (nth_backoff r mx k) as x.
    intros x P2 P IH HP Heq. unfold backoff, qmin in *.
    destruct (Qlt_le_dec mx P), (Qlt_le_dec mx (x * 2)),
      (Qlt_le_dec mx P2); lra.
Qed.




(** ** The inner loop of [stream_windows]

    Lines 133-138: windows are read and yielded until [_read_window] gives
    [None] or raises (the outer [try] catches it), or the consumer stops
    the reader.  [reads] holds, for each read made while [_running] is
    true, how many bytes that read can get and the clock. *)
Fixpoint stream_windows_inner (config : StreamConfig) (proc : option process)
  (reads : list (nat * Z)) : list AudioWindow * option process :=
  match reads with
  | [] => ([], proc)
  | (avail, now) :: rest =>
      match _read_window config proc avail now with
      | (Return (Some window), proc') =>
          let '(windows, proc'') := stream_windows_inner config proc' rest in
          (window :: windows, proc'')
      | (_, proc') => ([], proc')
      end
  end.

(** The [i]-th run of [n] bytes of the decoder's output. *)
Definition frame (n i : nat) (pipe : list Byte.byte) : list Byte.byte :=
  firstn n (skipn (i * n) pipe).

(** A decoder with one stereo window in its pipe, and three reads of
    which the second gets three bytes only. *)
Definition loud_process : process :=
  {| exited := false;
     stdout := [Byte.x00; Byte.x80; Byte.xff; Byte.x7f;
                Byte.x00; Byte.x80; Byte.x00; Byte.x80] |}.

Definition short_second_read : list (nat * Z) :=
  [(8%nat, 10); (3%nat, 11); (8%nat, 12)].

(** The default stream of config.py with five seconds of silence in the
    pipe, and reads that get 65536 bytes each. *)
Definition f_5 : pyfloat := S754_finite false 5629499534213120 (-50).

Definition default_stream : StreamConfig :=
  {| name := "cam"; url := "rtsp://cam"; sample_rate := 48000;
     window_size_seconds := f_5; channels := 1 |}.

Definition five_seconds_of_silence : process :=
  {| exited := false; stdout := repeat Byte.x00 (Z.to_nat 480000) |}.

Definition pipe_sized_reads : list (nat * Z) :=
  [(Z.to_nat 65536, 0); (Z.to_nat 65536, 1)].

Definition second_silent_sample : AudioWindow :=
  {| samples := [0 # 32768]%Q; timestamp := 11; stream_name := "cam";
     window_sample_rate := 7; duration_seconds := f_0_25 |}.

(** One successful [_read_window] takes the first [bytes_needed] bytes off
    the pipe, and the window is the one read from those bytes alone. *)
Lemma read_window_frame (config : StreamConfig) (p : process)
  (proc' : option process) (avail : nat) (now spw : Z) (w : AudioWindow) :
  samples_per_window config = Return spw ->
  0 <= spw * channels config * 2 ->
  _read_window config (Some p) avail now = (Return (Some w), proc') ->
  let n := Z.to_nat (spw * channels config * 2) in
  proc' = Some {| exited := false; stdout := skipn n (stdout p) |}
  /\ (n <= List.length (stdout p))%nat
  /\ (n <= avail)%nat
  /\ timestamp w = now
  /\ _read_window config
       (Some {| exited := false; stdout := firstn n (stdout p) |}) n now
     = (Return (Some w), Some {| exited := false; stdout := [] |}).
Proof.
  intros Hspw Hbn H n. unfold _read_window in *.
  destruct (exited p) eqn:Ex; [discriminate|].
  cbn [exited stdout]. rewrite Hspw in *. cbv zeta in *.
  unfold read in *.
  destruct (Z.ltb_spec (spw * channels config * 2) 0) as [|_]; [lia|].
  fold n in H |- *.
  destruct (Z.ltb_spec
              (Z.of_nat (List.length (firstn (Nat.min n avail) (stdout p))))
              (spw * channels config * 2)) as [|Hfull]; [discriminate|].
  rewrite length_firstn in Hfull.
  assert (Hk : Nat.min n avail = n) by lia.
  assert (Hlen : (n <= List.length (stdout p))%nat) by lia.
  rewrite Hk in H. rewrite Nat.min_id.
  rewrite firstn_firstn, Nat.min_id.
  rewrite (skipn_all2 (firstn n (stdout p)))
    by (rewrite length_firstn; lia).
  destruct (Z.ltb_spec (Z.of_nat (List.length (firstn n (stdout p))))
              (spw * channels config * 2)) as [Hshort|_].
  { rewrite length_firstn in Hshort. lia. }
  injection H as H Hp. subst proc'.
  split; [reflexivity|]. split; [exact Hlen|]. split; [lia|].
  destruct (frombuffer_int16 (firstn n (stdout p))) as [zs|];
    cbn [bind] in *; [|discriminate].
  destruct (if 1 <? channels config
            then to_mono (channels config) (normalize zs)
            else Return (normalize zs)) as [mono|];
    cbn [bind] in *; [|discriminate].
  injection H as <-. split; reflexivity.
Qed.

(** X6. Windows are consecutive frames of the decoder's output: the [i]-th
    window that one connection yields is the window read from the bytes [i *
    bytes_needed] to [(i + 1) * bytes_needed] of the stream, so no sample is
    skipped or used twice between windows. *)
Theorem windows_are_consecutive_frames (config : StreamConfig) (p : process)
  (reads : list (nat * Z)) (spw : Z) (i : nat) (w : AudioWindow) :
  samples_per_window config = Return spw ->
  0 <= spw * channels config * 2 ->
  nth_error (fst (stream_windows_inner config (Some p) reads)) i = Some w ->
  List.length (frame (Z.to_nat (spw * channels config * 2)) i (stdout p))
  = Z.to_nat (spw * channels config * 2)
  /\ _read_window config
       (Some {| exited := false;
                stdout := frame (Z.to_nat (spw * channels config * 2)) i
                            (stdout p) |})
       (Z.to_nat (spw * channels config * 2)) (timestamp w)
     = (Return (Some w), Some {| exited := false; stdout := [] |}).
Proof.
  intros Hspw Hbn. set (n := Z.to_nat (spw * channels config * 2)).
  revert p i. induction reads as [|[avail now] reads IH]; intros p i Hw.
  - destruct i; discriminate.
  - cbn [stream_windows_inner] in Hw.
    destruct (_read_window config (Some p) avail now) as [[[w0|]|] proc']
      eqn:E; try (destruct i; discriminate).
    destruct (read_window_frame config p proc' avail now spw w0 Hspw Hbn E)
      as [Hp [Hlen [_ [Hts Hframe]]]]. fold n in Hp, Hlen, Hframe.
    subst proc'.
    destruct (stream_windows_inner config
                (Some {| exited := false; stdout := skipn n (stdout p) |})
                reads) as [ws p''] eqn:Erest.
    destruct i as [|i].
    + injection Hw as <-. unfold frame. rewrite Nat.mul_0_l, skipn_O.
      split; [rewrite length_firstn; lia|]. rewrite Hts. exact Hframe.
    + specialize (IH {| exited := false; stdout := skipn n (stdout p) |} i).
      rewrite Erest in IH. specialize (IH Hw). cbn [stdout] in IH.
      unfold frame in *. rewrite skipn_skipn in IH.
      replace (S i * n)%nat with (i * n + n)%nat by lia. exact IH.
Qed.

Lemma windows_are_consecutive_frames_witness :
  List.length (frame (Z.to_nat (1 * channels seven_quarter * 2)) 1
                 (repeat Byte.x00 5))
  = Z.to_nat (1 * channels seven_quarter * 2)
  /\ _read_window seven_quarter
       (Some {| exited := false;
                stdout := frame (Z.to_nat (1 * channels seven_quarter * 2)) 1
                            (repeat Byte.x00 5) |})
       (Z.to_nat (1 * channels seven_quarter * 2))
       (timestamp second_silent_sample)
     = (Return (Some second_silent_sample),
        Some {| exited := false; stdout := [] |}).
Proof.
  apply (windows_are_consecutive_frames seven_quarter
           {| exited := false; stdout := repeat Byte.x00 5 |}
           [(100%nat, 10); (100%nat, 11); (100%nat, 12)] 1 1
           second_silent_sample).
  - reflexivity.
  - simpl. lia.
  - reflexivity.
Defined.

(** X7. One connection yields no more windows than the decoder's output
    holds whole frames, and it ends at the first read that comes back short
    of a frame, which a read on the unbuffered pipe may do while the decoder
    is still running. *)
Theorem short_read_ends_connection (config : StreamConfig) (p : process)
  (reads : list (nat * Z)) (spw : Z) :
  samples_per_window config = Return spw ->
  0 <= spw * channels config * 2 ->
  (List.length (fst (stream_windows_inner config (Some p) reads))
   * Z.to_nat (spw * channels config * 2)
   <= List.length (stdout p))%nat
  /\ forall i avail now,
       nth_error reads i = Some (avail, now) ->
       (avail < Z.to_nat (spw * channels config * 2))%nat ->
       (List.length (fst (stream_windows_inner config (Some p) reads)) <= i)%nat.
Proof.
  intros Hspw Hbn. set (n := Z.to_nat (spw * channels config * 2)).
  revert p. induction reads as [|[avail now] reads IH]; intros p.
  - split; [simpl; lia|]. intros [|i]; discriminate.
  - cbn [stream_windows_inner].
    destruct (_read_window config (Some p) avail now) as [[[w0|]|] proc']
      eqn:E; try (split; [simpl; lia | intros; simpl; lia]).
    destruct (read_window_frame config p proc' avail now spw w0 Hspw Hbn E)
      as [Hp [Hlen [Havail _]]]. fold n in Hp, Hlen, Havail. subst proc'.
    destruct (IH {| exited := false; stdout := skipn n (stdout p) |})
      as [IH1 IH2].
    destruct (stream_windows_inner config
                (Some {| exited := false; stdout := skipn n (stdout p) |})
                reads) as [ws p''].
    cbn [fst stdout List.length] in *. rewrite length_skipn in IH1. split.
    + lia.
    + intros [|i] avail' now' Hi Hshort.
      * injection Hi as -> ->. lia.
      * apply le_n_S. exact (IH2 i avail' now' Hi Hshort).
Qed.

(** The default stream, 48000 Hz and 5.0 s in one channel, asks for 480000
    bytes per window.  When a read hands over 65536 bytes, the connection
    yields no window although the pipe holds a whole one. *)
Lemma short_read_ends_connection_witness :
  fst (stream_windows_inner default_stream (Some five_seconds_of_silence)
         pipe_sized_reads) = [].
Proof.
  destruct (short_read_ends_connection default_stream five_seconds_of_silence
              pipe_sized_reads 240000) as [_ H].
  - reflexivity.
  - simpl. lia.
  - specialize (H 0%nat (Z.to_nat 65536) 0 eq_refl).
    change (channels default_stream) with 1 in H.
    destruct (fst (stream_windows_inner default_stream
                     (Some five_seconds_of_silence) pipe_sized_reads))
      as [|w ws]; [reflexivity|].
    cbn [List.length] in H. lia.
Defined.

(** A configuration that [__post_init__] accepts and whose window is
    shorter than one sample: [int(1 * 0.25) = 0]. *)
Definition sub_sample_window : StreamConfig :=
  {| name := "cam"; url := "rtsp://cam"; sample_rate := 1;
     window_size_seconds := f_0_25; channels := 2 |}.

Definition empty_window (config : StreamConfig) (now : Z) : AudioWindow :=
  {| samples := []; timestamp := now; stream_name := name config;
     window_sample_rate := sample_rate config;
     duration_seconds := window_size_seconds config |}.

(** X8. A window shorter than one sample never ends a connection: when
    [int(sample_rate * window_size_seconds)] is 0, which [__post_init__]
    does not exclude, every read of a running decoder yields a window
    without samples and takes nothing from the pipe, whatever the pipe holds
    and however many channels there are. *)
Theorem zero_length_windows (config : StreamConfig) (p : process)
  (reads : list (nat * Z)) :
  samples_per_window config = Return 0 ->
  exited p = false ->
  stream_windows_inner config (Some p) reads
  = (map (fun r => empty_window config (snd r)) reads, Some p).
Proof.
  intros Hspw Hrun.
  assert (Hone : forall avail now,
            _read_window config (Some p) avail now
            = (Return (Some (empty_window config now)), Some p)).
  { intros avail now. unfold _read_window. rewrite Hrun, Hspw.
    cbv zeta. rewrite !Z.mul_0_l. unfold read.
    cbn [Z.ltb Z.compare Z.to_nat Nat.min firstn skipn List.length Z.of_nat].
    cbn [frombuffer_int16 bind normalize map].
    destruct p as [ex out]. cbn [exited stdout] in *. subst ex.
    destruct (1 <? channels config); [|reflexivity].
    unfold to_mono. cbn [List.length Z.of_nat].
    rewrite Zmod_0_l, Zdiv_0_l. cbn [Z.eqb Z.to_nat mean_rows bind].
    reflexivity. }
  induction reads as [|[avail now] reads IH]; [reflexivity|].
  cbn [stream_windows_inner map snd]. rewrite Hone, IH. reflexivity.
Qed.

Lemma zero_length_windows_witness :
  post_init_ok sub_sample_window = true
  /\ stream_windows_inner sub_sample_window loud_pipe short_second_read
     = (map (fun r => empty_window sub_sample_window (snd r))
          short_second_read,
        loud_pipe).
Proof.
  split; [reflexivity|].
  apply (zero_length_windows sub_sample_window loud_process
           short_second_read); reflexivity.
Defined.

End Reader.

(* ================================================================== *)
(** * sqlite_log.py *)
(* ================================================================== *)

Module SQLiteLog.
Import PyFloat Py.
Local Open Scope py_scope.

(** What a column of TEXT affinity holds: a text is stored as it is, a
    number as its text form ([5] and [True] come back as ['5'] and ['1']).
    [RealText f] stands for the text that SQLite renders the REAL [f] as
    (['1.5'] for [1.5]). *)
Inductive sql_text : Type :=
  | Text (s : string)
  | RealText (f : pyfloat).

(** The two tables.  [start_time] and [end_time] may be NULL ([None]). *)
Record window_row : Type := {
  win_id : Z;
  win_timestamp : string;
  win_site_id : string;
  win_stream_name : string;
  win_rms_total_db : pyfloat;
  win_rms_bird_band_db : pyfloat;
  win_rms_low_band_db : pyfloat;
  win_snr_bird_db : pyfloat;
  win_decision : string;
  win_reason : string
}.

Record detection_row : Type := {
  det_id : Z;
  det_window_id : Z;
  det_species : sql_text;
  det_confidence : pyfloat;
  det_start_time : option pyfloat;
  det_end_time : option pyfloat
}.

(** The database file: the rows of both tables and the AUTOINCREMENT
    counters that SQLite keeps in [sqlite_sequence]. *)
Record database : Type := {
  windows : list window_row;
  detections : list detection_row;
  seq_windows : Z;
  seq_detections : Z
}.

Definition empty_database : database :=
  {| windows := []; detections := []; seq_windows := 0; seq_detections := 0 |}.

(** What the outside world does to one use of [_connection]: [connect],
    each [execute] (numbered from 0) and [commit] may raise, for instance
    on a locked or unwritable file. *)
Record sql_env : Type := {
  connect_error : option exn;
  execute_error : nat -> option exn;
  commit_error : option exn
}.

(** An open connection: the rows as the transaction sees them, and the
    number of statements executed so far. *)
Record connection : Type := {
  working : database;
  executed : nat
}.

(** What a REAL column gives back for a number: [-0.0] comes back as
    [0.0]. *)
Definition stored_real (x : pyfloat) : pyfloat :=
  match x with
  | S754_zero _ => S754_zero false
  | _ => x
  end.

(** SQLite stores a NaN as NULL. *)
Definition sql_real (x : pyfloat) : option pyfloat :=
  if is_nan x then None else Some (stored_real x).

(** A Python object stored in a TEXT column.  (The objects in the last
    line cannot be bound to a [NOT NULL] column and are never stored.) *)
Definition text_affinity (v : value) : sql_text :=
  match v with
  | VStr s => Text s
  | VInt n => Text (NilZero.string_of_int (Z.to_int n))
  | VBool b => Text (if b then "1" else "0")
  | VFloat f => RealText f
  | VNone | VList _ | VDict _ => Text EmptyString
  end.

(** A Python object bound to a [NOT NULL] column: [None] violates the
    constraint, lists and dicts cannot be bound, integers must fit 64
    bits. *)
Definition bindable_not_null (v : value) : bool :=
  match v with
  | VNone | VList _ | VDict _ => false
  | VFloat f => negb (is_nan f)
  | VInt n => (- 2 ^ 63 <=? n) && (n <? 2 ^ 63)
  | VBool _ | VStr _ => true
  end.

Definition decision_value (d : Gate.GateDecision) : string :=
  match d with
  | Gate.SILENCE => "SILENCE"
  | Gate.TRASH => "TRASH"
  | Gate.SEND_TO_BIRDNET => "SEND_TO_BIRDNET"
  end.

(** The row that [INSERT INTO windows] adds. *)
Definition window_to_row (id : Z) (site_id timestamp stream_name : string)
  (features : Gate.AudioFeatures) (decision : Gate.GateDecision)
  (reason : string) : window_row :=
  {| win_id := id; win_timestamp := timestamp;
     win_site_id := site_id; win_stream_name := stream_name;
     win_rms_total_db := stored_real (Gate.rms_total_db features);
     win_rms_bird_band_db := stored_real (Gate.rms_bird_band_db features);
     win_rms_low_band_db := stored_real (Gate.rms_low_band_db features);
     win_snr_bird_db := stored_real (Gate.snr_bird_db features);
     win_decision := decision_value decision;
     win_reason := reason |}.

(** [conn.execute("INSERT INTO windows ...")], giving [cursor.lastrowid].
    The four feature columns are [REAL NOT NULL]. *)
Definition insert_window (env : sql_env) (site_id timestamp stream_name : string)
  (features : Gate.AudioFeatures) (decision : Gate.GateDecision)
  (reason : string) (conn : connection) : outcome (Z * connection) :=
  match execute_error env (executed conn) with
  | Some e => Raise e
  | None =>
      if is_nan (Gate.rms_total_db features)
         || is_nan (Gate.rms_bird_band_db features)
         || is_nan (Gate.rms_low_band_db features)
         || is_nan (Gate.snr_bird_db features)
      then Raise SqliteError
      else
        let db := working conn in
        let id := seq_windows db + 1 in
        Return (id,
                {| working :=
                     {| windows :=
                          windows db
                          ++ [window_to_row id site_id timestamp stream_name
                                features decision reason];
                        detections := detections db;
                        seq_windows := id;
                        seq_detections := seq_detections db |};
                   executed := S (executed conn) |})
  end.

(** The row that [INSERT INTO detections] adds for one [Detection]. *)
Definition detection_to_row (id window_id : Z) (d : BirdNET.Detection)
  : detection_row :=
  {| det_id := id; det_window_id := window_id;
     det_species := text_affinity (BirdNET.species d);
     det_confidence := stored_real (BirdNET.confidence d);
     det_start_time := sql_real (BirdNET.start_time d);
     det_end_time := sql_real (BirdNET.end_time d) |}.

(** [conn.execute("INSERT INTO detections ...")]: [species] and
    [confidence] are [NOT NULL]. *)
Definition insert_detection (env : sql_env) (window_id : Z)
  (d : BirdNET.Detection) (conn : connection) : outcome connection :=
  match execute_error env (executed conn) with
  | Some e => Raise e
  | None =>
      if bindable_not_null (BirdNET.species d)
         && negb (is_nan (BirdNET.confidence d))
      then
        let db := working conn in
        let id := seq_detections db + 1 in
        Return {| working :=
                    {| windows := windows db;
                       detections :=
                         detections db ++ [detection_to_row id window_id d];
                       seq_windows := seq_windows db;
                       seq_detections := id |};
                  executed := S (executed conn) |}
      else Raise SqliteError
  end.

(** The [for detection in detections] loop of [log_window]. *)
Fixpoint insert_detections (env : sql_env) (window_id : Z)
  (ds : list BirdNET.Detection) (conn : connection) : outcome connection :=
  match ds with
  | [] => Return conn
  | d :: rest =>
      conn' <- insert_detection env window_id d conn ;;
      insert_detections env window_id rest conn'
  end.

(** [_connection]: connect, run the body of the [with] block, then commit;
    on any exception roll back and raise it again; close in every case.
    The first component is what the [with] statement gives its caller, the
    second the database file afterwards. *)
Definition _connection {A : Type} (env : sql_env) (db : database)
  (body : connection -> outcome (A * connection)) : outcome A * database :=
  match connect_error env with
  | Some e => (Raise e, db)
  | None =>
      match body {| working := db; executed := 0 |} with
      | Return (a, conn) =>
          match commit_error env with
          | None => (Return a, working conn)
          | Some e => (Raise e, db)
          end
      | Raise e => (Raise e, db)
      end
  end.

(** [if detections:] is false for [None] and for the empty list. *)
Definition log_window (env : sql_env) (site_id : string) (db : database)
  (timestamp stream_name : string) (features : Gate.AudioFeatures)
  (decision : Gate.GateDecision) (reason : string)
  (detections : option (list BirdNET.Detection)) : outcome Z * database :=
  _connection env db (fun conn =>
    r <- insert_window env site_id timestamp stream_name features decision
           reason conn ;;
    let '(window_id, conn) := r in
    conn <- match detections with
            | Some (d :: ds) => insert_detections env window_id (d :: ds) conn
            | _ => Return conn
            end ;;
    Return (window_id, conn)).

(** [SELECT * FROM detections WHERE window_id = ? ORDER BY confidence DESC].
    SQL leaves the order of rows of equal confidence open: [scan] is the
    order in which the engine visits the rows of the window. *)
Definition select_detections (scan : list detection_row -> list detection_row)
  (window_id : Z) (db : database) : list detection_row :=
  sort_desc det_confidence
    (scan (filter (fun r => det_window_id r =? window_id) (detections db))).

Definition get_detections_for_window (env : sql_env)
  (scan : list detection_row -> list detection_row) (db : database)
  (window_id : Z) : outcome (list detection_row) * database :=
  _connection env db (fun conn =>
    match execute_error env (executed conn) with
    | Some e => Raise e
    | None =>
        Return (select_detections scan window_id (working conn),
                {| working := working conn; executed := S (executed conn) |})
    end).

(** Databases that the storage class can produce: it starts from an empty
    file and only [log_window] writes. *)
Inductive reachable : database -> Prop :=
  | reach_empty : reachable empty_database
  | reach_log env site db ts sn f dec reason dets :
      reachable db ->
      reachable (snd (log_window env site db ts sn f dec reason dets)).

(** The detection rows that one [log_window] call adds, numbered after
    [last_id]. *)
Fixpoint rows_from (last_id window_id : Z) (ds : list BirdNET.Detection)
  : list detection_row :=
  match ds with
  | [] => []
  | d :: rest =>
      detection_to_row (last_id + 1) window_id d
        :: rows_from (last_id + 1) window_id rest
  end.

Definition or_empty {A : Type} (o : option (list A)) : list A :=
  match o with Some l => l | None => [] end.

(** Concrete inputs for the examples. *)
Definition no_faults : sql_env :=
  {| connect_error := None; execute_error := fun _ => None;
     commit_error := None |}.

(** The third statement of a connection fails: in [log_window] that is the
    insert of the second detection. *)
Definition third_execute_fails : sql_env :=
  {| connect_error := None;
     execute_error := fun k => if Nat.eqb k 2 then Some SqliteError else None;
     commit_error := None |}.

Definition loud_features : Gate.AudioFeatures :=
  {| Gate.rms_total_db := f_m10; Gate.rms_bird_band_db := f_m10;
     Gate.rms_low_band_db := f_m60; Gate.snr_bird_db := f_20 |}.

Definition rising_detections : list BirdNET.Detection :=
  [ {| BirdNET.species := VStr "a"; BirdNET.confidence := f_0_3;
       BirdNET.start_time := f_zero; BirdNET.end_time := f_3 |};
    {| BirdNET.species := VStr "b"; BirdNET.confidence := f_0_9;
       BirdNET.start_time := f_zero; BirdNET.end_time := f_3 |} ].

(** Detections whose fields are not stored as given: a species that is
    the number [5], a start time of [-0.0]. *)
Definition odd_detections : list BirdNET.Detection :=
  [ {| BirdNET.species := VInt 5; BirdNET.confidence := f_0_3;
       BirdNET.start_time := S754_zero true; BirdNET.end_time := f_3 |};
    {| BirdNET.species := VStr "b"; BirdNET.confidence := f_0_9;
       BirdNET.start_time := f_zero; BirdNET.end_time := f_3 |} ].

(** ** Proofs *)

Lemma insert_detections_spec env window_id ds :
  forall conn conn',
    insert_detections env window_id ds conn = Return conn' ->
    windows (working conn') = windows (working conn)
    /\ seq_windows (working conn') = seq_windows (working conn)
    /\ detections (working conn')
       = detections (working conn)
         ++ rows_from (seq_detections (working conn)) window_id ds
    /\ Forall (fun d => is_nan (BirdNET.confidence d) = false) ds.
Proof.
  induction ds as [|d ds IH]; intros conn conn' H; simpl in H.
  - injection H as <-. simpl. rewrite app_nil_r. auto.
  - destruct (insert_detection env window_id d conn) as [c1|] eqn:E1;
      simpl in H; [|discriminate].
    unfold insert_detection in E1.
    destruct (execute_error env (executed conn)); [discriminate|].
    destruct (bindable_not_null (BirdNET.species d)
              && negb (is_nan (BirdNET.confidence d))) eqn:Eok;
      [|discriminate].
    injection E1 as <-.
    apply andb_prop in Eok. destruct Eok as [_ Hnan].
    apply negb_true_iff in Hnan.
    destruct (IH _ _ H) as [Hw [Hs [Hd Hf]]]. simpl in *.
    split; [exact Hw|]. split; [exact Hs|]. split.
    + rewrite Hd, <- app_assoc. reflexivity.
    + now constructor.
Qed.

(** C5. [log_window] on the SQLite back end is atomic: when it returns an
    id, the database holds the new window row and one detection row per
    detection, all carrying that id, after the old rows; when it raises,
    whichever step failed (connect, an insert, the commit), the database
    is what it was before the call. *)
Theorem log_window_atomic (env : sql_env) (site_id : string) (db : database)
  (timestamp stream_name : string) (features : Gate.AudioFeatures)
  (decision : Gate.GateDecision) (reason : string)
  (dets : option (list BirdNET.Detection)) :
  match log_window env site_id db timestamp stream_name features decision
          reason dets with
  | (Return id, db') =>
      windows db'
      = windows db
        ++ [window_to_row id site_id timestamp stream_name features decision
              reason]
      /\ detections db'
         = detections db ++ rows_from (seq_detections db) id (or_empty dets)
  | (Raise e, db') => db' = db
  end.
Proof.
  unfold log_window, _connection.
  destruct (connect_error env); [reflexivity|].
  unfold insert_window. simpl.
  destruct (execute_error env 0); simpl; [reflexivity|].
  destruct (is_nan (Gate.rms_total_db features)
            || is_nan (Gate.rms_bird_band_db features)
            || is_nan (Gate.rms_low_band_db features)
            || is_nan (Gate.snr_bird_db features)); simpl; [reflexivity|].
  destruct dets as [[|d ds]|]; simpl.
  - destruct (commit_error env); [reflexivity|]. simpl.
    rewrite app_nil_r. auto.
  - match goal with
    | |- context [bind ?m _] => destruct m as [conn'|] eqn:E
    end; simpl; [|reflexivity].
    destruct (commit_error env); [reflexivity|].
    apply (insert_detections_spec env _ (d :: ds)) in E.
    destruct E as [Hw [_ [Hd _]]]. simpl in *. auto.
  - destruct (commit_error env); [reflexivity|]. simpl.
    rewrite app_nil_r. auto.
Qed.

Lemma stored_real_nan (x : pyfloat) : is_nan (stored_real x) = is_nan x.
Proof. now destruct x. Qed.

(** [-0.0] and [0.0] compare alike. *)
Lemma stored_real_fge (x y : pyfloat) : fge (stored_real x) y = fge x y.
Proof. destruct x as [[]| | |], y as [[]| | |]; reflexivity. Qed.

Lemma rows_from_no_nan (window_id : Z) (ds : list BirdNET.Detection) :
  Forall (fun d => is_nan (BirdNET.confidence d) = false) ds ->
  forall last_id,
    Forall (fun r => is_nan (det_confidence r) = false)
      (rows_from last_id window_id ds).
Proof.
  induction 1 as [|d ds Hd _ IH]; intros last_id; cbn [rows_from];
    constructor.
  - cbn [det_confidence detection_to_row]. now rewrite stored_real_nan.
  - apply IH.
Qed.

(** A window whose second detection cannot be inserted leaves no row
    behind, not even its window row and its first detection. *)
Example log_window_rolls_back :
  log_window third_execute_fails "site" empty_database "t0" "cam"
    loud_features Gate.SEND_TO_BIRDNET "r" (Some rising_detections)
  = (Raise SqliteError, empty_database).
Proof. reflexivity. Qed.

Lemma log_window_no_nan env site db ts sn f dec reason dets :
  Forall (fun r => is_nan (det_confidence r) = false) (detections db) ->
  Forall (fun r => is_nan (det_confidence r) = false)
    (detections (snd (log_window env site db ts sn f dec reason dets))).
Proof.
  intros Hdb. unfold log_window, _connection.
  destruct (connect_error env); [exact Hdb|].
  unfold insert_window. simpl.
  destruct (execute_error env 0); simpl; [exact Hdb|].
  destruct (_ || _); simpl; [exact Hdb|].
  destruct dets as [[|d ds]|]; simpl;
    try (destruct (commit_error env); exact Hdb).
  match goal with
  | |- context [bind ?m _] => destruct m as [conn'|] eqn:E
  end; simpl; [|exact Hdb].
  destruct (commit_error env); [exact Hdb|]. simpl.
  apply (insert_detections_spec env _ (d :: ds)) in E.
  destruct E as [_ [_ [Hd Hf]]]. simpl in Hd. rewrite Hd.
  apply Forall_app. split; [exact Hdb|].
  apply (rows_from_no_nan (seq_windows db + 1) (d :: ds) Hf (seq_detections db)).
Qed.

Lemma reachable_no_nan (db : database) :
  reachable db ->
  Forall (fun r => is_nan (det_confidence r) = false) (detections db).
Proof.
  induction 1; [constructor | now apply log_window_no_nan].
Qed.

(** The SQLite half of C8: on a database written by [log_window], the
    detections of a window come back sorted by confidence, largest first,
    in whatever order the engine visits them; they are the stored rows of
    that window, and reading changes nothing. *)
Theorem sqlite_detections_sorted (env : sql_env)
  (scan : list detection_row -> list detection_row) (db : database)
  (window_id : Z) :
  (forall l, Permutation (scan l) l) ->
  reachable db ->
  match get_detections_for_window env scan db window_id with
  | (Return rows, db') =>
      sorted_desc det_confidence rows
      /\ Permutation rows
           (filter (fun r => det_window_id r =? window_id) (detections db))
      /\ db' = db
  | (Raise e, db') => db' = db
  end.
Proof.
  intros Hscan Hr. unfold get_detections_for_window, _connection.
  destruct (connect_error env); [reflexivity|]. cbn [working executed].
  destruct (execute_error env 0); [reflexivity|].
  destruct (commit_error env); [reflexivity|]. cbn [working].
  unfold select_detections. repeat split.
  - apply sort_desc_sorted. apply Forall_forall. intros r Hin.
    apply (Permutation_in _ (Hscan _)) in Hin.
    apply filter_In in Hin. destruct Hin as [Hin _].
    pose proof (reachable_no_nan db Hr) as Hn.
    rewrite Forall_forall in Hn. now apply Hn.
  - rewrite <- (Hscan (filter _ (detections db))) at 2.
    apply Permutation_sym, sort_desc_perm.
Qed.

Lemma sqlite_detections_sorted_witness :
  match get_detections_for_window no_faults (@rev detection_row)
          (snd (log_window no_faults "site" empty_database "t0" "cam"
                  loud_features Gate.SEND_TO_BIRDNET "r"
                  (Some rising_detections))) 1 with
  | (Return rows, _) => map det_confidence rows = [f_0_9; f_0_3]
  | (Raise _, _) => False
  end
  /\ match get_detections_for_window no_faults (@rev detection_row)
            (snd (log_window no_faults "site" empty_database "t0" "cam"
                    loud_features Gate.SEND_TO_BIRDNET "r"
                    (Some rising_detections))) 1 with
     | (Return rows, db') =>
         sorted_desc det_confidence rows
         /\ Permutation rows
              (filter (fun r => det_window_id r =? 1)
                 (detections
                    (snd (log_window no_faults "site" empty_database "t0"
                            "cam" loud_features Gate.SEND_TO_BIRDNET "r"
                            (Some rising_detections)))))
         /\ db' = snd (log_window no_faults "site" empty_database "t0" "cam"
                         loud_features Gate.SEND_TO_BIRDNET "r"
                         (Some rising_detections))
     | (Raise e, db') =>
         db' = snd (log_window no_faults "site" empty_database "t0" "cam"
                      loud_features Gate.SEND_TO_BIRDNET "r"
                      (Some rising_detections))
     end.
Proof.
  split; [reflexivity|].
  apply (sqlite_detections_sorted no_faults (@rev detection_row) _ 1).
  - intros l. apply Permutation_sym, Permutation_rev.
  - apply reach_log. apply reach_empty.
Defined.

(** ** Identifiers and the round trip *)

(** What a database written by [log_window] satisfies: the ids of both
    tables increase along the rows and stay within the AUTOINCREMENT
    counters, and every detection row carries the id of a stored window. *)
Record consistent (db : database) : Prop := {
  window_ids_increase : StronglySorted Z.lt (map win_id (windows db));
  window_ids_counted :
    Forall (fun w => win_id w <= seq_windows db) (windows db);
  detection_ids_increase : StronglySorted Z.lt (map det_id (detections db));
  detection_ids_counted :
    Forall (fun d => det_id d <= seq_detections db) (detections db);
  detections_have_windows :
    Forall (fun d => In (det_window_id d) (map win_id (windows db)))
      (detections db)
}.

Lemma insert_detections_seq env window_id ds :
  forall conn conn',
    insert_detections env window_id ds conn = Return conn' ->
    seq_detections (working conn')
    = seq_detections (working conn) + Z.of_nat (List.length ds).
Proof.
  induction ds as [|d ds IH]; intros conn conn' H; cbn [insert_detections] in H.
  - injection H as <-. simpl. lia.
  - destruct (insert_detection env window_id d conn) as [c1|] eqn:E1;
      cbn [bind] in H; [|discriminate].
    rewrite (IH _ _ H). unfold insert_detection in E1.
    destruct (execute_error env (executed conn)); [discriminate|].
    destruct (bindable_not_null (BirdNET.species d)
              && negb (is_nan (BirdNET.confidence d))); [|discriminate].
    injection E1 as <-. cbn [working seq_detections List.length]. lia.
Qed.

(** The two outcomes of [log_window], with the counters. *)
Lemma log_window_result env site db ts sn f dec reason dets :
  (exists e, log_window env site db ts sn f dec reason dets = (Raise e, db))
  \/ log_window env site db ts sn f dec reason dets
     = (Return (seq_windows db + 1),
        {| windows :=
             windows db
             ++ [window_to_row (seq_windows db + 1) site ts sn f dec reason];
           detections :=
             detections db
             ++ rows_from (seq_detections db) (seq_windows db + 1)
                  (or_empty dets);
           seq_windows := seq_windows db + 1;
           seq_detections :=
             seq_detections db + Z.of_nat (List.length (or_empty dets)) |}).
Proof.
  unfold log_window, _connection.
  destruct (connect_error env) as [e|]; [left; now exists e|].
  unfold insert_window. cbn [working executed].
  destruct (execute_error env 0) as [e|]; cbn [bind]; [left; now exists e|].
  destruct (is_nan (Gate.rms_total_db f) || is_nan (Gate.rms_bird_band_db f)
            || is_nan (Gate.rms_low_band_db f) || is_nan (Gate.snr_bird_db f));
    cbn [bind]; [left; now exists SqliteError|].
  destruct dets as [[|d ds]|]; cbn [bind or_empty rows_from List.length].
  - destruct (commit_error env) as [e|]; [left; now exists e|]. right.
    cbn [working]. rewrite app_nil_r, Z.add_0_r. reflexivity.
  - match goal with
    | |- context [bind ?m _] => destruct m as [conn'|e] eqn:E
    end; cbn [bind]; [|left; now exists e].
    destruct (commit_error env) as [e|]; [left; now exists e|]. right.
    pose proof (insert_detections_seq env _ (d :: ds) _ _ E) as Hseq.
    apply (insert_detections_spec env _ (d :: ds)) in E.
    destruct E as [Hw [Hs [Hd _]]].
    cbn [working windows detections seq_windows seq_detections] in *.
    destruct conn' as [[w' d' sw' sd'] n']. cbn in *. subst.
    reflexivity.
  - destruct (commit_error env) as [e|]; [left; now exists e|]. right.
    cbn [working]. rewrite app_nil_r, Z.add_0_r. reflexivity.
Qed.

Lemma rows_from_ids (window_id : Z) (ds : list BirdNET.Detection) :
  forall last_id,
    StronglySorted Z.lt (map det_id (rows_from last_id window_id ds))
    /\ Forall (fun d => last_id < det_id d
                        /\ det_id d <= last_id + Z.of_nat (List.length ds)
                        /\ det_window_id d = window_id)
         (rows_from last_id window_id ds).
Proof.
  induction ds as [|d ds IH]; intros last_id; cbn [rows_from map List.length].
  - split; constructor.
  - destruct (IH (last_id + 1)) as [Hs Hf]. split.
    + constructor; [exact Hs|]. rewrite Forall_map. revert Hf.
      apply Forall_impl. intros r [H _]. cbn [det_id detection_to_row]. lia.
    + constructor.
      * cbn [det_id det_window_id detection_to_row]. lia.
      * revert Hf. apply Forall_impl. intros r [H1 [H2 H3]]. lia.
Qed.

Lemma StronglySorted_app_lt (l1 l2 : list Z) (bound : Z) :
  StronglySorted Z.lt l1 -> StronglySorted Z.lt l2 ->
  Forall (fun x => x <= bound) l1 -> Forall (fun y => bound < y) l2 ->
  StronglySorted Z.lt (l1 ++ l2).
Proof.
  intros H1 H2 Hb1 Hb2. induction H1 as [|a l1 Hs IH Ha]; [exact H2|].
  inversion Hb1 as [|? ? Hab Hb1']; subst. cbn [app].
  constructor; [now apply IH|].
  apply Forall_app. split; [exact Ha|].
  revert Hb2. apply Forall_impl. intros y Hy. lia.
Qed.

Lemma log_window_consistent env site db ts sn f dec reason dets :
  consistent db ->
  consistent (snd (log_window env site db ts sn f dec reason dets)).
Proof.
  intros [Hw Hwc Hd Hdc Hfk].
  destruct (log_window_result env site db ts sn f dec reason dets)
    as [[e ->]| ->]; [now constructor|].
  destruct (rows_from_ids (seq_windows db + 1) (or_empty dets)
              (seq_detections db)) as [Hrs Hrf].
  constructor; cbn [snd windows detections seq_windows seq_detections].
  - rewrite map_app.
    apply StronglySorted_app_lt with (bound := seq_windows db).
    + exact Hw.
    + repeat constructor.
    + now rewrite Forall_map.
    + repeat constructor. cbn [win_id window_to_row]. lia.
  - apply Forall_app. split.
    + revert Hwc. apply Forall_impl. intros w H. lia.
    + repeat constructor. cbn [win_id window_to_row]. lia.
  - rewrite map_app.
    apply StronglySorted_app_lt with (bound := seq_detections db).
    + exact Hd.
    + exact Hrs.
    + now rewrite Forall_map.
    + rewrite Forall_map. revert Hrf. apply Forall_impl. intros r [H _].
      exact H.
  - apply Forall_app. split.
    + revert Hdc. apply Forall_impl. intros d H. lia.
    + revert Hrf. apply Forall_impl. intros r [_ [H _]]. exact H.
  - apply Forall_app. split.
    + revert Hfk. apply Forall_impl. intros d H.
      rewrite map_app. apply in_or_app. now left.
    + revert Hrf. apply Forall_impl. intros r [_ [_ H]].
      rewrite map_app, H. apply in_or_app. right. now left.
Qed.

Lemma increasing_NoDup (l : list Z) : StronglySorted Z.lt l -> NoDup l.
Proof.
  induction 1 as [|a l _ IH Ha]; constructor; [|exact IH].
  intros Hin. rewrite Forall_forall in Ha. specialize (Ha a Hin). lia.
Qed.

Lemma reachable_consistent_aux (db : database) :
  reachable db -> consistent db.
Proof.
  induction 1 as [|env site db ts sn f dec reason dets _ IH].
  - constructor; cbn; constructor.
  - now apply log_window_consistent.
Qed.

(** X9. On every database that [log_window] calls have written, failed calls
    included, window ids and detection ids are distinct and increase in
    insertion order, and every detection row carries the id of a stored
    window row. *)
Theorem reachable_consistent (db : database) :
  reachable db ->
  consistent db
  /\ NoDup (map win_id (windows db))
  /\ NoDup (map det_id (detections db)).
Proof.
  intros Hr. pose proof (reachable_consistent_aux db Hr) as Hc.
  split; [exact Hc|]. destruct Hc as [Hw _ Hd _ _].
  split; apply increasing_NoDup; assumption.
Qed.

Lemma reachable_consistent_witness :
  consistent
    (snd (log_window no_faults "site" empty_database "t0" "cam"
            loud_features Gate.SEND_TO_BIRDNET "r" (Some rising_detections)))
  /\ NoDup
       (map win_id
          (windows
             (snd (log_window no_faults "site" empty_database "t0" "cam"
                     loud_features Gate.SEND_TO_BIRDNET "r"
                     (Some rising_detections)))))
  /\ NoDup
       (map det_id
          (detections
             (snd (log_window no_faults "site" empty_database "t0" "cam"
                     loud_features Gate.SEND_TO_BIRDNET "r"
                     (Some rising_detections))))).
Proof.
  apply (reachable_consistent
           (snd (log_window no_faults "site" empty_database "t0" "cam"
                   loud_features Gate.SEND_TO_BIRDNET "r"
                   (Some rising_detections)))).
  apply reach_log. apply reach_empty.
Defined.

Lemma filter_none {A : Type} (f : A -> bool) (l : list A) :
  Forall (fun x => f x = false) l -> filter f l = [].
Proof.
  induction 1 as [|x l Hx _ IH]; cbn [filter]; [reflexivity|].
  now rewrite Hx.
Qed.

Lemma filter_all {A : Type} (f : A -> bool) (l : list A) :
  Forall (fun x => f x = true) l -> filter f l = l.
Proof.
  induction 1 as [|x l Hx _ IH]; cbn [filter]; [reflexivity|].
  now rewrite Hx, IH.
Qed.

(** X10. Round trip: after a [log_window] that returned an id, on a
    database that only [log_window] has written, a read that meets no
    fault returns the rows of the detections just logged and no row of
    another window, largest confidence first, in whatever order the engine
    visits rows of equal confidence.  A row holds what the columns give
    back: the species as text, [-0.0] as [0.0], a NaN time as NULL. *)
Theorem sqlite_roundtrip (env env' : sql_env)
  (scan : list detection_row -> list detection_row) (site_id : string)
  (db db' : database) (timestamp stream_name : string)
  (features : Gate.AudioFeatures) (decision : Gate.GateDecision)
  (reason : string) (dets : option (list BirdNET.Detection)) (id : Z) :
  (forall l, Permutation (scan l) l) ->
  reachable db ->
  log_window env site_id db timestamp stream_name features decision reason dets
  = (Return id, db') ->
  connect_error env' = None -> execute_error env' 0%nat = None ->
  commit_error env' = None ->
  exists rows,
    get_detections_for_window env' scan db' id = (Return rows, db')
    /\ Permutation rows (rows_from (seq_detections db) id (or_empty dets))
    /\ sorted_desc det_confidence rows
    /\ map det_window_id rows = repeat id (List.length (or_empty dets)).
Proof.
  intros Hscan Hr Hlog Hc He Hm.
  pose proof (reachable_consistent_aux db Hr) as [_ Hwc _ _ Hfk].
  destruct (log_window_result env site_id db timestamp stream_name features
              decision reason dets) as [[e Hf]|Hok]; [congruence|].
  rewrite Hok in Hlog. injection Hlog as <- <-.
  unfold get_detections_for_window, _connection.
  rewrite Hc. cbn [working executed]. rewrite He, Hm.
  unfold select_detections. cbn [working detections].
  destruct (rows_from_ids (seq_windows db + 1) (or_empty dets)
              (seq_detections db)) as [_ Hrf].
  rewrite filter_app, filter_none, filter_all.
  - cbn [app]. eexists. split; [reflexivity|].
    set (new := rows_from (seq_detections db) (seq_windows db + 1)
                  (or_empty dets)) in *.
    assert (Hperm : Permutation (sort_desc det_confidence (scan new)) new).
    { rewrite <- (sort_desc_perm det_confidence (scan new)). apply Hscan. }
    split; [exact Hperm|]. split.
    + apply sort_desc_sorted. apply Forall_forall. intros r Hin.
      apply (Permutation_in _ (Hscan _)) in Hin.
      assert (Hreach : reachable
                (snd (log_window env site_id db timestamp stream_name
                        features decision reason dets)))
        by now apply reach_log.
      rewrite Hok in Hreach. apply reachable_no_nan in Hreach.
      cbn [snd detections] in Hreach. rewrite Forall_forall in Hreach.
      apply Hreach. apply in_or_app. now right.
    + assert (Hall : Forall (fun r => det_window_id r = seq_windows db + 1)
                       (sort_desc det_confidence (scan new))).
      { apply (Permutation_Forall (Permutation_sym Hperm)).
        revert Hrf. apply Forall_impl. intros r [_ [_ H]]. exact H. }
      assert (Hn : List.length (sort_desc det_confidence (scan new))
                   = List.length (or_empty dets)).
      { rewrite (Permutation_length Hperm). unfold new.
        clear. generalize (seq_detections db).
        induction (or_empty dets) as [|d ds IH]; intros k;
          cbn [rows_from List.length]; [reflexivity | now rewrite IH]. }
      rewrite <- Hn. clear Hn Hperm.
      induction Hall as [|r l Hr' _ IH]; [reflexivity|].
      cbn [map List.length repeat]. now rewrite Hr', IH.
  - revert Hrf. apply Forall_impl. intros r [_ [_ H]]. now apply Z.eqb_eq.
  - rewrite Forall_forall in Hfk, Hwc |- *. intros d Hd.
    apply Z.eqb_neq. specialize (Hfk d Hd). apply in_map_iff in Hfk.
    destruct Hfk as [w [Hid Hw]]. specialize (Hwc w Hw). lia.
Qed.

Lemma sqlite_roundtrip_witness :
  exists rows,
    get_detections_for_window no_faults (@rev detection_row)
      (snd (log_window no_faults "site" empty_database "t0" "cam"
              loud_features Gate.SEND_TO_BIRDNET "r" (Some odd_detections)))
      1
    = (Return rows,
       snd (log_window no_faults "site" empty_database "t0" "cam"
              loud_features Gate.SEND_TO_BIRDNET "r" (Some odd_detections)))
    /\ Permutation rows
         (rows_from (seq_detections empty_database) 1
            (or_empty (Some odd_detections)))
    /\ sorted_desc det_confidence rows
    /\ map det_window_id rows
       = repeat 1 (List.length (or_empty (Some odd_detections))).
Proof.
  apply (sqlite_roundtrip no_faults no_faults (@rev detection_row) "site"
           empty_database
           (snd (log_window no_faults "site" empty_database "t0" "cam"
                   loud_features Gate.SEND_TO_BIRDNET "r"
                   (Some odd_detections)))
           "t0" "cam" loud_features Gate.SEND_TO_BIRDNET "r"
           (Some odd_detections) 1).
  - intros l. apply Permutation_sym, Permutation_rev.
  - apply reach_empty.
  - reflexivity.
  - reflexivity.
  - reflexivity.
  - reflexivity.
Defined.

(** What comes back for a species given as the number [5] and a start time
    of [-0.0]: the text ['5'] and [0.0]. *)
Example stored_forms_come_back :
  fst (get_detections_for_window no_faults (fun l => l)
         (snd (log_window no_faults "site" empty_database "t0" "cam"
                 loud_features Gate.SEND_TO_BIRDNET "r" (Some odd_detections)))
         1)
  = Return
      [ {| det_id := 2; det_window_id := 1; det_species := Text "b";
           det_confidence := f_0_9; det_start_time := Some f_zero;
           det_end_time := Some f_3 |};
        {| det_id := 1; det_window_id := 1; det_species := Text "5";
           det_confidence := f_0_3; det_start_time := Some f_zero;
           det_end_time := Some f_3 |} ].
Proof. reflexivity. Qed.

(** ** [get_recent_windows]

    [ORDER BY timestamp DESC] compares the stored texts byte by byte (the
    BINARY collation), which is [String.compare]. *)

Fixpoint insert_by_timestamp (x : window_row) (l : list window_row)
  : list window_row :=
  match l with
  | [] => [x]
  | y :: rest =>
      if String.ltb (win_timestamp x) (win_timestamp y)
      then y :: insert_by_timestamp x rest
      else x :: l
  end.

Definition order_by_timestamp_desc (l : list window_row) : list window_row :=
  fold_right insert_by_timestamp [] l.

(** [WHERE 1=1 AND stream_name = ? AND decision = ?]: a condition is added
    only for a filter that is true, so not for [None] and not for the
    empty string; the members of [GateDecision] are all true. *)
Definition where_windows (stream_name : option string)
  (decision : option Gate.GateDecision) (w : window_row) : bool :=
  match stream_name with
  | None => true
  | Some s =>
      if String.eqb s EmptyString then true
      else String.eqb (win_stream_name w) s
  end
  && match decision with
     | None => true
     | Some d => String.eqb (win_decision w) (decision_value d)
     end.

(** [LIMIT ?]: a negative limit is no limit. *)
Definition sql_limit {A : Type} (limit : Z) (rows : list A) : list A :=
  if limit <? 0 then rows else firstn (Z.to_nat limit) rows.

(** The [SELECT] of [get_recent_windows].  SQL leaves the order of rows of
    equal timestamp open: [scan] is the order in which the engine visits
    the rows that satisfy [WHERE]. *)
Definition select_windows (scan : list window_row -> list window_row)
  (limit : Z) (stream_name : option string)
  (decision : option Gate.GateDecision) (db : database) : list window_row :=
  sql_limit limit
    (order_by_timestamp_desc
       (scan (filter (where_windows stream_name decision) (windows db)))).

(** [get_recent_windows]: an integer that does not fit 64 bits cannot be
    bound ([OverflowError]). *)
Definition get_recent_windows (env : sql_env)
  (scan : list window_row -> list window_row) (db : database) (limit : Z)
  (stream_name : option string) (decision : option Gate.GateDecision)
  : outcome (list window_row) * database :=
  _connection env db (fun conn =>
    if (- 2 ^ 63 <=? limit) && (limit <? 2 ^ 63) then
      match execute_error env (executed conn) with
      | Some e => Raise e
      | None =>
          Return (select_windows scan limit stream_name decision
                    (working conn),
                  {| working := working conn; executed := S (executed conn) |})
      end
    else Raise OverflowError).

(** Newest first. *)
Definition newest_first (l : list window_row) : Prop :=
  StronglySorted
    (fun a b => String.leb (win_timestamp b) (win_timestamp a) = true) l.

Definition two_windows : database :=
  snd (log_window no_faults "site"
         (snd (log_window no_faults "site" empty_database "2024-05-01T06:00:00"
                 "cam" loud_features Gate.TRASH "r" None))
         "2024-05-01T06:00:05" "cam" loud_features Gate.SEND_TO_BIRDNET "r"
         None).

(** The order of texts is transitive. *)
Lemma ascii_compare_N (a b : ascii) :
  Ascii.compare a b = N.compare (N_of_ascii a) (N_of_ascii b).
Proof. reflexivity. Qed.

Lemma string_compare_trans (c : comparison) :
  forall s1 s2 s3,
    String.compare s1 s2 = c -> String.compare s2 s3 = c ->
    String.compare s1 s3 = c.
Proof.
  induction s1 as [|a1 s1 IH]; intros [|a2 s2] [|a3 s3];
    cbn [String.compare]; try congruence.
  rewrite !ascii_compare_N.
  destruct (N.compare_spec (N_of_ascii a1) (N_of_ascii a2)) as [E12|L12|G12];
    destruct (N.compare_spec (N_of_ascii a2) (N_of_ascii a3)) as [E23|L23|G23];
    intros H1 H2; subst; try congruence.
  - rewrite E12, E23, N.compare_refl. now apply IH with s2.
  - rewrite E12. now apply N.compare_lt_iff in L23 as ->.
  - rewrite E12. now apply N.compare_gt_iff in G23 as ->.
  - rewrite <- E23. now apply N.compare_lt_iff in L12 as ->.
  - assert (H : (N_of_ascii a1 < N_of_ascii a3)%N) by lia.
    now apply N.compare_lt_iff in H as ->.
  - rewrite <- E23. now apply N.compare_gt_iff in G12 as ->.
  - assert (H : (N_of_ascii a3 < N_of_ascii a1)%N) by lia.
    now apply N.compare_gt_iff in H as ->.
Qed.

Lemma string_leb_trans (s1 s2 s3 : string) :
  String.leb s1 s2 = true -> String.leb s2 s3 = true ->
  String.leb s1 s3 = true.
Proof.
  unfold String.leb.
  destruct (String.compare s1 s2) eqn:E12; try discriminate;
    destruct (String.compare s2 s3) eqn:E23; try discriminate; intros _ _.
  - apply String.compare_eq_iff in E12. subst. now rewrite E23.
  - apply String.compare_eq_iff in E12. subst. now rewrite E23.
  - apply String.compare_eq_iff in E23. subst. now rewrite E12.
  - now rewrite (string_compare_trans Lt s1 s2 s3 E12 E23).
Qed.

Lemma string_ltb_leb (s1 s2 : string) :
  String.ltb s1 s2 = true -> String.leb s1 s2 = true.
Proof.
  unfold String.ltb, String.leb. destruct (String.compare s1 s2); congruence.
Qed.

Lemma string_ltb_false_leb (s1 s2 : string) :
  String.ltb s1 s2 = false -> String.leb s2 s1 = true.
Proof.
  unfold String.ltb, String.leb. rewrite (String.compare_antisym s2 s1).
  destruct (String.compare s1 s2); cbn; congruence.
Qed.

Lemma insert_by_timestamp_perm (x : window_row) (l : list window_row) :
  Permutation (x :: l) (insert_by_timestamp x l).
Proof.
  induction l as [|y l IH]; cbn [insert_by_timestamp]; [reflexivity|].
  destruct (String.ltb (win_timestamp x) (win_timestamp y)); [|reflexivity].
  rewrite perm_swap. now constructor.
Qed.

Lemma order_by_timestamp_perm (l : list window_row) :
  Permutation l (order_by_timestamp_desc l).
Proof.
  induction l as [|x l IH]; cbn; [constructor|].
  rewrite <- insert_by_timestamp_perm. now constructor.
Qed.

Lemma insert_by_timestamp_sorted (x : window_row) (l : list window_row) :
  newest_first l -> newest_first (insert_by_timestamp x l).
Proof.
  intros Hs. induction Hs as [|y l Hs IH Hy]; cbn [insert_by_timestamp].
  - repeat constructor.
  - destruct (String.ltb (win_timestamp x) (win_timestamp y)) eqn:E.
    + constructor; [exact IH|].
      apply (Permutation_Forall (insert_by_timestamp_perm x l)).
      constructor; [now apply string_ltb_leb | exact Hy].
    + apply string_ltb_false_leb in E.
      constructor; [now constructor|].
      constructor; [exact E|].
      revert Hy. apply Forall_impl. intros z Hz.
      now apply string_leb_trans with (win_timestamp y).
Qed.

Lemma order_by_timestamp_sorted (l : list window_row) :
  newest_first (order_by_timestamp_desc l).
Proof.
  induction l as [|x l IH]; cbn; [constructor|].
  now apply insert_by_timestamp_sorted.
Qed.

(** X11. [get_recent_windows] on the SQLite back end: whatever order the
    engine visits the rows in, the rows returned are windows that satisfy
    the filters, newest timestamp first; with the rows left out they make up
    all such windows, no row left out is newer than a returned one, and
    their number is [min(limit, number of such windows)], all of them for a
    negative [limit] and none for [limit = 0]. The database is not changed,
    also when the call raises. *)
Theorem sqlite_recent_windows (env : sql_env)
  (scan : list window_row -> list window_row) (db : database) (limit : Z)
  (stream_name : option string) (decision : option Gate.GateDecision) :
  (forall l, Permutation (scan l) l) ->
  match get_recent_windows env scan db limit stream_name decision with
  | (Return rows, db') =>
      db' = db
      /\ newest_first rows
      /\ (exists left_out,
            Permutation (rows ++ left_out)
              (filter (where_windows stream_name decision) (windows db))
            /\ Forall (fun r =>
                         Forall (fun o => String.leb (win_timestamp o)
                                            (win_timestamp r) = true)
                           left_out) rows)
      /\ Z.of_nat (List.length rows)
         = (if limit <? 0 then
              Z.of_nat (List.length
                          (filter (where_windows stream_name decision)
                             (windows db)))
            else
              Z.min limit
                (Z.of_nat (List.length
                             (filter (where_windows stream_name decision)
                                (windows db)))))
  | (Raise e, db') => db' = db
  end.
Proof.
  intros Hscan. unfold get_recent_windows, _connection.
  destruct (connect_error env); [reflexivity|].
  destruct ((- 2 ^ 63 <=? limit) && (limit <? 2 ^ 63)); [|reflexivity].
  cbn [working executed].
  destruct (execute_error env 0); [reflexivity|].
  destruct (commit_error env); [reflexivity|]. cbn [working].
  unfold select_windows.
  set (matching := filter (where_windows stream_name decision) (windows db)).
  set (ordered := order_by_timestamp_desc (scan matching)).
  assert (Hperm : Permutation ordered matching).
  { unfold ordered. rewrite <- order_by_timestamp_perm. apply Hscan. }
  assert (Hsorted : newest_first ordered)
    by apply order_by_timestamp_sorted.
  split; [reflexivity|]. unfold sql_limit.
  destruct (Z.ltb_spec limit 0) as [Hneg|Hpos].
  - split; [exact Hsorted|]. split.
    + exists []. rewrite app_nil_r. split; [exact Hperm|].
      apply Forall_forall. intros; constructor.
    + now rewrite (Permutation_length Hperm).
  - split; [now apply StronglySorted_firstn|]. split.
    + exists (skipn (Z.to_nat limit) ordered). split.
      * now rewrite firstn_skipn.
      * apply (StronglySorted_app_dominates
                 (fun a b => String.leb (win_timestamp b) (win_timestamp a)
                             = true)).
        now rewrite firstn_skipn.
    + rewrite length_firstn, (Permutation_length Hperm). lia.
Qed.

Lemma sqlite_recent_windows_witness :
  match get_recent_windows no_faults (@rev window_row) two_windows 1
          (Some "cam"%string) None with
  | (Return rows, db') =>
      db' = two_windows
      /\ newest_first rows
      /\ (exists left_out,
            Permutation (rows ++ left_out)
              (filter (where_windows (Some "cam"%string) None) (windows two_windows))
            /\ Forall (fun r =>
                         Forall (fun o => String.leb (win_timestamp o)
                                            (win_timestamp r) = true)
                           left_out) rows)
      /\ Z.of_nat (List.length rows)
         = (if 1 <? 0 then
              Z.of_nat (List.length
                          (filter (where_windows (Some "cam"%string) None)
                             (windows two_windows)))
            else
              Z.min 1
                (Z.of_nat (List.length
                             (filter (where_windows (Some "cam"%string) None)
                                (windows two_windows)))))
  | (Raise e, db') => db' = two_windows
  end.
Proof.
  apply (sqlite_recent_windows no_faults (@rev window_row) two_windows 1
           (Some "cam"%string) None).
  intros l. apply Permutation_sym, Permutation_rev.
Defined.

(** ** Detections that cannot be stored *)

Definition storable (d : BirdNET.Detection) : bool :=
  bindable_not_null (BirdNET.species d)
  && negb (is_nan (BirdNET.confidence d)).

(** A detection whose species came as JSON [null]. *)
Definition nameless_detection : BirdNET.Detection :=
  {| BirdNET.species := VNone; BirdNET.confidence := f_0_9;
     BirdNET.start_time := f_zero; BirdNET.end_time := f_3 |}.

Lemma insert_detections_storable env window_id ds :
  forall conn conn',
    insert_detections env window_id ds conn = Return conn' ->
    Forall (fun d => storable d = true) ds.
Proof.
  induction ds as [|d ds IH]; intros conn conn' H; [constructor|].
  cbn [insert_detections] in H.
  destruct (insert_detection env window_id d conn) as [c1|] eqn:E1;
    cbn [bind] in H; [|discriminate].
  constructor; [|exact (IH _ _ H)].
  unfold insert_detection in E1.
  destruct (execute_error env (executed conn)); [discriminate|].
  unfold storable.
  destruct (bindable_not_null (BirdNET.species d)
            && negb (is_nan (BirdNET.confidence d)));
    [reflexivity | discriminate].
Qed.

(** X12. One detection that cannot be stored loses the whole window: when
    the species of any detection of the list is not a text or a number (JSON
    [null], a list, an object, NaN), [log_window] raises and neither the
    window row nor any of the other detections is stored. *)
Theorem unstorable_detection_loses_window (env : sql_env) (site_id : string)
  (db : database) (timestamp stream_name : string)
  (features : Gate.AudioFeatures) (decision : Gate.GateDecision)
  (reason : string) (dets : list BirdNET.Detection) (d : BirdNET.Detection) :
  In d dets ->
  storable d = false ->
  exists e,
    log_window env site_id db timestamp stream_name features decision reason
      (Some dets) = (Raise e, db).
Proof.
  intros Hin Hbad. unfold log_window, _connection.
  destruct (connect_error env) as [e|]; [now exists e|].
  destruct (insert_window env site_id timestamp stream_name features decision
              reason {| working := db; executed := 0 |}) as [[id conn]|e];
    cbn [bind]; [|now exists e].
  destruct dets as [|d0 ds]; [contradiction|].
  destruct (insert_detections env id (d0 :: ds) conn) as [conn'|e] eqn:E;
    cbn [bind]; [|now exists e].
  apply insert_detections_storable in E. rewrite Forall_forall in E.
  rewrite (E d Hin) in Hbad. discriminate.
Qed.

Lemma unstorable_detection_loses_window_witness :
  exists e,
    log_window no_faults "site" empty_database "t0" "cam" loud_features
      Gate.SEND_TO_BIRDNET "r" (Some (rising_detections ++ [nameless_detection]))
    = (Raise e, empty_database).
Proof.
  apply (unstorable_detection_loses_window no_faults "site" empty_database
           "t0" "cam" loud_features Gate.SEND_TO_BIRDNET "r"
           (rising_detections ++ [nameless_detection]) nameless_detection).
  - simpl. auto.
  - reflexivity.
Defined.

End SQLiteLog.

(* ================================================================== *)
(** * jsonl_log.py *)
(* ================================================================== *)

Module JSONLLog.
Import PyFloat Py.
Local Open Scope string_scope.
Local Open Scope py_scope.

(** One line of the file, as [json.loads(line.strip())] reads it: [None]
    when it raises [JSONDecodeError].  [json.dumps] followed by
    [json.loads] gives back the record that was written. *)
Definition line : Type := option value.

(** The storage object: the file ([None] while the path does not exist)
    and the counter [_window_id]. *)
Record storage : Type := {
  file : option (list line);
  _window_id : Z
}.

Definition lines_of (st : storage) : list line :=
  match file st with Some ls => ls | None => [] end.

(** [__init__] and [_init_storage]: the counter starts at the number of
    lines of an existing file. *)
Definition init (existing : option (list line)) : storage :=
  {| file := existing;
     _window_id :=
       match existing with
       | Some ls => Z.of_nat (List.length ls)
       | None => 0
       end |}.

Definition detection_json (d : BirdNET.Detection) : value :=
  VDict [("species", BirdNET.species d);
         ("confidence", VFloat (BirdNET.confidence d));
         ("start_time", VFloat (BirdNET.start_time d));
         ("end_time", VFloat (BirdNET.end_time d))].

Definition record_json (id : Z) (site_id timestamp stream_name : string)
  (features : Gate.AudioFeatures) (decision : Gate.GateDecision)
  (reason : string) (detections : option (list BirdNET.Detection)) : value :=
  VDict [("id", VInt id);
         ("timestamp", VStr timestamp);
         ("site_id", VStr site_id);
         ("stream_name", VStr stream_name);
         ("features",
          VDict [("rms_total_db", VFloat (Gate.rms_total_db features));
                 ("rms_bird_band_db", VFloat (Gate.rms_bird_band_db features));
                 ("rms_low_band_db", VFloat (Gate.rms_low_band_db features));
                 ("snr_bird_db", VFloat (Gate.snr_bird_db features))]);
         ("decision", VStr (SQLiteLog.decision_value decision));
         ("reason", VStr reason);
         ("detections",
          VList (map detection_json
                   (match detections with Some ds => ds | None => [] end)))].

(** [log_window]; [open_error] is what [open(self.path, "a")] raises, if
    anything.  The counter is advanced before the file is opened. *)
Definition log_window (open_error : option exn) (site_id : string)
  (st : storage) (timestamp stream_name : string)
  (features : Gate.AudioFeatures) (decision : Gate.GateDecision)
  (reason : string) (detections : option (list BirdNET.Detection))
  : outcome Z * storage :=
  let id := _window_id st + 1 in
  let record :=
    record_json id site_id timestamp stream_name features decision reason
      detections in
  match open_error with
  | Some e => (Raise e, {| file := file st; _window_id := id |})
  | None =>
      (Return id,
       {| file := Some (lines_of st ++ [Some record])%list;
          _window_id := id |})
  end.

(** [a != s] for an object [a] and a string [s]. *)
Definition differs (a : value) (s : string) : bool :=
  match a with
  | VStr s' => negb (String.eqb s' s)
  | _ => true
  end.

(** [a == n] for an object [a] and an integer [n]. *)
Definition equals_int (a : value) (n : Z) : bool :=
  match a with
  | VInt m => (m =? n)%Z
  | VBool b => ((if b then 1 else 0) =? n)%Z
  | VFloat f => eq_int f n
  | _ => false
  end.

(** [record.get(field)]: only a dict has [get]. *)
Definition record_get (record : value) (field : string) : outcome value :=
  match record with
  | VDict kvs => Return (dict_get kvs field)
  | _ => Raise AttributeError
  end.

(** [if flt and record.get(field) != flt: continue]: [true] when the
    record is skipped.  An empty string is false; the filter is then off
    and [record.get] is not called. *)
Definition skipped (flt : option string) (field : string) (record : value)
  : outcome bool :=
  match flt with
  | None => Return false
  | Some s =>
      if String.eqb s "" then Return false
      else
        v <- record_get record field ;;
        Return (differs v s)
  end.

(** The loop of [get_recent_windows] (lines 103-115): [results]. *)
Fixpoint scan (lines : list line) (stream_name decision : option string)
  : outcome (list value) :=
  match lines with
  | [] => Return []
  | None :: rest => scan rest stream_name decision
  | Some record :: rest =>
      skip1 <- skipped stream_name "stream_name" record ;;
      if skip1 then scan rest stream_name decision
      else
        skip2 <- skipped decision "decision" record ;;
        if skip2 then scan rest stream_name decision
        else
          results <- scan rest stream_name decision ;;
          Return (record :: results)
  end.

(** [get_recent_windows]: [decision] is a [GateDecision] or [None]; enum
    members are true, so the filter is on whenever it is given. *)
Definition get_recent_windows (st : storage) (limit : Z)
  (stream_name : option string) (decision : option Gate.GateDecision)
  : outcome (list value) :=
  match file st with
  | None => Return []
  | Some lines =>
      results <- scan lines stream_name
                   (option_map SQLiteLog.decision_value decision) ;;
      Return (rev (slice_from results (- limit)))
  end.

(** [get_detections_for_window]: the [detections] of the first record
    whose [id] equals [window_id]. *)
Fixpoint find_detections (lines : list line) (window_id : Z) : outcome value :=
  match lines with
  | [] => Return (VList [])
  | None :: rest => find_detections rest window_id
  | Some record :: rest =>
      id <- record_get record "id" ;;
      if equals_int id window_id then
        match record with
        | VDict kvs => Return (dict_get_default kvs "detections" (VList []))
        | _ => Raise AttributeError
        end
      else find_detections rest window_id
  end.

Definition get_detections_for_window (st : storage) (window_id : Z)
  : outcome value :=
  match file st with
  | None => Return (VList [])
  | Some lines => find_detections lines window_id
  end.

(** ** What the claims say, as predicates *)

(** The records of a file, oldest first. *)
Fixpoint records (lines : list line) : list value :=
  match lines with
  | [] => []
  | None :: rest => records rest
  | Some r :: rest => r :: records rest
  end.

Definition is_record (l : line) : Prop :=
  match l with
  | Some (VDict _) | None => True
  | Some _ => False
  end.

(** A filter that is off, or that the record's field equals. *)
Definition field_matches (flt : option string) (field : string)
  (record : value) : bool :=
  match flt with
  | None => true
  | Some s =>
      String.eqb s ""
      || match record with
         | VDict kvs =>
             match lookup kvs field with
             | Some (VStr s') => String.eqb s' s
             | _ => false
             end
         | _ => false
         end
  end.

Definition matching (stream_name : option string)
  (decision : option Gate.GateDecision) (record : value) : bool :=
  field_matches stream_name "stream_name" record
  && field_matches (option_map SQLiteLog.decision_value decision) "decision"
       record.

(** The confidences of a list of detection objects, in order. *)
Definition confidences (v : value) : list pyfloat :=
  match v with
  | VList items =>
      flat_map (fun item =>
                  match item with
                  | VDict kvs =>
                      match lookup kvs "confidence" with
                      | Some (VFloat c) => [c]
                      | _ => []
                      end
                  | _ => []
                  end) items
  | _ => []
  end.

(** Concrete inputs for the examples. *)
Definition one_window : storage :=
  snd (log_window None "site" (init None) "t0" "cam" SQLiteLog.loud_features
         Gate.SEND_TO_BIRDNET "r" (Some SQLiteLog.rising_detections)).

Definition three_windows : storage :=
  let log st sn dec :=
    snd (log_window None "site" st "t" sn SQLiteLog.loud_features dec "r" None)
  in
  log (log (log (init None) "cam" Gate.SILENCE) "yard" Gate.TRASH)
    "cam" Gate.TRASH.

(** ** Proofs *)

Lemma skipped_dict (flt : option string) (field : string)
  (kvs : list (string * value)) :
  skipped flt field (VDict kvs)
  = Return (negb (field_matches flt field (VDict kvs))).
Proof.
  destruct flt as [s|]; simpl; [|reflexivity].
  destruct (String.eqb s ""); simpl; [reflexivity|].
  unfold dict_get. destruct (lookup kvs field) as [[]|]; reflexivity.
Qed.

Lemma scan_records (stream_name decision : option string) (lines : list line) :
  Forall is_record lines ->
  scan lines stream_name decision
  = Return (filter (fun r => field_matches stream_name "stream_name" r
                             && field_matches decision "decision" r)
              (records lines)).
Proof.
  induction 1 as [|l lines Hl _ IH]; [reflexivity|].
  destruct l as [r|]; [|exact IH].
  destruct r; try contradiction.
  cbn [scan records filter]. rewrite !skipped_dict. cbn [bind].
  destruct (field_matches stream_name "stream_name" (VDict kvs));
    cbn [negb andb]; [|exact IH].
  destruct (field_matches decision "decision" (VDict kvs));
    cbn [negb]; [|exact IH].
  rewrite IH. reflexivity.
Qed.

Lemma recent_slice {A : Type} (l : list A) (limit : Z) :
  1 <= limit ->
  rev (slice_from l (- limit)) = firstn (Z.to_nat limit) (rev l).
Proof.
  intros Hl. unfold slice_from.
  destruct (Z.leb_spec 0 (- limit)); [lia|].
  rewrite firstn_rev. do 2 f_equal. lia.
Qed.

(** C10. On a file whose lines are records (or unreadable), the JSONL
    [get_recent_windows] with [limit = 0] returns every matching record,
    most recent first; with [limit >= 1] it returns the first [limit] of
    them, so at most [limit]. *)
Theorem recent_windows_limit (st : storage) (stream_name : option string)
  (decision : option Gate.GateDecision) :
  Forall is_record (lines_of st) ->
  get_recent_windows st 0 stream_name decision
  = Return (rev (filter (matching stream_name decision)
                   (records (lines_of st))))
  /\ forall limit, 1 <= limit ->
     exists rs,
       get_recent_windows st limit stream_name decision = Return rs
       /\ rs = firstn (Z.to_nat limit)
                 (rev (filter (matching stream_name decision)
                         (records (lines_of st))))
       /\ Z.of_nat (List.length rs) <= limit.
Proof.
  intros Hrec. unfold get_recent_windows, lines_of in *.
  destruct (file st) as [lines|].
  - rewrite (scan_records _ _ lines Hrec). cbn [bind]. split.
    + reflexivity.
    + intros limit Hl. eexists. split; [reflexivity|].
      rewrite recent_slice by exact Hl. split; [reflexivity|].
      rewrite length_firstn. lia.
  - split; [reflexivity|]. intros limit Hl. exists []. simpl.
    rewrite firstn_nil. repeat split. lia.
Qed.

Lemma recent_windows_limit_witness :
  (exists r3 r1,
     get_recent_windows three_windows 0 (Some "cam") None = Return [r3; r1])
  /\ exists rs,
       get_recent_windows three_windows 1 (Some "cam") None = Return rs
       /\ rs = firstn (Z.to_nat 1)
                 (rev (filter (matching (Some "cam") None)
                         (records (lines_of three_windows))))
       /\ Z.of_nat (List.length rs) <= 1.
Proof.
  split; [do 2 eexists; reflexivity|].
  refine (proj2 (recent_windows_limit three_windows (Some "cam") None _) 1 _).
  - repeat constructor.
  - lia.
Defined.

(** On a fresh file the detections of the first window come back as they
    were logged, in the order of the list passed to [log_window]. *)
Lemma jsonl_detections_roundtrip (site_id timestamp stream_name : string)
  (features : Gate.AudioFeatures) (decision : Gate.GateDecision)
  (reason : string) (detections : option (list BirdNET.Detection)) :
  get_detections_for_window
    (snd (log_window None site_id (init None) timestamp stream_name features
            decision reason detections)) 1
  = Return (VList (map detection_json
                     (match detections with Some ds => ds | None => [] end))).
Proof. reflexivity. Qed.

(** C8, at a failing input of the JSONL back end: two detections logged in
    rising order of confidence come back in that order, which is not
    sorted by confidence descending. *)
Lemma jsonl_detections_keep_logged_order :
  get_detections_for_window one_window 1
  = Return (VList (map detection_json SQLiteLog.rising_detections))
  /\ confidences (VList (map detection_json SQLiteLog.rising_detections))
     = [f_0_3; f_0_9]
  /\ ~ sorted_desc (fun c : pyfloat => c) [f_0_3; f_0_9].
Proof.
  split; [reflexivity|]. split; [reflexivity|].
  intros H. inversion H as [|a l _ Hall]; subst.
  inversion Hall as [|b l' Hb _]; subst. discriminate Hb.
Qed.

(** ** Identifiers, the round trip and restarts *)

Definition is_some {A : Type} (o : option A) : bool :=
  match o with Some _ => true | None => false end.

(** The storage objects of one session that starts on a fresh path: any
    number of [log_window] calls, each of which may fail to open the file.
    The flag tells whether a call has failed so far. *)
Inductive session : bool -> storage -> Prop :=
  | session_fresh : session false (init None)
  | session_log failed open_error site_id st timestamp stream_name features
      decision reason detections :
      session failed st ->
      session (failed || is_some open_error)
        (snd (log_window open_error site_id st timestamp stream_name features
                decision reason detections)).

(** Every line is a record whose [id] is at most the counter. *)
Definition ids_within (st : storage) : Prop :=
  Forall (fun l : line =>
            exists kvs id,
              l = Some (VDict kvs)
              /\ lookup kvs "id" = Some (VInt id)
              /\ id <= _window_id st)
    (lines_of st).

(** A session in which the first write fails and the second succeeds, and
    the storage object of the next session on the same path. *)
Definition after_failed_write : storage :=
  snd (log_window None "site"
         (snd (log_window (Some OSError) "site" (init None) "t0" "cam"
                 SQLiteLog.loud_features Gate.TRASH "r" None))
         "t1" "cam" SQLiteLog.loud_features Gate.TRASH "r" None).

Definition reopened : storage := init (file after_failed_write).

(** A session in which the first write fails and the second logs two
    detections. *)
Definition logged_after_failure : storage :=
  snd (log_window None "site"
         (snd (log_window (Some OSError) "site" (init None) "t0" "cam"
                 SQLiteLog.loud_features Gate.TRASH "r" None))
         "t1" "cam" SQLiteLog.loud_features Gate.SEND_TO_BIRDNET "r"
         (Some SQLiteLog.rising_detections)).

Lemma session_ids_within (failed : bool) (st : storage) :
  session failed st -> ids_within st.
Proof.
  induction 1 as [|failed oe site st ts sn f dec reason dets _ IH].
  - constructor.
  - unfold ids_within, log_window, lines_of in *.
    assert (Hold : Forall (fun l : line =>
                     exists kvs id,
                       l = Some (VDict kvs)
                       /\ lookup kvs "id" = Some (VInt id)
                       /\ id <= _window_id st + 1)
                     match file st with Some ls => ls | None => [] end).
    { revert IH. apply Forall_impl. intros l [kvs [id [H1 [H2 H3]]]].
      exists kvs, id. repeat split; auto. lia. }
    destruct oe; cbn [snd file _window_id]; [exact Hold|].
    apply Forall_app. split; [exact Hold|].
    constructor; [|constructor].
    eexists. exists (_window_id st + 1).
    split; [reflexivity|]. split; [reflexivity|]. lia.
Qed.

Lemma find_detections_skip (older : list line) (bound window_id : Z)
  (rest : list line) :
  Forall (fun l : line =>
            exists kvs id,
              l = Some (VDict kvs)
              /\ lookup kvs "id" = Some (VInt id)
              /\ id <= bound) older ->
  bound < window_id ->
  find_detections (older ++ rest) window_id = find_detections rest window_id.
Proof.
  intros Hold Hlt. induction Hold as [|l older Hl _ IH]; [reflexivity|].
  destruct Hl as [kvs [id [-> [Hid Hle]]]].
  cbn [app find_detections record_get bind]. unfold dict_get. rewrite Hid.
  cbn [equals_int]. destruct (Z.eqb_spec id window_id); [lia|]. exact IH.
Qed.



(** X14. Restart: as long as no write of the session has failed, a storage
    object created anew on the same path equals the one in use, so the
    numbering of windows goes on where it stopped. *)
Theorem restart_continues_numbering (st : storage) :
  session false st -> init (file st) = st.
Proof.
  intros Hs.
  assert (H : forall failed st, session failed st -> failed = false ->
            _window_id st = match file st with
                            | Some ls => Z.of_nat (List.length ls)
                            | None => 0
                            end).
  { clear. induction 1 as [|failed oe site st ts sn f dec reason dets _ IH].
    - reflexivity.
    - intros Hf. apply orb_false_iff in Hf. destruct Hf as [-> Hoe].
      destruct oe; [discriminate|]. specialize (IH eq_refl).
      unfold log_window, lines_of. cbn [snd file _window_id].
      rewrite IH, length_app. destruct (file st); cbn [List.length]; lia. }
  specialize (H false st Hs eq_refl). unfold init.
  destruct st as [f c]. cbn [file _window_id] in *. now rewrite H.
Qed.

Lemma restart_continues_numbering_witness : init (file one_window) = one_window.
Proof.
  apply (restart_continues_numbering one_window).
  apply (session_log false None). apply session_fresh.
Defined.

(** After a failed write this is lost: the next session gives the id of a
    window that is already in the file to a new window, whose detections
    cannot be read back. *)
Example restart_after_failed_write_reuses_id :
  fst (log_window None "site" reopened "t2" "cam" SQLiteLog.loud_features
         Gate.SEND_TO_BIRDNET "r" (Some SQLiteLog.rising_detections))
  = Return 2
  /\ get_detections_for_window
       (snd (log_window None "site" reopened "t2" "cam"
               SQLiteLog.loud_features Gate.SEND_TO_BIRDNET "r"
               (Some SQLiteLog.rising_detections))) 2
     = Return (VList []).
Proof. split; reflexivity. Qed.

End JSONLLog.

(* ================================================================== *)
(** * features.py *)
(* ================================================================== *)

Module Features.
Import PyFloat Py.
Local Open Scope py_scope.

(** [FrequencyBand] of config.py. *)
Record FrequencyBand : Type := {
  low : pyfloat;
  high : pyfloat
}.

(** A one-dimensional numpy array of floats: its dtype and its elements.
    The reader hands over float32 samples, the filters return float64. *)
Inductive dtype : Type := float32 | float64.

Record ndarray : Type := {
  dt : dtype;
  data : list spec_float
}.

Definition dprec (d : dtype) : Z :=
  match d with float32 => 24 | float64 => 53 end.
Definition demax (d : dtype) : Z :=
  match d with float32 => 128 | float64 => 1024 end.

(** [samples ** 2] *)
Definition square (a : ndarray) : ndarray :=
  {| dt := dt a;
     data := map (fun x => SFmul (dprec (dt a)) (demax (dt a)) x x) (data a) |}.

(** [np.mean(a)]: the sum of the elements, added up in numpy's order in
    the array's precision, divided by their number.  (The summands here
    are squares, so never [-0.0], and the sign of the zero that the sum
    starts from plays no part.) *)
Definition np_sum (a : ndarray) : spec_float :=
  Numpy.add_reduce (SFadd (dprec (dt a)) (demax (dt a))) (S754_zero false)
    (data a).

(** The division by the number of elements.  (For a float32 array numpy
    divides in binary64 and converts the quotient; for fewer than [2^24]
    elements that is the float32 quotient taken here.) *)
Definition np_mean (a : ndarray) : spec_float :=
  SFdiv (dprec (dt a)) (demax (dt a)) (np_sum a)
    (binary_normalize (dprec (dt a)) (demax (dt a))
       (Z.of_nat (List.length (data a))) 0 false).

(** [np.sqrt(x)] on a scalar of the given dtype. *)
Definition np_sqrt (d : dtype) (x : spec_float) : spec_float :=
  SFsqrt (dprec d) (demax d) x.

(** [float(x)]: a float32 widens to binary64 without rounding. *)
Definition to_pyfloat (d : dtype) (x : spec_float) : pyfloat :=
  match d with
  | float64 => x
  | float32 =>
      match x with
      | S754_finite s m e =>
          binary_normalize prec emax (cond_Zopp s (Zpos m)) e s
      | _ => x
      end
  end.

(** [_rms] *)
Definition _rms (samples : ndarray) : pyfloat :=
  if (List.length (data samples) =? 0)%nat then f_zero
  else to_pyfloat (dt samples) (np_sqrt (dt samples) (np_mean (square samples))).

(** [a / b] on Python floats: a zero divisor raises. *)
Definition py_div (a b : pyfloat) : outcome pyfloat :=
  match b with
  | S754_zero _ => Raise ZeroDivisionError
  | _ => Return (SFdiv prec emax a b)
  end.

Section Extract.
(** [np.log10] on a binary64 *)
Variable log10 : pyfloat -> pyfloat.
(** [sosfilt(butter(4, [low, high], btype="band", output="sos"), samples)] *)
Variable butter_sosfilt : pyfloat -> pyfloat -> ndarray -> outcome ndarray.

(** [_db_from_rms(rms)] with the default [floor = 1e-10] *)
Definition _db_from_rms (rms : pyfloat) : pyfloat :=
  fmul f_20 (log10 (pymax rms f_1em10)).

(** [_bandpass_filter] with the default order *)
Definition _bandpass_filter (samples : ndarray) (sample_rate : Z)
  (low_freq high_freq : pyfloat) : outcome ndarray :=
  match of_int sample_rate with
  | None => Raise OverflowError
  | Some sr =>
      nyquist <- py_div sr f_two ;;
      lo <- py_div low_freq nyquist ;;
      let low := pymax lo f_0_001 in
      hi <- py_div high_freq nyquist ;;
      let high := pymin hi f_0_999 in
      if fge low high then Return samples
      else try_except (butter_sosfilt low high samples)
             (fun _ => Return samples)
  end.

(** [FeatureExtractor.extract] *)
Definition extract (sample_rate : Z) (bird_band low_band : FrequencyBand)
  (samples : ndarray) : outcome Gate.AudioFeatures :=
  let rms_total := _rms samples in
  let rms_total_db := _db_from_rms rms_total in
  bird_filtered <- _bandpass_filter samples sample_rate
                     (low bird_band) (high bird_band) ;;
  let rms_bird := _rms bird_filtered in
  let rms_bird_band_db := _db_from_rms rms_bird in
  low_filtered <- _bandpass_filter samples sample_rate
                    (low low_band) (high low_band) ;;
  let rms_low := _rms low_filtered in
  let rms_low_band_db := _db_from_rms rms_low in
  let snr_bird_db := fsub rms_bird_band_db rms_low_band_db in
  Return {| Gate.rms_total_db := rms_total_db;
            Gate.rms_bird_band_db := rms_bird_band_db;
            Gate.rms_low_band_db := rms_low_band_db;
            Gate.snr_bird_db := snr_bird_db |}.
End Extract.

(** An array of zeros, of either sign. *)
Definition is_zero (x : spec_float) : Prop :=
  match x with S754_zero _ => True | _ => False end.

Definition all_zero (a : ndarray) : Prop := Forall is_zero (data a).

(** A finite number whose exponent is at least [lo], or an infinity. *)
Definition finite_above (lo : Z) (x : spec_float) : Prop :=
  match x with
  | S754_finite _ _ ex => lo <= ex
  | S754_infinity _ => True
  | _ => False
  end.

(** Concrete inputs for the examples: a [log10] that knows the one value
    the floor needs, a filter that returns its input, and five zeros. *)
Definition log10_at_floor (x : pyfloat) : pyfloat :=
  if SFeqb x f_1em10 then f_m10 else S754_nan.

Definition pass_through (lo hi : pyfloat) (a : ndarray) : outcome ndarray :=
  Return a.

Definition bird_band_default : FrequencyBand :=
  {| low := f_2000; high := f_9000 |}.
Definition low_band_default : FrequencyBand :=
  {| low := f_20; high := f_500 |}.

Definition five_zeros : ndarray :=
  {| dt := float32;
     data := [S754_zero false; S754_zero true; S754_zero false;
              S754_zero false; S754_zero false] |}.

(** ** Proofs: rounding a positive number never gives zero or NaN *)

Section RoundPositive.
Variables p e : Z.
Hypothesis prec_pos : 0 < p.
Hypothesis emin_neg : emin p e <= 0.

Lemma shr_1_m (r : shr_record) :
  0 <= shr_m r -> shr_m (shr_1 r) = shr_m r / 2 /\ 0 <= shr_m (shr_1 r).
Proof.
  destruct r as [m rb sb]. cbn [shr_m]. intros Hm.
  rewrite <- Z.div2_div.
  destruct m as [|[q|q|]|q]; cbn; try lia.
Qed.

Lemma iter_pos_shr_m (n : positive) :
  forall r, 0 <= shr_m r ->
  shr_m (iter_pos shr_1 n r) = shr_m r / 2 ^ Zpos n
  /\ 0 <= shr_m (iter_pos shr_1 n r).
Proof.
  induction n as [n IH|n IH|]; intros r Hr; cbn [iter_pos].
  - destruct (shr_1_m r Hr) as [E1 H1].
    destruct (IH _ H1) as [E2 H2]. destruct (IH _ H2) as [E3 H3].
    split; [|exact H3].
    rewrite E3, E2, E1, !Z.div_div by (try apply Z.pow_pos_nonneg; lia).
    f_equal. rewrite (Pos2Z.inj_xI n).
    replace (2 * Z.pos n + 1) with (1 + Z.pos n + Z.pos n) by lia.
    rewrite !Z.pow_add_r by lia. change (2 ^ 1) with 2. ring.
  - destruct (IH _ Hr) as [E2 H2]. destruct (IH _ H2) as [E3 H3].
    split; [|exact H3].
    rewrite E3, E2, Z.div_div by (try apply Z.pow_pos_nonneg; lia).
    f_equal. rewrite (Pos2Z.inj_xO n).
    replace (2 * Z.pos n) with (Z.pos n + Z.pos n) by lia.
    rewrite Z.pow_add_r by lia. reflexivity.
  - destruct (shr_1_m r Hr) as [E1 H1]. split; [exact E1|exact H1].
Qed.

Lemma digits2_pos_lower (m : positive) :
  2 ^ (Zpos (digits2_pos m) - 1) <= Zpos m.
Proof.
  induction m as [m IH|m IH|]; cbn [digits2_pos].
  - rewrite Pos2Z.inj_succ, (Pos2Z.inj_xI m).
    replace (Z.succ (Z.pos (digits2_pos m)) - 1)
      with (Z.succ (Z.pos (digits2_pos m) - 1)) by lia.
    rewrite Z.pow_succ_r by lia. lia.
  - rewrite Pos2Z.inj_succ, (Pos2Z.inj_xO m).
    replace (Z.succ (Z.pos (digits2_pos m)) - 1)
      with (Z.succ (Z.pos (digits2_pos m) - 1)) by lia.
    rewrite Z.pow_succ_r by lia. lia.
  - reflexivity.
Qed.

Lemma shr_record_of_loc_m (m : Z) (l : location) :
  shr_m (shr_record_of_loc m l) = m.
Proof. destruct l as [|[]]; reflexivity. Qed.

Lemma shr_fexp_pos (m ex : Z) (l : location) :
  0 < m -> emin p e <= ex ->
  0 < shr_m (fst (shr_fexp p e m ex l))
  /\ ex <= snd (shr_fexp p e m ex l).
Proof.
  intros Hm He. unfold shr_fexp, shr.
  destruct (fexp p e (Zdigits2 m + ex) - ex) as [|n|n] eqn:En;
    cbn [fst snd]; rewrite ?shr_record_of_loc_m; try (split; lia).
  destruct (iter_pos_shr_m n (shr_record_of_loc m l)) as [E _];
    [rewrite shr_record_of_loc_m; lia|].
  rewrite E, shr_record_of_loc_m.
  destruct m as [|m'|m']; try lia. cbn [Zdigits2] in En.
  unfold fexp in En.
  pose proof (digits2_pos_lower m') as Hd.
  assert (Hn : Z.pos n = Z.pos (digits2_pos m') - p) by lia.
  split; [|lia].
  apply Z.div_str_pos. split; [apply Z.pow_pos_nonneg; lia|].
  apply Z.le_trans with (2 ^ (Z.pos (digits2_pos m') - 1)); [|exact Hd].
  apply Z.pow_le_mono_r; lia.
Qed.

Lemma round_nearest_even_pos (m : Z) (l : location) :
  0 < m -> 0 < round_nearest_even m l.
Proof.
  intros Hm. destruct l as [|[]]; cbn [round_nearest_even]; try lia.
  destruct (Z.even m); lia.
Qed.

Lemma binary_round_aux_pos (sx : bool) (mx ex : Z) (lx : location) :
  0 < mx -> emin p e <= ex ->
  finite_above ex (binary_round_aux p e sx mx ex lx).
Proof.
  intros Hm He. unfold binary_round_aux.
  destruct (shr_fexp_pos mx ex lx Hm He) as [H1 H1e].
  destruct (shr_fexp p e mx ex lx) as [mrs' e']. cbn [fst snd] in *.
  pose proof (round_nearest_even_pos (shr_m mrs') (loc_of_shr_record mrs') H1)
    as H2.
  destruct (shr_fexp_pos _ e' loc_Exact H2 ltac:(lia)) as [H3 H3e].
  destruct (shr_fexp p e _ e' loc_Exact) as [mrs'' e'']. cbn [fst snd] in *.
  destruct (shr_m mrs''); try lia.
  destruct (e'' <=? e - p); cbn [finite_above]; [lia|exact I].
Qed.

Lemma finite_above_weaken (lo lo' : Z) (x : spec_float) :
  lo' <= lo -> finite_above lo x -> finite_above lo' x.
Proof. intros Hle. destruct x; cbn [finite_above]; auto. lia. Qed.

Lemma count_finite_above (n : Z) :
  0 < n -> finite_above (1 - p) (binary_normalize p e n 0 false).
Proof.
  intros Hn. destruct n as [|m|m]; try lia.
  cbn [binary_normalize]. unfold binary_round, shl_align.
  pose proof (Z.le_max_r (Z.pos (digits2_pos m) + 0 - p) (emin p e)) as Hr.
  pose proof (Z.le_max_l (Z.pos (digits2_pos m) + 0 - p) (emin p e)) as Hl.
  fold (fexp p e (Z.pos (digits2_pos m) + 0)) in Hr, Hl.
  destruct (fexp p e (Z.pos (digits2_pos m) + 0) - 0) eqn:Ed.
  - apply (finite_above_weaken 0); [lia|]. apply binary_round_aux_pos; lia.
  - apply (finite_above_weaken 0); [lia|]. apply binary_round_aux_pos; lia.
  - apply (finite_above_weaken (fexp p e (Z.pos (digits2_pos m) + 0))); [lia|].
    apply binary_round_aux_pos; lia.
Qed.

End RoundPositive.

(** ** Proofs: the level of an array of zeros *)

Lemma square_zero (a : ndarray) :
  all_zero a -> Forall (fun x => x = S754_zero false) (data (square a)).
Proof.
  unfold all_zero, square. cbn [data].
  induction 1 as [|x l Hx _ IH]; cbn [map]; constructor; [|exact IH].
  destruct x as [s| | |]; try contradiction. destruct s; reflexivity.
Qed.

Lemma sum_of_zeros (pr em : Z) (l : list spec_float) :
  Forall (fun x => x = S754_zero false) l ->
  Numpy.add_reduce (SFadd pr em) (S754_zero false) l = S754_zero false.
Proof.
  intros Hl.
  apply (Numpy.add_reduce_bound (SFadd pr em) (S754_zero false)
           (fun _ x => x = S754_zero false) (List.length l)).
  - reflexivity.
  - intros i j x y _ -> ->. reflexivity.
  - exact Hl.
  - lia.
Qed.

Lemma dtype_params (d : dtype) : 0 < dprec d /\ emin (dprec d) (demax d) <= 0.
Proof. destruct d; split; vm_compute; congruence. Qed.

Lemma rms_of_zeros (a : ndarray) : all_zero a -> is_zero (_rms a).
Proof.
  intros Hz. unfold _rms.
  destruct (List.length (data a) =? 0)%nat eqn:En; [exact I|].
  apply Nat.eqb_neq in En.
  unfold np_mean, np_sum.
  rewrite (sum_of_zeros _ _ _ (square_zero a Hz)).
  cbn [square dt data]. rewrite length_map.
  destruct (dtype_params (dt a)) as [Hp He].
  pose proof (count_finite_above (dprec (dt a)) (demax (dt a)) Hp He
                (Z.of_nat (List.length (data a))) ltac:(lia)) as Hc.
  destruct (binary_normalize _ _ _ 0 false) as [|sc| |sc mc ec];
    try contradiction; destruct (dt a); exact I.
Qed.

Lemma not_zero_of_finite_above (lo : Z) (x : spec_float) :
  finite_above lo x -> forall s, x <> S754_zero s.
Proof. destruct x; cbn [finite_above]; intros H s'; try contradiction; discriminate. Qed.

(** Half of a positive sample rate is not zero. *)
Lemma half_finite_above (s : bool) (m : positive) (e1 : Z) :
  -52 <= e1 ->
  finite_above (emin prec emax) (SFdiv prec emax (S754_finite s m e1) f_two).
Proof.
  intros He1. unfold f_two. cbn [SFdiv]. unfold SFdiv_core_binary.
  change (Zdigits2 (Z.pos 4503599627370496)) with 53.
  cbn [Zdigits2].
  set (D := Z.pos (digits2_pos m)).
  set (e' := Z.min (fexp prec emax (D + e1 - (53 + -51))) (e1 - -51)).
  pose proof (digits2_pos_lower m) as Hd. fold D in Hd.
  assert (HD : 1 <= D) by (unfold D; lia).
  assert (He' : emin prec emax <= e' /\ 52 <= D - 1 + (e1 - -51 - e')).
  { unfold e', fexp, emin, prec, emax. lia. }
  destruct He' as [Hlo Hs].
  set (m' := match e1 - -51 - e' with
             | 0 => Z.pos m
             | Z.pos _ => Z.shiftl (Z.pos m) (e1 - -51 - e')
             | Z.neg _ => 0
             end).
  assert (Hm' : 2 ^ 52 <= m').
  { assert (Hs0 : 0 <= e1 - -51 - e') by (unfold e'; lia).
    assert (Hm : m' = Z.pos m * 2 ^ (e1 - -51 - e')).
    { unfold m'. destruct (e1 - -51 - e') eqn:Es; try lia.
      rewrite Z.shiftl_mul_pow2 by lia. reflexivity. }
    rewrite Hm.
    apply Z.le_trans with (2 ^ (D - 1) * 2 ^ (e1 - -51 - e')).
    - rewrite <- Z.pow_add_r by lia. apply Z.pow_le_mono_r; lia.
    - apply Z.mul_le_mono_nonneg_r; [apply Z.pow_nonneg; lia | exact Hd]. }
  destruct (Z.div_eucl m' (Z.pos 4503599627370496)) as [q r] eqn:Eq.
  assert (Hq : q = m' / 4503599627370496).
  { unfold Z.div. rewrite Eq. reflexivity. }
  assert (Hqpos : 0 < q).
  { rewrite Hq. apply Z.div_str_pos. change (2 ^ 52) with 4503599627370496 in Hm'.
    lia. }
  apply (finite_above_weaken e'); [exact Hlo|].
  apply binary_round_aux_pos; auto; unfold prec, emax, emin; lia.
Qed.

Lemma bandpass_filter_returns
  (butter_sosfilt : pyfloat -> pyfloat -> ndarray -> outcome ndarray)
  (samples : ndarray) (sample_rate : Z) (low_freq high_freq : pyfloat) :
  0 < sample_rate -> of_int sample_rate <> None ->
  exists filtered,
    _bandpass_filter butter_sosfilt samples sample_rate low_freq high_freq
    = Return filtered.
Proof.
  intros Hpos Hfit. unfold _bandpass_filter.
  destruct (of_int sample_rate) as [sr|] eqn:Esr; [|congruence].
  assert (Hsr : finite_above (1 - prec) sr /\ forall s, sr <> S754_infinity s).
  { unfold of_int in Esr.
    pose proof (count_finite_above prec emax ltac:(unfold prec; lia)
                  ltac:(unfold emin, prec, emax; lia) sample_rate Hpos) as Hc.
    destruct (binary_normalize prec emax sample_rate 0 false);
      try discriminate; injection Esr as <-; split; auto; discriminate. }
  destruct Hsr as [Hfin Hninf].
  destruct sr as [| s0 | |s m e1]; cbn [finite_above] in Hfin;
    try contradiction; [exfalso; now apply (Hninf s0)|].
  pose proof (half_finite_above s m e1 ltac:(unfold prec in Hfin; lia)) as Hny.
  cbn [py_div f_two bind].
  set (nyquist := SFdiv prec emax (S754_finite s m e1) f_two) in *.
  destruct nyquist as [| | |sn mn en]; cbn [finite_above] in Hny;
    try contradiction; cbn [py_div bind];
    match goal with
    | |- context [if ?c then _ else _] => destruct c
    end;
    try (eexists; reflexivity);
    unfold try_except;
    match goal with
    | |- context [butter_sosfilt ?a ?b ?c] => destruct (butter_sosfilt a b c)
    end; eexists; reflexivity.
Qed.

(** C9. For every array of zeros, the empty array included, and every
    positive sample rate (one that [float()] accepts), [extract] returns
    features whose [rms_total_db] is exactly [-200.0]: the RMS is zero,
    [max] replaces it by the floor [1e-10], and [20.0 * log10(1e-10)] is
    [-200.0] ([log10(1e-10)] being [-10.0], as numpy computes it). *)
Theorem all_zero_rms_total_db (log10 : pyfloat -> pyfloat)
  (butter_sosfilt : pyfloat -> pyfloat -> ndarray -> outcome ndarray)
  (sample_rate : Z) (bird_band low_band : FrequencyBand) (samples : ndarray) :
  all_zero samples ->
  log10 f_1em10 = f_m10 ->
  0 < sample_rate -> of_int sample_rate <> None ->
  pymax (_rms samples) f_1em10 = f_1em10
  /\ exists features,
       extract log10 butter_sosfilt sample_rate bird_band low_band samples
       = Return features
       /\ Gate.rms_total_db features = f_m200.
Proof.
  intros Hz Hlog Hpos Hfit.
  assert (Hmax : pymax (_rms samples) f_1em10 = f_1em10).
  { pose proof (rms_of_zeros samples Hz) as Hr.
    destruct (_rms samples); try contradiction. reflexivity. }
  assert (Hdb : _db_from_rms log10 (_rms samples) = f_m200).
  { unfold _db_from_rms. rewrite Hmax, Hlog. reflexivity. }
  split; [exact Hmax|]. unfold extract.
  destruct (bandpass_filter_returns butter_sosfilt samples sample_rate
              (low bird_band) (high bird_band) Hpos Hfit) as [bf ->].
  destruct (bandpass_filter_returns butter_sosfilt samples sample_rate
              (low low_band) (high low_band) Hpos Hfit) as [lf ->].
  cbn [bind]. eexists. split; [reflexivity|]. exact Hdb.
Qed.

Lemma all_zero_rms_total_db_witness :
  pymax (_rms five_zeros) f_1em10 = f_1em10
  /\ exists features,
       extract log10_at_floor pass_through 48000 bird_band_default
         low_band_default five_zeros
       = Return features
       /\ Gate.rms_total_db features = f_m200.
Proof.
  apply (all_zero_rms_total_db log10_at_floor pass_through 48000
           bird_band_default low_band_default five_zeros).
  - repeat constructor.
  - reflexivity.
  - lia.
  - vm_compute. discriminate.
Defined.

(** ** Further properties of the extractor *)

(** [FrequencyBand.__post_init__] of config.py: [ValueError] when
    [low >= high] or [low < 0]. *)
Definition frequency_band_post_init (b : FrequencyBand) : outcome unit :=
  if fge (low b) (high b) then Raise ValueError
  else if flt (low b) f_zero then Raise ValueError
  else Return tt.

(** The cutoffs that [_bandpass_filter] may hand to the filter design:
    [low < high] holds in the sense that [low >= high] is false, and a
    cutoff that is a number lies between the two clamps. *)
Definition valid_cutoffs (lo hi : pyfloat) : Prop :=
  fge lo hi = false
  /\ (is_nan lo = false -> fle f_0_001 lo = true)
  /\ (is_nan hi = false -> fle hi f_0_999 = true).

(** A filter that refuses what [_bandpass_filter] never asks for. *)
Definition strict_filter (lo hi : pyfloat) (a : ndarray) : outcome ndarray :=
  if fge lo hi then Raise ValueError else Return a.

Definition failing_filter (lo hi : pyfloat) (a : ndarray) : outcome ndarray :=
  Raise ValueError.

Lemma pymax_at_least (a b : pyfloat) :
  is_nan b = false -> is_nan (pymax a b) = false -> fle b (pymax a b) = true.
Proof.
  unfold pymax, fgt. intros Hb. destruct (SFltb a b) eqn:E; intros Ha.
  - now apply fle_refl.
  - now apply flt_false_fle.
Qed.

Lemma pymin_at_most (a b : pyfloat) :
  is_nan b = false -> is_nan (pymin a b) = false -> fle (pymin a b) b = true.
Proof.
  unfold pymin. intros Hb. destruct (flt b a) eqn:E; intros Ha.
  - now apply fle_refl.
  - now apply flt_false_fle.
Qed.

(** X15. The filter design is only ever asked for valid cutoffs: two filters
    that agree on every valid pair of cutoffs give the same
    [_bandpass_filter], whatever the band and the sample rate. *)
Theorem bandpass_filter_asks_valid_cutoffs
  (filter filter' : pyfloat -> pyfloat -> ndarray -> outcome ndarray)
  (samples : ndarray) (sample_rate : Z) (low_freq high_freq : pyfloat) :
  (forall lo hi, valid_cutoffs lo hi ->
     filter lo hi samples = filter' lo hi samples) ->
  _bandpass_filter filter samples sample_rate low_freq high_freq
  = _bandpass_filter filter' samples sample_rate low_freq high_freq.
Proof.
  intros Hagree. unfold _bandpass_filter.
  destruct (of_int sample_rate) as [sr|]; [|reflexivity].
  destruct (py_div sr f_two) as [nyquist|]; [|reflexivity]. cbn [bind].
  destruct (py_div low_freq nyquist) as [lo|]; [|reflexivity]. cbn [bind].
  destruct (py_div high_freq nyquist) as [hi|]; [|reflexivity]. cbn [bind].
  destruct (fge (pymax lo f_0_001) (pymin hi f_0_999)) eqn:E; [reflexivity|].
  rewrite Hagree; [reflexivity|].
  split; [exact E|]. split.
  - now apply pymax_at_least.
  - now apply pymin_at_most.
Qed.

Lemma bandpass_filter_asks_valid_cutoffs_witness :
  _bandpass_filter pass_through five_zeros 48000 f_2000 f_9000
  = _bandpass_filter strict_filter five_zeros 48000 f_2000 f_9000.
Proof.
  apply (bandpass_filter_asks_valid_cutoffs pass_through strict_filter).
  intros lo hi [H _]. unfold pass_through, strict_filter. rewrite H.
  reflexivity.
Defined.

(** X16. Filter problems degrade gracefully: for a positive sample rate
    [_bandpass_filter] never raises; it returns what the filter returned,
    and the samples unchanged when the band is empty after clamping or the
    filter raised. *)
Theorem bandpass_filter_degrades
  (butter_sosfilt : pyfloat -> pyfloat -> ndarray -> outcome ndarray)
  (samples : ndarray) (sample_rate : Z) (low_freq high_freq : pyfloat) :
  0 < sample_rate -> of_int sample_rate <> None ->
  exists filtered,
    _bandpass_filter butter_sosfilt samples sample_rate low_freq high_freq
    = Return filtered
    /\ (filtered = samples
        \/ exists lo hi,
             valid_cutoffs lo hi
             /\ butter_sosfilt lo hi samples = Return filtered)
    /\ ((forall lo hi e, butter_sosfilt lo hi samples <> Return e) ->
        filtered = samples).
Proof.
  intros Hpos Hfit.
  destruct (bandpass_filter_returns butter_sosfilt samples sample_rate
              low_freq high_freq Hpos Hfit) as [r Hr].
  exists r. split; [exact Hr|].
  unfold _bandpass_filter in Hr.
  destruct (of_int sample_rate) as [sr|]; [|discriminate].
  destruct (py_div sr f_two) as [nyquist|]; [|discriminate]. cbn [bind] in Hr.
  destruct (py_div low_freq nyquist) as [lo|]; [|discriminate].
  cbn [bind] in Hr.
  destruct (py_div high_freq nyquist) as [hi|]; [|discriminate].
  cbn [bind] in Hr.
  destruct (fge (pymax lo f_0_001) (pymin hi f_0_999)) eqn:E.
  - injection Hr as <-. split; [now left|reflexivity].
  - unfold try_except in Hr.
    destruct (butter_sosfilt (pymax lo f_0_001) (pymin hi f_0_999) samples)
      as [out|e] eqn:Ef; injection Hr as <-.
    + split.
      * right. exists (pymax lo f_0_001), (pymin hi f_0_999).
        split; [|exact Ef]. split; [exact E|].
        split; [now apply pymax_at_least | now apply pymin_at_most].
      * intros Hnever. exfalso. exact (Hnever _ _ _ Ef).
    + split; [now left|reflexivity].
Qed.

Lemma bandpass_filter_degrades_witness :
  exists filtered,
    _bandpass_filter failing_filter five_zeros 48000 f_2000 f_9000
    = Return filtered
    /\ (filtered = five_zeros
        \/ exists lo hi,
             valid_cutoffs lo hi
             /\ failing_filter lo hi five_zeros = Return filtered)
    /\ ((forall lo hi e, failing_filter lo hi five_zeros <> Return e) ->
        filtered = five_zeros).
Proof.
  apply (bandpass_filter_degrades failing_filter five_zeros 48000
           f_2000 f_9000).
  - lia.
  - vm_compute. discriminate.
Defined.

(** X17. A window of zeros is gated as SILENCE: for every array of zeros and
    every threshold above [-200.0] dB, [extract] followed by [evaluate]
    decides SILENCE (with [log10(1e-10) = -10.0] and a positive sample rate,
    as for [rms_total_db]). *)
Theorem zeros_are_silence (log10 : pyfloat -> pyfloat)
  (butter_sosfilt : pyfloat -> pyfloat -> ndarray -> outcome ndarray)
  (fmt1 : pyfloat -> string) (thresholds : Gate.GatingThresholds)
  (sample_rate : Z) (bird_band low_band : FrequencyBand) (samples : ndarray) :
  all_zero samples ->
  log10 f_1em10 = f_m10 ->
  0 < sample_rate -> of_int sample_rate <> None ->
  flt f_m200 (Gate.min_overall_rms_db thresholds) = true ->
  exists features,
    extract log10 butter_sosfilt sample_rate bird_band low_band samples
    = Return features
    /\ Gate.decision (Gate.evaluate fmt1 thresholds features) = Gate.SILENCE.
Proof.
  intros Hz Hlog Hpos Hfit Hthr. unfold extract.
  destruct (bandpass_filter_returns butter_sosfilt samples sample_rate
              (low bird_band) (high bird_band) Hpos Hfit) as [bf ->].
  destruct (bandpass_filter_returns butter_sosfilt samples sample_rate
              (low low_band) (high low_band) Hpos Hfit) as [lf ->].
  cbn [bind]. eexists. split; [reflexivity|].
  unfold Gate.evaluate. cbn [Gate.rms_total_db].
  assert (Hdb : _db_from_rms log10 (_rms samples) = f_m200).
  { unfold _db_from_rms.
    pose proof (rms_of_zeros samples Hz) as Hr.
    destruct (_rms samples); try contradiction.
    change (pymax (S754_zero s) f_1em10) with f_1em10.
    rewrite Hlog. reflexivity. }
  rewrite Hdb, Hthr. reflexivity.
Qed.

Lemma zeros_are_silence_witness :
  exists features,
    extract log10_at_floor pass_through 48000 bird_band_default
      low_band_default five_zeros
    = Return features
    /\ Gate.decision
         (Gate.evaluate (fun _ => EmptyString) Gate.quiet_thresholds features)
       = Gate.SILENCE.
Proof.
  apply (zeros_are_silence log10_at_floor pass_through (fun _ => EmptyString)
           Gate.quiet_thresholds 48000 bird_band_default low_band_default
           five_zeros).
  - repeat constructor.
  - reflexivity.
  - lia.
  - vm_compute. discriminate.
  - reflexivity.
Defined.

Definition band (lo hi : Z) : FrequencyBand :=
  {| low := match of_int lo with Some x => x | None => f_zero end;
     high := match of_int hi with Some x => x | None => f_zero end |}.

(** X19. For a band whose two frequencies are numbers,
    [FrequencyBand.__post_init__] accepts it exactly when [0 <= low < high].
    *)
Theorem frequency_band_validated (b : FrequencyBand) :
  is_nan (low b) = false -> is_nan (high b) = false ->
  (frequency_band_post_init b = Return tt
   <-> fle f_zero (low b) = true /\ flt (low b) (high b) = true).
Proof.
  intros Hl Hh. unfold frequency_band_post_init. split.
  - intros H.
    destruct (fge (low b) (high b)) eqn:E1; [discriminate|].
    destruct (flt (low b) f_zero) eqn:E2; [discriminate|].
    split.
    + now apply flt_false_fle.
    + destruct (flt (low b) (high b)) eqn:E3; [reflexivity|].
      pose proof (flt_false_fle _ _ Hl Hh E3) as E4.
      unfold fge in E1. unfold fle in E4. congruence.
  - intros [H0 Hlt].
    pose proof (flt_fle_excl _ _ Hlt) as E1. unfold fle in E1.
    unfold fge. rewrite E1.
    destruct (flt (low b) f_zero) eqn:E2; [|reflexivity].
    rewrite (flt_fle_excl _ _ E2) in H0. discriminate.
Qed.

Lemma frequency_band_validated_witness :
  frequency_band_post_init (band 20 500) = Return tt
  <-> fle f_zero (low (band 20 500)) = true
      /\ flt (low (band 20 500)) (high (band 20 500)) = true.
Proof.
  apply (frequency_band_validated (band 20 500)); reflexivity.
Defined.

(** A band whose [low] is NaN passes the validation. *)
Example nan_band_accepted (hi : pyfloat) :
  frequency_band_post_init {| low := S754_nan; high := hi |} = Return tt.
Proof. destruct hi; reflexivity. Qed.

End Features.

(** * pipeline.py: one window through the pipeline *)

Module Pipeline.
Import PyFloat Py.

(** What a run of the pipeline leaves behind: the storage, and the windows
    that were handed to the classifier (most recent first). *)
Record state (S : Type) : Type := {
  storage : S;
  analyzed : list Reader.AudioWindow
}.
Arguments storage {S} s.
Arguments analyzed {S} s.

(** [gate_result.decision == GateDecision.SEND_TO_BIRDNET] *)
Definition is_send (d : Gate.GateDecision) : bool :=
  match d with Gate.SEND_TO_BIRDNET => true | _ => false end.

Section StreamPipeline.
Context {S E : Type}.

Variable fmt1 : pyfloat -> string.
Variable thresholds : Gate.GatingThresholds.

(** The collaborators of [StreamPipeline]: [feature_extractor.extract] on
    the samples of a window, [birdnet_client.analyze] on its samples and
    sample rate, and [storage.log_window].  What the outside world does
    during the processing of one window (the classifier's answer, storage
    faults) is [env]; [isoformat] is [datetime.isoformat]. *)
Variable extract : Reader.AudioWindow -> outcome Gate.AudioFeatures.
Variable analyze : E -> Reader.AudioWindow -> outcome (list BirdNET.Detection).
Variable isoformat : Z -> string.
Variable log_window :
  E -> S -> string -> string -> Gate.AudioFeatures -> Gate.GateDecision ->
  string -> option (list BirdNET.Detection) -> outcome Z * S.

(** [_process_window]: the [except Exception] clause ends the processing
    of the window wherever an exception was raised; the method returns
    [None] in every case. *)
Definition _process_window (env : E) (st : state S)
  (window : Reader.AudioWindow) : state S :=
  match extract window with
  | Raise _ => st
  | Return features =>
      let gate_result := Gate.evaluate fmt1 thresholds features in
      let send := is_send (Gate.decision gate_result) in
      let analyzed' :=
        if send then window :: analyzed st else analyzed st in
      match (if send then analyze env window else Return []) with
      | Raise _ => {| storage := storage st; analyzed := analyzed' |}
      | Return detections =>
          let '(_, storage') :=
            log_window env (storage st)
              (isoformat (Reader.timestamp window))
              (Reader.stream_name window)
              features
              (Gate.decision gate_result)
              (Gate.reason gate_result)
              (match detections with [] => None | _ => Some detections end)
          in
          {| storage := storage'; analyzed := analyzed' |}
      end
  end.

(** [run]: the windows that the reader yields while [_running] holds, each
    with what the outside world does during its processing. *)
Definition run (st : state S) (windows : list (E * Reader.AudioWindow))
  : state S :=
  fold_left (fun st ew => _process_window (fst ew) st (snd ew)) windows st.

End StreamPipeline.

(** The pipeline on the SQLite back end. *)
Definition sqlite_log_window {E : Type} (sql : E -> SQLiteLog.sql_env)
  (site_id : string) (env : E) :=
  SQLiteLog.log_window (sql env) site_id.

Definition start : state SQLiteLog.database :=
  {| storage := SQLiteLog.empty_database; analyzed := [] |}.

(** What the stored detections owe to the gate and to the classifier's
    post-condition. *)
Record gate_kept (cfg : BirdNET.BirdNETConfig) (db : SQLiteLog.database)
  : Prop := {
  detections_passed_gate :
    Forall (fun d =>
              exists w,
                In w (SQLiteLog.windows db)
                /\ SQLiteLog.win_id w = SQLiteLog.det_window_id d
                /\ SQLiteLog.win_decision w = "SEND_TO_BIRDNET"%string)
      (SQLiteLog.detections db);
  detections_above_threshold :
    Forall (fun d => fge (SQLiteLog.det_confidence d)
                       (BirdNET.min_confidence cfg) = true)
      (SQLiteLog.detections db);
  detections_per_window :
    forall id,
      Z.of_nat (List.length
                  (filter (fun d => SQLiteLog.det_window_id d =? id)
                     (SQLiteLog.detections db)))
      <= BirdNET.top_n cfg
}.

(** A window for the examples, and collaborators that accept it. *)
Definition a_window : Reader.AudioWindow :=
  {| Reader.samples := [1 # 2]%Q; Reader.timestamp := 0;
     Reader.stream_name := "cam"; Reader.window_sample_rate := 48000;
     Reader.duration_seconds := f_one |}.

Definition loud_extract (w : Reader.AudioWindow) : outcome Gate.AudioFeatures :=
  Return Gate.loud_bird.

Definition http_analyze (body : value) (w : Reader.AudioWindow)
  : outcome (list BirdNET.Detection) :=
  BirdNET.analyze_http BirdNET.no_str_float BirdNET.default_config
    (BirdNET.env_http_ok body) [] (Reader.window_sample_rate w).

Definition never_fails (body : value) : SQLiteLog.sql_env :=
  SQLiteLog.no_faults.

(** ** Proofs *)

(** A window passes the gate when its features can be extracted and
    [evaluate] decides SEND_TO_BIRDNET. *)
Definition passes_gate (fmt1 : pyfloat -> string)
  (thresholds : Gate.GatingThresholds)
  (extract : Reader.AudioWindow -> outcome Gate.AudioFeatures)
  (w : Reader.AudioWindow) : bool :=
  match extract w with
  | Return features =>
      is_send (Gate.decision (Gate.evaluate fmt1 thresholds features))
  | Raise _ => false
  end.

(** X20. The classifier is called on exactly the windows that pass the gate,
    in the order of their arrival, whatever the classifier answers and
    whatever happens in the storage: a window gated as SILENCE or TRASH, or
    whose features could not be extracted, never reaches it. *)
Theorem classifier_sees_gated_windows {S E : Type} (fmt1 : pyfloat -> string)
  (thresholds : Gate.GatingThresholds)
  (extract : Reader.AudioWindow -> outcome Gate.AudioFeatures)
  (analyze : E -> Reader.AudioWindow -> outcome (list BirdNET.Detection))
  (isoformat : Z -> string)
  (log_window :
     E -> S -> string -> string -> Gate.AudioFeatures -> Gate.GateDecision ->
     string -> option (list BirdNET.Detection) -> outcome Z * S)
  (st : state S) (windows : list (E * Reader.AudioWindow)) :
  analyzed (run fmt1 thresholds extract analyze isoformat log_window st windows)
  = (rev (filter (passes_gate fmt1 thresholds extract) (map snd windows))
     ++ analyzed st)%list.
Proof.
  revert st. induction windows as [|[env w] windows IH]; intros st.
  - reflexivity.
  - cbn [run fold_left map filter fst snd] in *. unfold run in IH. rewrite IH.
    unfold _process_window, passes_gate.
    destruct (extract w) as [features|]; [|reflexivity].
    cbv zeta.
    destruct (is_send (Gate.decision (Gate.evaluate fmt1 thresholds features))).
    + cbn [rev]. rewrite <- app_assoc. cbn [app].
      destruct (analyze env w) as [dets|]; [|reflexivity].
      destruct (log_window env (storage st) _ _ _ _ _ _). reflexivity.
    + destruct (log_window env (storage st) _ _ _ _ _ _). reflexivity.
Qed.

Lemma rows_from_passing (cfg : BirdNET.BirdNETConfig) (window_id : Z)
  (ds : list BirdNET.Detection) :
  Forall (fun d => fge (BirdNET.confidence d) (BirdNET.min_confidence cfg)
                   = true) ds ->
  forall last_id,
    Forall (fun r => fge (SQLiteLog.det_confidence r)
                       (BirdNET.min_confidence cfg) = true)
      (SQLiteLog.rows_from last_id window_id ds).
Proof.
  induction 1 as [|d ds Hd _ IH]; intros last_id; cbn [SQLiteLog.rows_from];
    constructor; [|apply IH].
  cbn [SQLiteLog.det_confidence SQLiteLog.detection_to_row].
  now rewrite SQLiteLog.stored_real_fge.
Qed.

Lemma rows_from_length (window_id : Z) (ds : list BirdNET.Detection) :
  forall last_id,
    List.length (SQLiteLog.rows_from last_id window_id ds) = List.length ds.
Proof.
  induction ds as [|d ds IH]; intros last_id; cbn [SQLiteLog.rows_from List.length];
    [reflexivity | now rewrite IH].
Qed.

(** One [log_window] call of the pipeline keeps [gate_kept]. *)
Lemma log_window_gate_kept (cfg : BirdNET.BirdNETConfig)
  (env : SQLiteLog.sql_env) (site : string) (db : SQLiteLog.database)
  (ts sn : string) (f : Gate.AudioFeatures) (dec : Gate.GateDecision)
  (reason : string) (dets : option (list BirdNET.Detection)) :
  SQLiteLog.consistent db -> gate_kept cfg db ->
  0 <= BirdNET.top_n cfg ->
  (SQLiteLog.or_empty dets = [] \/ dec = Gate.SEND_TO_BIRDNET) ->
  BirdNET.analyze_post cfg (SQLiteLog.or_empty dets) ->
  gate_kept cfg (snd (SQLiteLog.log_window env site db ts sn f dec reason dets)).
Proof.
  intros [_ Hwc _ _ Hfk] [Hgate Hconf Hcount] Hn Hdec [_ [Hlen Hpass]].
  destruct (SQLiteLog.log_window_result env site db ts sn f dec reason dets)
    as [[e ->]| ->]; [now constructor|].
  destruct (SQLiteLog.rows_from_ids (SQLiteLog.seq_windows db + 1)
              (SQLiteLog.or_empty dets) (SQLiteLog.seq_detections db))
    as [_ Hrf].
  constructor; cbn [snd SQLiteLog.windows SQLiteLog.detections].
  - apply Forall_app. split.
    + revert Hgate. apply Forall_impl. intros d [w [Hw [Hid Hd]]].
      exists w. split; [apply in_or_app; now left | auto].
    + destruct Hdec as [->| ->]; [constructor|].
      revert Hrf. apply Forall_impl. intros r [_ [_ Hid]].
      eexists. split; [apply in_or_app; right; now left|].
      cbn [SQLiteLog.win_id SQLiteLog.win_decision SQLiteLog.window_to_row].
      split; [now rewrite Hid | reflexivity].
  - apply Forall_app. split; [exact Hconf|].
    now apply rows_from_passing.
  - intros id. rewrite filter_app, length_app.
    destruct (Z.eq_dec id (SQLiteLog.seq_windows db + 1)) as [->|Hne].
    + rewrite SQLiteLog.filter_none.
      * cbn [List.length]. rewrite Nat.add_0_l.
        pose proof (filter_length_le
                      (fun d => SQLiteLog.det_window_id d
                                =? SQLiteLog.seq_windows db + 1)
                      (SQLiteLog.rows_from (SQLiteLog.seq_detections db)
                         (SQLiteLog.seq_windows db + 1)
                         (SQLiteLog.or_empty dets))) as Hle.
        rewrite rows_from_length in Hle. lia.
      * rewrite Forall_forall in Hfk, Hwc |- *. intros d Hd.
        apply Z.eqb_neq. specialize (Hfk d Hd). apply in_map_iff in Hfk.
        destruct Hfk as [w [Hid Hw]]. specialize (Hwc w Hw). lia.
    + rewrite (SQLiteLog.filter_none _ (SQLiteLog.rows_from _ _ _)).
      * cbn [List.length]. rewrite Nat.add_0_r. apply Hcount.
      * revert Hrf. apply Forall_impl. intros r [_ [_ Hid]].
        apply Z.eqb_neq. lia.
Qed.

Lemma process_window_gate_kept {E : Type} (fmt1 : pyfloat -> string)
  (thresholds : Gate.GatingThresholds)
  (extract : Reader.AudioWindow -> outcome Gate.AudioFeatures)
  (analyze : E -> Reader.AudioWindow -> outcome (list BirdNET.Detection))
  (isoformat : Z -> string) (sql : E -> SQLiteLog.sql_env) (site_id : string)
  (cfg : BirdNET.BirdNETConfig) (env : E) (st : state SQLiteLog.database)
  (w : Reader.AudioWindow) :
  0 <= BirdNET.top_n cfg ->
  (forall env w l, analyze env w = Return l -> BirdNET.analyze_post cfg l) ->
  SQLiteLog.reachable (storage st) /\ gate_kept cfg (storage st) ->
  SQLiteLog.reachable
    (storage (_process_window fmt1 thresholds extract analyze isoformat
                (sqlite_log_window sql site_id) env st w))
  /\ gate_kept cfg
       (storage (_process_window fmt1 thresholds extract analyze isoformat
                   (sqlite_log_window sql site_id) env st w)).
Proof.
  intros Hn Hpost [Hr Hk]. unfold _process_window, sqlite_log_window.
  destruct (extract w) as [features|]; [|now split]. cbv zeta.
  pose proof (SQLiteLog.reachable_consistent_aux _ Hr) as Hc.
  destruct (Gate.decision (Gate.evaluate fmt1 thresholds features)) eqn:Ed;
    cbn [is_send].
  - match goal with
    | |- context [SQLiteLog.log_window ?a ?b ?c ?d ?e ?f ?g ?h ?i] =>
        pose proof (SQLiteLog.reach_log a b c d e f g h i Hr) as Hr';
        pose proof (log_window_gate_kept cfg a b c d e f g h i Hc Hk Hn) as Hk';
        destruct (SQLiteLog.log_window a b c d e f g h i) as [o db']
    end.
    cbn [storage snd] in *. split; [exact Hr'|]. apply Hk'.
    + now left.
    + now apply BirdNET.empty_post.
  - match goal with
    | |- context [SQLiteLog.log_window ?a ?b ?c ?d ?e ?f ?g ?h ?i] =>
        pose proof (SQLiteLog.reach_log a b c d e f g h i Hr) as Hr';
        pose proof (log_window_gate_kept cfg a b c d e f g h i Hc Hk Hn) as Hk';
        destruct (SQLiteLog.log_window a b c d e f g h i) as [o db']
    end.
    cbn [storage snd] in *. split; [exact Hr'|]. apply Hk'.
    + now left.
    + now apply BirdNET.empty_post.
  - destruct (analyze env w) as [dets|] eqn:Ea; [|now split].
    pose proof (Hpost env w dets Ea) as Hdets.
    match goal with
    | |- context [SQLiteLog.log_window ?a ?b ?c ?d ?e ?f ?g ?h ?i] =>
        pose proof (SQLiteLog.reach_log a b c d e f g h i Hr) as Hr';
        pose proof (log_window_gate_kept cfg a b c d e f g h i Hc Hk Hn) as Hk';
        destruct (SQLiteLog.log_window a b c d e f g h i) as [o db']
    end.
    cbn [storage snd] in *. split; [exact Hr'|]. apply Hk'.
    + now right.
    + destruct dets; [now apply BirdNET.empty_post | exact Hdets].
Qed.

(** X21. End to end on the SQLite back end: when the classifier keeps its
    post-condition (at most [top_n] detections, each of confidence at least
    [min_confidence]), then after any run of the pipeline from an empty
    database, whatever failed on the way, every stored detection belongs to
    a stored window that the gate decided to SEND_TO_BIRDNET, has a
    confidence of at least [min_confidence], and no window has more than
    [top_n] detections. *)
Theorem stored_detections_passed_the_gate {E : Type} (fmt1 : pyfloat -> string)
  (thresholds : Gate.GatingThresholds)
  (extract : Reader.AudioWindow -> outcome Gate.AudioFeatures)
  (analyze : E -> Reader.AudioWindow -> outcome (list BirdNET.Detection))
  (isoformat : Z -> string) (sql : E -> SQLiteLog.sql_env) (site_id : string)
  (cfg : BirdNET.BirdNETConfig) (windows : list (E * Reader.AudioWindow)) :
  0 <= BirdNET.top_n cfg ->
  (forall env w l, analyze env w = Return l -> BirdNET.analyze_post cfg l) ->
  gate_kept cfg
    (storage (run fmt1 thresholds extract analyze isoformat
                (sqlite_log_window sql site_id) start windows)).
Proof.
  intros Hn Hpost.
  assert (H : forall st,
            SQLiteLog.reachable (storage st) /\ gate_kept cfg (storage st) ->
            SQLiteLog.reachable
              (storage (run fmt1 thresholds extract analyze isoformat
                          (sqlite_log_window sql site_id) st windows))
            /\ gate_kept cfg
                 (storage (run fmt1 thresholds extract analyze isoformat
                             (sqlite_log_window sql site_id) st windows))).
  { induction windows as [|[env w] windows IH]; intros st Hst; [exact Hst|].
    cbn [run fold_left fst snd]. apply IH.
    now apply process_window_gate_kept with (cfg := cfg). }
  apply H. split; [apply SQLiteLog.reach_empty|].
  constructor; cbn; [constructor | constructor | exact (fun _ => Hn)].
Qed.

Lemma stored_detections_passed_the_gate_witness :
  gate_kept BirdNET.default_config
    (storage (run (fun _ => EmptyString) Gate.quiet_thresholds loud_extract
                http_analyze (fun _ => "2024-05-01T06:00:00"%string)
                (sqlite_log_window never_fails "site") start
                [(BirdNET.three_detections, a_window)]))
  /\ List.length
       (SQLiteLog.detections
          (storage (run (fun _ => EmptyString) Gate.quiet_thresholds
                      loud_extract http_analyze
                      (fun _ => "2024-05-01T06:00:00"%string)
                      (sqlite_log_window never_fails "site") start
                      [(BirdNET.three_detections, a_window)]))) = 2%nat.
Proof.
  split; [|reflexivity].
  apply (stored_detections_passed_the_gate (fun _ => EmptyString)
           Gate.quiet_thresholds loud_extract http_analyze
           (fun _ => "2024-05-01T06:00:00"%string) never_fails "site"
           BirdNET.default_config [(BirdNET.three_detections, a_window)]).
  - simpl. lia.
  - intros env w l. unfold http_analyze.
    apply BirdNET.analyze_http_post. simpl. lia.
Defined.

End Pipeline.
